(** * Order placement, optimistic concurrency and the handlers around them

    A shallow embedding of the data-access layer (package [data]) and of the
    HTTP handlers (package [main]) of the catalog backend, over an explicit
    model of the relational store.

    - A table is a finite map from the primary key to the row, or a list of
      rows where the table has no key the code uses.
    - Every statement is auto-committed: the code opens no transaction, so a
      repository method is a computation that threads the store and keeps
      what earlier statements wrote when a later one fails.
    - Integer columns are unbounded integers with the 32-bit range of
      [INTEGER]/[SERIAL] written out as a statement failure; prices
      ([NUMERIC(10,2)] read into [float64]) are exact numbers of hundredths,
      so the rounding of floating-point sums is not part of the model. *)

From stdpp Require Import gmap strings list pretty.
From Stdlib Require Import ZArith Lia Ascii.

Local Open Scope string_scope.
Local Open Scope Z_scope.

(** ** Errors *)

(** The sentinel errors of package [data], the sentinels of the two database
    packages the code tests with [errors.Is], and the errors of the driver.
    A [PgError] carries the SQLSTATE, the relation and the constraint: its
    text is
    [ERROR: new row for relation R violates check constraint C (SQLSTATE S)]
    for a check violation. *)
Inductive error : Type :=
  | ErrRecordNotFound
  | ErrEditConflict
  | ErrOutOfStock
  | pgx_ErrNoRows
  | sql_ErrNoRows
  | PgError (sqlstate relation constraint : string)
  | EncodeError (what : string)
  | ArityError (expected got : nat).

#[global] Instance error_eq_dec : EqDecision error.
Proof. solve_decision. Defined.

(** [errors.Is(err, target)] on sentinels. *)
Definition errors_Is (err target : error) : bool := bool_decide (err = target).

(** SQLSTATE codes the store answers with. *)
Definition check_violation : string := "23514".
Definition foreign_key_violation : string := "23503".
Definition string_data_right_truncation : string := "22001".
Definition numeric_value_out_of_range : string := "22003".

(** [INTEGER] and [SERIAL] columns and their parameters are 32-bit. *)
Definition int4 (n : Z) : bool := (-2147483648 <=? n) && (n <=? 2147483647).

(** [NUMERIC(10,2)], in hundredths: at most eight digits before the point. *)
Definition numeric_10_2 (n : Z) : bool := Z.abs n <? 10000000000.

(** [float64(n)] of an integer, in hundredths. *)
Definition float64 (n : Z) : Z := 100 * n.

(** ** Entities *)

Module Category.
Record t : Type := mk { ID : Z; Title : string; Image : string }.
End Category.

Module RatingSchema.
Record t : Type := mk { UserId : Z; Rating : Z; Comment : string }.
End RatingSchema.

Module Product.
(** [CreatedAt] and [TotalRatings] are left out: no modelled statement
    looks at them. In a stored row [ID] repeats the key, which is what a
    statement reads, and [Categories] and [Ratings] are not columns:
    [ProductModel.Get] fills them from the joined tables. *)
Record t : Type := mk {
  ID : Z;
  Title : string;
  Owner : Z;
  Description : string;
  Quantity : Z;
  Colors : list string;
  Images : list string;
  Price : Z;
  Version : Z;
  Categories : list Category.t;
  Ratings : list RatingSchema.t
}.

Definition with_ID (id : Z) (p : t) : t :=
  mk id (Title p) (Owner p) (Description p) (Quantity p) (Colors p)
     (Images p) (Price p) (Version p) (Categories p) (Ratings p).

Definition with_Version (v : Z) (p : t) : t :=
  mk (ID p) (Title p) (Owner p) (Description p) (Quantity p) (Colors p)
     (Images p) (Price p) v (Categories p) (Ratings p).

Definition with_Quantity (q : Z) (p : t) : t :=
  mk (ID p) (Title p) (Owner p) (Description p) q (Colors p)
     (Images p) (Price p) (Version p) (Categories p) (Ratings p).

Definition with_joined (cs : list Category.t) (rs : list RatingSchema.t)
    (p : t) : t :=
  mk (ID p) (Title p) (Owner p) (Description p) (Quantity p) (Colors p)
     (Images p) (Price p) (Version p) cs rs.
End Product.

Module OrderItem.
Record t : Type := mk { ProductId : Z; Quantity : Z }.
End OrderItem.

Module Order.
(** [OrderItems] is [None] for a nil slice. [OrderedAt] is left out. *)
Record t : Type := mk {
  ID : Z;
  Status : Z;
  Address : string;
  UserId : Z;
  TotalPrice : Z;
  OrderItems : option (list OrderItem.t);
  Version : Z
}.

Definition items (o : t) : list OrderItem.t := default [] (OrderItems o).

Definition with_Version (v : Z) (o : t) : t :=
  mk (ID o) (Status o) (Address o) (UserId o) (TotalPrice o) (OrderItems o) v.

Definition with_Status (s : Z) (o : t) : t :=
  mk (ID o) s (Address o) (UserId o) (TotalPrice o) (OrderItems o)
     (Version o).

Definition with_inserted (id user : Z) (o : t) : t :=
  mk id (Status o) (Address o) user (TotalPrice o) (OrderItems o) (Version o).

Definition with_TotalPrice (p : Z) (o : t) : t :=
  mk (ID o) (Status o) (Address o) (UserId o) p (OrderItems o) (Version o).
End Order.

Module User.
(** Only the columns of the [users] table that the update path named in
    the specification needs. *)
Record t : Type := mk { ID : Z; Name : string; Email : string; Version : Z }.

Definition with_Version (v : Z) (u : t) : t := mk (ID u) (Name u) (Email u) v.
End User.

(** ** The store *)

(** A row of [order_items]: its own serial id is never read back. *)
Record order_items_row : Type :=
  mk_order_items_row { oi_order_id : Z; oi_product_id : Z; oi_quantity : Z }.

(** A row of [ratings]. *)
Record ratings_row : Type := mk_ratings_row {
  r_product_id : Z;
  r_user_id : Z;
  r_rating : Z;
  r_comment : string
}.

(** What the migrations under [migrations/] leave open, and what belongs to
    the driver rather than to the tables.

    - [quantity_check]: the name of a [CHECK (quantity >= 0)] constraint on
      [products], if the table has one. The table as created has none;
      [OrderModel.Insert] tests for a violation of a constraint called
      [quantity_check].
    - [arity_checked]: whether the driver refuses a statement that is given
      more arguments than it has placeholders (pgx does). *)
Record Config : Type := mk_Config {
  quantity_check : option string;
  arity_checked : bool
}.

(** The tables, and [calls]: the count of the [QueryRow], [Query] and
    [Exec] calls made on the pool. [orders_id_seq] is the last id the
    sequence of [orders.id] gave out. *)
Record DB : Type := mk_DB {
  config : Config;
  users : gmap Z User.t;
  products : gmap Z Product.t;
  categories : gmap Z Category.t;
  product_category : list (Z * Z);
  orders : gmap Z Order.t;
  orders_id_seq : Z;
  order_items : list order_items_row;
  ratings : list ratings_row;
  calls : nat
}.

Definition with_products (ps : gmap Z Product.t) (db : DB) : DB :=
  mk_DB (config db) (users db) ps (categories db) (product_category db)
        (orders db) (orders_id_seq db) (order_items db) (ratings db)
        (calls db).

Definition with_categories (cs : gmap Z Category.t) (db : DB) : DB :=
  mk_DB (config db) (users db) (products db) cs (product_category db)
        (orders db) (orders_id_seq db) (order_items db) (ratings db)
        (calls db).

Definition with_users (us : gmap Z User.t) (db : DB) : DB :=
  mk_DB (config db) us (products db) (categories db) (product_category db)
        (orders db) (orders_id_seq db) (order_items db) (ratings db)
        (calls db).

Definition with_orders (os : gmap Z Order.t) (seq : Z) (db : DB) : DB :=
  mk_DB (config db) (users db) (products db) (categories db)
        (product_category db) os seq (order_items db) (ratings db) (calls db).

Definition with_order_items (ois : list order_items_row) (db : DB) : DB :=
  mk_DB (config db) (users db) (products db) (categories db)
        (product_category db) (orders db) (orders_id_seq db) ois
        (ratings db) (calls db).

Definition with_ratings (rs : list ratings_row) (db : DB) : DB :=
  mk_DB (config db) (users db) (products db) (categories db)
        (product_category db) (orders db) (orders_id_seq db)
        (order_items db) rs (calls db).

(** ** Computations over the store *)

(** A repository method: it reads and writes the store and ends with an
    error or a value. The store that comes out is the store as the method
    left it, also when it ends with an error. *)
Definition M (A : Type) : Type := DB -> (error + A) * DB.

Definition ret {A} (a : A) : M A := fun db => (inr a, db).
Definition fail {A} (e : error) : M A := fun db => (inl e, db).
Definition bind {A B} (m : M A) (k : A -> M B) : M B :=
  fun db =>
    match m db with
    | (inl e, db') => (inl e, db')
    | (inr a, db') => k a db'
    end.

Notation "'let!' x ':=' m 'in' k" := (bind m (fun x => k))
  (at level 10, x pattern, m at level 100, k at level 200).

Definition put (db' : DB) : M unit := fun _ => (inr tt, db').
Definition guard (b : bool) (e : error) : M unit :=
  if b then ret tt else fail e.

(** The [switch] that follows a failed call: the error is replaced, the
    store is what the call left. *)
Definition map_err {A} (f : error -> error) (m : M A) : M A :=
  fun db =>
    match m db with
    | (inl e, db') => (inl (f e), db')
    | (inr a, db') => (inr a, db')
    end.

(** One [QueryRow], [Query] or [Exec] on the pool: it is counted, and the
    statement sees the store as it is. *)
Definition tick (db : DB) : DB :=
  mk_DB (config db) (users db) (products db) (categories db)
        (product_category db) (orders db) (orders_id_seq db)
        (order_items db) (ratings db) (S (calls db)).

Definition call : M DB := fun db => (inr (tick db), tick db).

(** ** Column types *)

Definition is_space (c : ascii) : bool := bool_decide (c = " "%char).

Fixpoint all_spaces (s : string) : bool :=
  match s with
  | EmptyString => true
  | String c s' => is_space c && all_spaces s'
  end.

(** Storing into [VARCHAR(n)]: a longer string is refused unless all that
    exceeds [n] is spaces, which are cut off. Characters are single
    bytes here. *)
Definition varchar (n : nat) (s : string) : option string :=
  if (String.length s <=? n)%nat then Some s
  else if all_spaces (String.substring n (String.length s - n) s)
       then Some (String.substring 0 n s)
       else None.

(** ** Statements *)

Module SQL.

(** [SELECT product_id, ..., version FROM products WHERE product_id = $1] *)
Definition select_product (id : Z) : M Product.t :=
  let! db := call in
  let! _ := guard (int4 id) (EncodeError "product_id") in
  match products db !! id with
  | Some row => ret (Product.with_ID id row)
  | None => fail pgx_ErrNoRows
  end.

(** Modelled from the spec: the migration that adds the check constraint
    on [products.quantity] is not among the sources. It is the
    non-negativity constraint on the quantity: a write that would leave
    the quantity below 0 is refused. *)
Definition quantity_checked (db : DB) (quantity : Z) : M unit :=
  match quantity_check (config db) with
  | Some name =>
      guard (0 <=? quantity) (PgError check_violation "products" name)
  | None => ret tt
  end.

(** [UPDATE products SET quantity = quantity - $1, version = version + 1
     WHERE product_id = $2 AND version = $3 RETURNING version] *)
Definition update_products_reserve (quantity id version : Z) : M Z :=
  let! db := call in
  let! _ := guard (int4 quantity) (EncodeError "quantity") in
  let! _ := guard (int4 id) (EncodeError "product_id") in
  let! _ := guard (int4 version) (EncodeError "version") in
  match products db !! id with
  | Some row =>
      if Product.Version row =? version then
        let quantity' := Product.Quantity row - quantity in
        let version' := Product.Version row + 1 in
        let! _ := guard (int4 quantity' && int4 version')
                        (PgError numeric_value_out_of_range "" "") in
        let! _ := quantity_checked db quantity' in
        let row' := Product.with_Version version'
                      (Product.with_Quantity quantity' row) in
        let! _ := put (with_products (<[id := row']> (products db)) db) in
        ret version'
      else fail pgx_ErrNoRows
  | None => fail pgx_ErrNoRows
  end.

(** [UPDATE products SET title = $1, owner = $2, description = $3,
     images = $4, colors = $5, quantity = $6, price = $7,
     version = version + 1
     WHERE product_id = $8 AND version = $9 RETURNING version];
    [title] is [VARCHAR(255)], [colors] is [varchar(20)[]], [price] is
    [NUMERIC(10,2)] and [owner] references [users]. A price is a number
    of whole hundredths, which the column keeps as it is; a price sent
    with more decimals, which the column rounds, is not among them. *)
Definition update_products (p : Product.t) : M Z :=
  let! db := call in
  let! _ := guard (int4 (Product.Owner p)) (EncodeError "owner") in
  let! _ := guard (int4 (Product.Quantity p)) (EncodeError "quantity") in
  let! _ := guard (int4 (Product.ID p)) (EncodeError "product_id") in
  let! _ := guard (int4 (Product.Version p)) (EncodeError "version") in
  match products db !! Product.ID p with
  | Some row =>
      if Product.Version row =? Product.Version p then
        let version' := Product.Version row + 1 in
        let! _ := guard (int4 version')
                        (PgError numeric_value_out_of_range "" "") in
        let! _ := guard (numeric_10_2 (Product.Price p))
                        (PgError numeric_value_out_of_range "" "") in
        match varchar 255 (Product.Title p),
              mapM (varchar 20) (Product.Colors p) with
        | Some title, Some colors =>
            let! _ := quantity_checked db (Product.Quantity p) in
            let! _ := guard (bool_decide
                               (is_Some (users db !! Product.Owner p)))
                            (PgError foreign_key_violation "products"
                                     "products_owner_fkey") in
            let row' :=
              Product.mk (Product.ID row) title (Product.Owner p)
                (Product.Description p) (Product.Quantity p)
                colors (Product.Images p) (Product.Price p)
                version' (Product.Categories row) (Product.Ratings row) in
            let! _ := put (with_products
                             (<[Product.ID p := row']> (products db)) db) in
            ret version'
        | _, _ => fail (PgError string_data_right_truncation "" "")
        end
      else fail pgx_ErrNoRows
  | None => fail pgx_ErrNoRows
  end.

(** [DELETE FROM products WHERE product_id = $1 RETURNING product_id];
    [order_items] and [ratings] reference [products] with
    [ON DELETE CASCADE]. The migration of [product_category] is not among
    the sources: its rows are left as they are. *)
Definition delete_product (id : Z) : M Z :=
  let! db := call in
  let! _ := guard (int4 id) (EncodeError "product_id") in
  match products db !! id with
  | Some row =>
      let db1 := with_products (delete id (products db)) db in
      let db2 := with_order_items
                   (filter (fun r => oi_product_id r ≠ id) (order_items db1))
                   db1 in
      let db3 := with_ratings
                   (filter (fun r => r_product_id r ≠ id) (ratings db2)) db2 in
      let! _ := put db3 in
      ret id
  | None => fail pgx_ErrNoRows
  end.

(** [INSERT INTO orders (user_id, total_price, address)
     VALUES ($1, $2, $3) RETURNING id, ordered_at, user_id];
    [status] defaults to 0 and [version] to 1. An id drawn by a refused
    insert is not counted. *)
Definition insert_orders (user_id total_price : Z) (address : string)
    : M (Z * Z) :=
  let! db := call in
  let! _ := guard (int4 user_id) (EncodeError "user_id") in
  let! _ := guard (numeric_10_2 total_price)
                  (PgError numeric_value_out_of_range "" "") in
  match varchar 255 address with
  | None => fail (PgError string_data_right_truncation "" "")
  | Some address' =>
      let id := orders_id_seq db + 1 in
      let! _ := guard (int4 id) (PgError numeric_value_out_of_range "" "") in
      let! _ := guard (bool_decide (is_Some (users db !! user_id)))
                      (PgError foreign_key_violation "orders"
                               "orders_user_id_fkey") in
      let row := Order.mk id 0 address' user_id total_price None 1 in
      let! _ := put (with_orders (<[id := row]> (orders db)) id db) in
      ret (id, user_id)
  end.

(** [INSERT INTO order_items (order_id, product_id, quantity)
     VALUES ($1, $2, $3) returning id] *)
Definition insert_order_items (order_id product_id quantity : Z) : M unit :=
  let! db := call in
  let! _ := guard (int4 order_id) (EncodeError "order_id") in
  let! _ := guard (int4 product_id) (EncodeError "product_id") in
  let! _ := guard (int4 quantity) (EncodeError "quantity") in
  let! _ := guard (bool_decide (is_Some (orders db !! order_id)))
                  (PgError foreign_key_violation "order_items"
                           "order_items_order_id_fkey") in
  let! _ := guard (bool_decide (is_Some (products db !! product_id)))
                  (PgError foreign_key_violation "order_items"
                           "order_items_product_id_fkey") in
  put (with_order_items
         (order_items db ++ [mk_order_items_row order_id product_id quantity])
         db).

(** [SELECT id, user_id, ordered_at, status, total_price, address, version
     FROM orders WHERE id = $1] *)
Definition select_order (id : Z) : M Order.t :=
  let! db := call in
  let! _ := guard (int4 id) (EncodeError "id") in
  match orders db !! id with
  | Some row => ret (Order.with_inserted id (Order.UserId row) row)
  | None => fail pgx_ErrNoRows
  end.

(** [UPDATE orders SET status = $1 WHERE id = $2 AND version = $3
     RETURNING version] *)
Definition update_orders (status id version : Z) : M Z :=
  let! db := call in
  let! _ := guard (int4 status) (EncodeError "status") in
  let! _ := guard (int4 id) (EncodeError "id") in
  let! _ := guard (int4 version) (EncodeError "version") in
  match orders db !! id with
  | Some row =>
      if Order.Version row =? version then
        let row' := Order.with_Status status row in
        let! _ := put (with_orders (<[id := row']> (orders db))
                                   (orders_id_seq db) db) in
        ret (Order.Version row')
      else fail pgx_ErrNoRows
  | None => fail pgx_ErrNoRows
  end.

(** [DELETE FROM orders WHERE id = $1 returning user_id]; [order_items]
    references [orders] with [ON DELETE CASCADE]. *)
Definition delete_order (id : Z) : M Z :=
  let! db := call in
  let! _ := guard (int4 id) (EncodeError "id") in
  match orders db !! id with
  | Some row =>
      let db1 := with_orders (delete id (orders db)) (orders_id_seq db) db in
      let db2 := with_order_items
                   (filter (fun r => oi_order_id r ≠ id) (order_items db1))
                   db1 in
      let! _ := put db2 in
      ret (Order.UserId row)
  | None => fail pgx_ErrNoRows
  end.

(** Whether some order of [user_id] has an item for [product_id]: the
    join of [orders] and [order_items]. *)
Definition ordered (db : DB) (user_id product_id : Z) : bool :=
  existsb (fun r =>
             (oi_product_id r =? product_id) &&
             match orders db !! oi_order_id r with
             | Some o => Order.UserId o =? user_id
             | None => false
             end)
          (order_items db).

(** [Select exists(SELECT ... FROM orders JOIN order_items
       ON orders.id = order_items.order_id
     WHERE orders.user_id = 3 AND order_items.product_id = 9)],
    called with [args]: the text has no placeholder. *)
Definition select_exists_order (args : list Z) : M bool :=
  let! db := call in
  let! _ := guard (negb (arity_checked (config db)) ||
                     bool_decide (length args = 0%nat))
                  (ArityError 0 (length args)) in
  ret (ordered db 3 9).

(** [UPDATE categories SET title = $1, image = $2 WHERE id = $3
     RETURNING id] *)
Definition update_categories (title image : string) (id : Z) : M Z :=
  let! db := call in
  let! _ := guard (int4 id) (EncodeError "id") in
  match categories db !! id with
  | Some row =>
      let! _ := put (with_categories
                       (<[id := Category.mk id title image]> (categories db))
                       db) in
      ret id
  | None => fail pgx_ErrNoRows
  end.

(** [SELECT categories.id, categories.title, categories.image
     FROM categories JOIN product_category pc ... JOIN products p ...
     WHERE p.product_id = $1] *)
Definition select_categories_of (product_id : Z) : M (list Category.t) :=
  let! db := call in
  let! _ := guard (int4 product_id) (EncodeError "product_id") in
  ret (if bool_decide (is_Some (products db !! product_id))
       then omap (fun pc => if bool_decide (pc.1 = product_id)
                            then categories db !! pc.2 else None)
                 (product_category db)
       else []).

(** [SELECT user_id, rating, comment FROM ratings WHERE product_id = $1] *)
Definition select_ratings (product_id : Z) : M (list RatingSchema.t) :=
  let! db := call in
  let! _ := guard (int4 product_id) (EncodeError "product_id") in
  ret (omap (fun r => if bool_decide (r_product_id r = product_id)
                      then Some (RatingSchema.mk (r_user_id r) (r_rating r)
                                                 (r_comment r))
                      else None)
            (ratings db)).

(** [INSERT INTO ratings (product_id, user_id, rating, comment)
     VALUES ($1, $2, $3, $4) RETURNING product_id]; [product_id]
    references [products] and [user_id] references [categories(id)]. *)
Definition insert_ratings (product_id user_id rating : Z) (comment : string)
    : M Z :=
  let! db := call in
  let! _ := guard (int4 product_id) (EncodeError "product_id") in
  let! _ := guard (int4 user_id) (EncodeError "user_id") in
  let! _ := guard (int4 rating) (EncodeError "rating") in
  let! _ := guard (bool_decide (is_Some (products db !! product_id)))
                  (PgError foreign_key_violation "ratings"
                           "ratings_product_id_fkey") in
  let! _ := guard (bool_decide (is_Some (categories db !! user_id)))
                  (PgError foreign_key_violation "ratings"
                           "ratings_user_id_fkey") in
  let! _ := put (with_ratings
                   (ratings db ++
                    [mk_ratings_row product_id user_id rating comment]) db) in
  ret product_id.

(** [SELECT title, image FROM categories WHERE id = $1] *)
Definition select_category (id : Z) : M (string * string) :=
  let! db := call in
  let! _ := guard (int4 id) (EncodeError "id") in
  match categories db !! id with
  | Some row => ret (Category.Title row, Category.Image row)
  | None => fail pgx_ErrNoRows
  end.

(** [DELETE FROM categories WHERE id = $1], read with [QueryRow] and a
    [Scan] of three columns: the statement has no [RETURNING], it yields
    no row whether or not it deleted one, and the [Scan] ends in
    [pgx.ErrNoRows]. [ratings.user_id] references [categories(id)] with
    [ON DELETE CASCADE]. *)
Definition delete_category (id : Z) : M Category.t :=
  let! db := call in
  let! _ := guard (int4 id) (EncodeError "id") in
  let db1 := with_categories (delete id (categories db)) db in
  let db2 := with_ratings
               (filter (fun r => r_user_id r ≠ id) (ratings db1)) db1 in
  let! _ := put db2 in
  fail pgx_ErrNoRows.

(** [SELECT product_id, quantity FROM order_items WHERE order_id = $1] *)
Definition select_order_items (order_id : Z) : M (list OrderItem.t) :=
  let! db := call in
  let! _ := guard (int4 order_id) (EncodeError "order_id") in
  ret (omap (fun r => if bool_decide (oi_order_id r = order_id)
                      then Some (OrderItem.mk (oi_product_id r)
                                              (oi_quantity r))
                      else None)
            (order_items db)).

End SQL.

(** ** Package [validator] and the list filters *)

Module validator.

(** Modelled from the spec: package [validator] is not among the sources.
    It accumulates named-field violations; the caller inspects the
    field-to-message pairs on failure. *)
Definition Validator : Type := list (string * string).

(** Modelled from the spec: a validator with no violation yet. *)
Definition New : Validator := [].

(** Modelled from the spec: a rule that does not hold adds a violation
    under its field; the violations accumulate. *)
Definition Check (ok : bool) (key message : string) (v : Validator)
    : Validator :=
  if ok then v else (v ++ [(key, message)])%list.

(** Modelled from the spec: the [valid()] query, true when no rule was
    violated. *)
Definition Valid (v : Validator) : bool :=
  match v with
  | [] => true
  | _ :: _ => false
  end.

(** Modelled from the spec: membership in an allow-list. *)
Definition PermittedValue (value : string) (permitted : list string) : bool :=
  bool_decide (value ∈ permitted).

End validator.

(** The fields are those the handlers assign; the declarations themselves
    are not among the sources. *)
Record Filters : Type := mk_Filters {
  Page : Z;
  PageSize : Z;
  Sort : string;
  SortSafelist : list string
}.

(** Modelled from the spec: the declaration of [Metadata] is not among
    the sources. It holds the current page, the page size, the total
    records and the total pages. *)
Record Metadata : Type := mk_Metadata {
  page : Z;
  page_size : Z;
  total_records : Z;
  total_pages : Z
}.

(** The least integer not below [a / b], for [b > 0]. *)
Definition ceil_div (a b : Z) : Z := - ((- a) / b).

(** Modelled from the spec: [calculateMetadata] is not among the sources.
    The metadata holds the current page, the page size, the total records
    and total pages = ceil(total / page_size); if the total is 0 the
    metadata is all zeros and no division is performed. (The testable
    property for a total of 0 has the requested page and size reported;
    the records and the pages are 0 in both.) *)
Definition calculateMetadata (totalRecords page pageSize : Z) : Metadata :=
  if totalRecords =? 0 then mk_Metadata 0 0 0 0
  else mk_Metadata page pageSize totalRecords (ceil_div totalRecords pageSize).

Section ValidateFilters.

(** The checks on [Page] and [PageSize], as condition, field and message:
    the specification leaves their bounds open. *)
Variable paging_checks : Filters -> list (bool * string * string).

(** Modelled from the spec: [ValidateFilters] is not among the sources.
    A sort key outside the allow-list must fail validation. *)
Definition ValidateFilters (v : validator.Validator) (f : Filters)
    : validator.Validator :=
  validator.Check
    (validator.PermittedValue (Sort f) (SortSafelist f))
    "sort" "invalid sort value"
    (fold_left (fun v c => validator.Check c.1.1 c.1.2 c.2 v)
               (paging_checks f) v).

End ValidateFilters.

(** ** Formatting *)

(** [strconv.Itoa], and the verb [%d], on a number that is not negative. *)
Definition Itoa (n : nat) : string := pretty n.

(** [fmt.Sprintf(format, arg)] with a string for the verb [%s]: the first
    [%s] of the format is replaced by the argument as it is. *)
Fixpoint Sprintf_s (format arg : string) : string :=
  match format with
  | String "%" (String "s" rest) => arg +:+ rest
  | String c rest => String c (Sprintf_s rest arg)
  | EmptyString => EmptyString
  end.

(** [fmt.Sprintf(format, n)] with a number for the verb [%d]. *)
Fixpoint Sprintf_d (format : string) (n : nat) : string :=
  match format with
  | String "%" (String "d" rest) => Itoa n +:+ rest
  | String c rest => String c (Sprintf_d rest n)
  | EmptyString => EmptyString
  end.

(** ** The repositories *)

(** [case errors.Is(err, sql.ErrNoRows): e; case errors.Is(err, pgx.ErrNoRows):
    e; default: err] *)
Definition no_rows_as (e : error) (err : error) : error :=
  if errors_Is err sql_ErrNoRows then e
  else if errors_Is err pgx_ErrNoRows then e
  else err.

Module ProductModel.

Definition ValidateReview (v : validator.Validator) (review : RatingSchema.t)
    : validator.Validator :=
  let v := validator.Check (0 <=? RatingSchema.Rating review)
             "rating" "must not be less than 0" v in
  validator.Check (0 <=? RatingSchema.UserId review)
    "user_id" "must be provided" v.

Definition GetReviews (productId : Z) : M (list RatingSchema.t) :=
  if productId <? 1 then fail ErrRecordNotFound
  else SQL.select_ratings productId.

Definition Get (id : Z) : M Product.t :=
  if id <? 1 then fail ErrRecordNotFound
  else
    let! product :=
      map_err (no_rows_as ErrRecordNotFound) (SQL.select_product id) in
    let! categories := SQL.select_categories_of (Product.ID product) in
    let! reviews := GetReviews (Product.ID product) in
    ret (Product.with_joined categories reviews product).

(** On success the product carries the version the statement returns. *)
Definition Update (product : Product.t) : M Product.t :=
  let! version :=
    map_err (no_rows_as ErrEditConflict) (SQL.update_products product) in
  ret (Product.with_Version version product).

Definition Delete (id : Z) : M unit :=
  if id <? 1 then fail pgx_ErrNoRows
  else
    let! _ :=
      map_err (no_rows_as ErrRecordNotFound) (SQL.delete_product id) in
    ret tt.

Definition InsertReview (rating : RatingSchema.t) (productId : Z) : M unit :=
  let! _ := SQL.insert_ratings productId (RatingSchema.UserId rating)
              (RatingSchema.Rating rating) (RatingSchema.Comment rating) in
  ret tt.

Section GetAll.

(** The rows the listing statement selects, each with the window count:
    the full-text match on the title, the category clause, the ordering
    and [LIMIT]/[OFFSET] are the store's. *)
Variable listing :
  string -> list string -> Filters -> DB -> error + list (Z * Product.t).

Fixpoint GetAll_rows (rows : list (Z * Product.t)) (totalRecords : Z)
    : M (Z * list Product.t) :=
  match rows with
  | [] => ret (totalRecords, [])
  | (count, product) :: rest =>
      let! categories := SQL.select_categories_of (Product.ID product) in
      let! reviews := GetReviews (Product.ID product) in
      let! (total, products) := GetAll_rows rest count in
      ret (total, Product.with_joined categories reviews product :: products)
  end.

Definition GetAll (title : string) (categories : list string)
    (filters : Filters) : M (list Product.t * Metadata) :=
  let! db := call in
  match listing title categories filters db with
  | inl err => fail err
  | inr rows =>
      let! (totalRecords, products) := GetAll_rows rows 0 in
      ret (products,
           calculateMetadata totalRecords (Page filters) (PageSize filters))
  end.

End GetAll.

(** The clause that [GetAll] puts into its statement for the categories
    asked for: the loop runs over the indexes of the slice. *)
Fixpoint categoriesClause_range (i : nat) (categories : list string)
    (categoriesClause : string) : string :=
  match categories with
  | [] => categoriesClause
  | _ :: rest =>
      categoriesClause_range (S i) rest
        (if (i =? 0)%nat
         then Sprintf_s categoriesClause (Itoa (i + 2))
         else categoriesClause +:+ Sprintf_d ", %d" (i + 2))
  end.

Definition categoriesClause (categories : list string) : string :=
  let clause := "" in
  let clause :=
    if (1 <? length categories)%nat
    then categoriesClause_range 0 categories "AND pc.category_id IN (%s"
         +:+ ")"
    else clause in
  if (length categories =? 1)%nat
  then Sprintf_s "AND pc.category_id IN (%s)" (hd "" categories)
  else clause.

End ProductModel.

Module OrderModel.

Definition ValidateOrder (v : validator.Validator) (order : Order.t)
    : validator.Validator :=
  let v := validator.Check (negb (bool_decide (Order.Address order = "")))
             "address" "must be provided" v in
  let v := validator.Check (0 <=? Order.UserId order)
             "user" "must be provided" v in
  let v := validator.Check (bool_decide (is_Some (Order.OrderItems order)))
             "order_items" "must be provided" v in
  validator.Check (1 <=? Z.of_nat (length (Order.items order)))
    "order_items" "must contain at least 1 order item" v.

(** [err.Error()] is the text of a violation of the check constraint
    [quantity_check] of relation [products], SQLSTATE 23514. *)
Definition is_quantity_check_violation (err : error) : bool :=
  bool_decide (err = PgError check_violation "products" "quantity_check").

(** The [switch] after the stock update. *)
Definition reserve_switch (err : error) : error :=
  if is_quantity_check_violation err then ErrOutOfStock
  else if errors_Is err pgx_ErrNoRows then ErrRecordNotFound
  else err.

(** The body of the loop over the items, up to the read of the product. *)
Definition Insert_select (item : OrderItem.t) : M Product.t :=
  if OrderItem.ProductId item <? 1 then fail ErrRecordNotFound
  else map_err (no_rows_as ErrRecordNotFound)
               (SQL.select_product (OrderItem.ProductId item)).

(** The body of the loop from the stock update on: [product] is the row
    as it was read. *)
Definition Insert_update (item : OrderItem.t) (product : Product.t)
    : M Product.t :=
  let! version :=
    map_err reserve_switch
      (SQL.update_products_reserve (OrderItem.Quantity item)
         (Product.ID product) (Product.Version product)) in
  ret (Product.with_Version version product).

Fixpoint Insert_reserve (items : list OrderItem.t) (totalPrice : Z) : M Z :=
  match items with
  | [] => ret totalPrice
  | item :: rest =>
      let! product := Insert_select item in
      let! product := Insert_update item product in
      Insert_reserve rest
        (totalPrice +
         (Product.Price product + float64 (OrderItem.Quantity item)))
  end.

Fixpoint Insert_items (order_id : Z) (items : list OrderItem.t) : M unit :=
  match items with
  | [] => ret tt
  | item :: rest =>
      let! _ := SQL.insert_order_items order_id (OrderItem.ProductId item)
                  (OrderItem.Quantity item) in
      Insert_items order_id rest
  end.

(** The order that comes out is the caller's order as the method has
    filled it in; it is given on success. *)
Definition Insert (userId : Z) (order : Order.t) : M Order.t :=
  let! totalPrice := Insert_reserve (Order.items order) 0 in
  let! (id, user_id) :=
    SQL.insert_orders userId totalPrice (Order.Address order) in
  let order := Order.with_inserted id user_id order in
  let order := Order.with_TotalPrice totalPrice order in
  let! _ := Insert_items (Order.ID order) (Order.items order) in
  ret order.

Definition Get (id : Z) : M Order.t :=
  if id <? 1 then fail ErrRecordNotFound
  else map_err (no_rows_as ErrRecordNotFound) (SQL.select_order id).

Definition Update (order : Order.t) : M Order.t :=
  let! version :=
    map_err (no_rows_as ErrEditConflict)
      (SQL.update_orders (Order.Status order) (Order.ID order)
         (Order.Version order)) in
  ret (Order.with_Version version order).

Definition Delete (id : Z) : M unit :=
  if id <? 1 then fail pgx_ErrNoRows
  else
    let! _ := map_err (no_rows_as ErrRecordNotFound) (SQL.delete_order id) in
    ret tt.

Definition IsUserOrderedProduct (userId productId : Z) : M bool :=
  if productId <? 1 then fail ErrRecordNotFound
  else map_err (no_rows_as ErrRecordNotFound)
               (SQL.select_exists_order [userId; productId]).

Definition ValidateUpdatedOrder (v : validator.Validator) (order : Order.t)
    : validator.Validator :=
  let v := validator.Check (negb (bool_decide (Order.Address order = "")))
             "address" "must be provided" v in
  let v := validator.Check (0 <=? Order.UserId order)
             "user" "must be provided" v in
  let v := validator.Check (0 <=? Order.Status order)
             "status" "must be greater or equal to zero" v in
  let v := validator.Check (negb (Order.TotalPrice order =? 0))
             "total_price" "must be provided" v in
  validator.Check (0 <? Order.TotalPrice order)
    "total_price" "must be a positive value" v.

Section GetAllOrdersForUser.

(** The rows of [orders] that the first statement selects for a user,
    each with the window count: the ordering and [LIMIT]/[OFFSET] are the
    store's. *)
Variable orders_page : Z -> Filters -> DB -> error + list (Z * Order.t).

(** The columns the first statement reads into an order: the user and the
    version are not among them. *)
Definition scan_listed (row : Order.t) : Order.t :=
  Order.mk (Order.ID row) (Order.Status row) (Order.Address row) 0
           (Order.TotalPrice row) None 0.

(** [append] of the item rows to the items of an order. *)
Definition append_items (order : Order.t) (rows : list OrderItem.t)
    : Order.t :=
  match rows with
  | [] => order
  | _ :: _ =>
      Order.mk (Order.ID order) (Order.Status order) (Order.Address order)
               (Order.UserId order) (Order.TotalPrice order)
               (Some (Order.items order ++ rows)%list) (Order.Version order)
  end.

Fixpoint GetAllOrdersForUser_items (orders : list Order.t)
    : M (list Order.t) :=
  match orders with
  | [] => ret []
  | loopingOrder :: rest =>
      let! rows := SQL.select_order_items (Order.ID loopingOrder) in
      let! rest' := GetAllOrdersForUser_items rest in
      ret (append_items loopingOrder rows :: rest')
  end.

Definition GetAllOrdersForUser (userId : Z) (filters : Filters)
    : M (list Order.t * Metadata) :=
  if userId <? 1 then fail ErrRecordNotFound
  else
    let! db := call in
    match orders_page userId filters db with
    | inl err => fail err
    | inr rows =>
        let totalRecords := last (0 :: (fst <$> rows)) in
        let orders := (fun row => scan_listed row.2) <$> rows in
        let metadata :=
          calculateMetadata (default 0 totalRecords) (Page filters)
                            (PageSize filters) in
        let! orders := GetAllOrdersForUser_items orders in
        ret (orders, metadata)
    end.

End GetAllOrdersForUser.

End OrderModel.

Module CategoryModel.

Definition Update (category : Category.t) : M Category.t :=
  let! id :=
    map_err (no_rows_as ErrEditConflict)
      (SQL.update_categories (Category.Title category)
         (Category.Image category) (Category.ID category)) in
  ret (Category.mk id (Category.Title category) (Category.Image category)).

Definition ValidateCategory (v : validator.Validator) (category : Category.t)
    : validator.Validator :=
  let v := validator.Check (negb (bool_decide (Category.Title category = "")))
             "title" "must be provided" v in
  validator.Check (String.length (Category.Title category) <=? 1000)%nat
    "title" "must not be more than 1000 bytes long" v.

Definition Get (id : Z) : M Category.t :=
  if id <? 1 then fail ErrRecordNotFound
  else
    let! row :=
      map_err (no_rows_as ErrRecordNotFound) (SQL.select_category id) in
    ret (Category.mk id row.1 row.2).

Definition Delete (id : Z) : M unit :=
  if id <? 1 then fail pgx_ErrNoRows
  else
    let! _ :=
      map_err (no_rows_as ErrRecordNotFound) (SQL.delete_category id) in
    ret tt.

End CategoryModel.

Module UserModel.

(** Modelled from the spec: [UserModel.Update] is declared in the
    [Models] interface and its body is not among the sources. The update
    statement is conditioned on both the primary key and the last-seen
    version and increments the version on success; zero affected rows
    is [ErrEditConflict]. *)
Definition Update (user : User.t) : M User.t :=
  let! db := call in
  match users db !! User.ID user with
  | Some row =>
      if User.Version row =? User.Version user then
        let row' := User.with_Version (User.Version row + 1) user in
        let! _ := put (with_users (<[User.ID user := row']> (users db)) db) in
        ret row'
      else fail ErrEditConflict
  | None => fail ErrEditConflict
  end.

End UserModel.

(** ** The handlers *)

Module app.

(** What a response carries in its envelope. *)
Inductive envelope : Type :=
  | envelope_message (message : string)
  | envelope_order (order : Order.t)
  | envelope_review (review : RatingSchema.t)
  | envelope_products (products : list Product.t) (metadata : Metadata).

(** The ways a handler answers, named after the helper that writes the
    answer. *)
Inductive response : Type :=
  | writeJSON (status : Z) (data : envelope)
  | notFoundResponse
  | badRequestResponse
  | serverErrorResponse (err : error)
  | failedValidationResponse (errors : validator.Validator)
  | editConflictResponse
  | notPermittedReview.

Definition StatusOK : Z := 200.
Definition StatusCreated : Z := 201.

(** The decoded body of an order request and of a review request. *)
Record order_input : Type :=
  mk_order_input { in_OrderItems : option (list OrderItem.t); in_Address : string }.

Record review_input : Type :=
  mk_review_input { in_ProductId : Z; in_Rating : Z; in_Comment : string }.

(** The decoded body of an order update: a field that is absent is
    [None]. *)
Record order_update_input : Type := mk_order_update_input {
  up_Status : option Z;
  up_Address : option string;
  up_TotalPrice : option Z
}.

Section handlers.

(** The request helpers of the application are not among the sources:
    they are taken as they are used. [readIDParam] and the two
    [readJSON] give [None] when they return an error. *)
Variable request : Type.
Variable readIDParam : request -> option Z.
Variable contextGetUser_ID : request -> Z.
Variable readJSON_order : request -> option order_input.
Variable readJSON_review : request -> option review_input.
Variable readString : request -> string -> string -> string.
Variable readCSV : request -> string -> list string -> list string.
Variable readInt :
  request -> string -> Z -> validator.Validator -> Z * validator.Validator.
Variable paging_checks : Filters -> list (bool * string * string).
Variable listing :
  string -> list string -> Filters -> DB -> error + list (Z * Product.t).

Definition deleteProductHandler (r : request) (db : DB) : response * DB :=
  match readIDParam r with
  | None => (notFoundResponse, db)
  | Some id =>
      match ProductModel.Delete id db with
      | (inl err, db') =>
          if errors_Is err ErrRecordNotFound then (notFoundResponse, db')
          else (serverErrorResponse err, db')
      | (inr _, db') =>
          (writeJSON StatusOK
             (envelope_message "product successfully deleted"), db')
      end
  end.

Definition deleteOrderHandler (r : request) (db : DB) : response * DB :=
  match readIDParam r with
  | None => (notFoundResponse, db)
  | Some id =>
      match OrderModel.Delete id db with
      | (inl err, db') =>
          if errors_Is err ErrRecordNotFound then (notFoundResponse, db')
          else (serverErrorResponse err, db')
      | (inr _, db') =>
          (writeJSON StatusOK
             (envelope_message "order successfully deleted"), db')
      end
  end.

Definition orderProductHandler (r : request) (db : DB) : response * DB :=
  match readJSON_order r with
  | None => (badRequestResponse, db)
  | Some input =>
      let UserID := contextGetUser_ID r in
      let order :=
        Order.mk 0 0 (in_Address input) UserID 0 (in_OrderItems input) 0 in
      let v := OrderModel.ValidateOrder validator.New order in
      if negb (validator.Valid v) then (failedValidationResponse v, db)
      else
        match OrderModel.Insert UserID order db with
        | (inl err, db') => (serverErrorResponse err, db')
        | (inr order', db') =>
            (writeJSON StatusCreated (envelope_order order'), db')
        end
  end.

Definition createReviewHandler (r : request) (db : DB) : response * DB :=
  match readJSON_review r with
  | None => (badRequestResponse, db)
  | Some input =>
      let UserId := contextGetUser_ID r in
      let review :=
        RatingSchema.mk UserId (in_Rating input) (in_Comment input) in
      let v := ProductModel.ValidateReview validator.New review in
      if negb (validator.Valid v) then (failedValidationResponse v, db)
      else
        match OrderModel.IsUserOrderedProduct
                (RatingSchema.UserId review) (in_ProductId input) db with
        | (inl err, db') => (serverErrorResponse err, db')
        | (inr false, db') => (notPermittedReview, db')
        | (inr true, db') =>
            match ProductModel.InsertReview review (in_ProductId input) db'
            with
            | (inl err, db'') => (serverErrorResponse err, db'')
            | (inr _, db'') =>
                (writeJSON StatusCreated (envelope_review review), db'')
            end
        end
  end.

Definition products_SortSafelist : list string :=
  ["product_id"; "title"; "price"; "quantity"; "total_rating";
   "-product_id"; "-title"; "-price"; "-quantity"; "-total_rating"].

Definition listProductsHandler (r : request) (db : DB) : response * DB :=
  let v := validator.New in
  let Title := readString r "title" "" in
  let Categories := readCSV r "categories" [] in
  let '(Page, v) := readInt r "page" 1 v in
  let '(PageSize, v) := readInt r "page_size" 20 v in
  let Sort := readString r "sort" "product_id" in
  let filters := mk_Filters Page PageSize Sort products_SortSafelist in
  let v := ValidateFilters paging_checks v filters in
  if negb (validator.Valid v) then (failedValidationResponse v, db)
  else
    match ProductModel.GetAll listing Title Categories filters db with
    | (inl err, db') => (serverErrorResponse err, db')
    | (inr (products, metadata), db') =>
        (writeJSON StatusOK (envelope_products products metadata), db')
    end.

Variable readJSON_order_update : request -> option order_update_input.

Definition deleteCategoryHandler (r : request) (db : DB) : response * DB :=
  match readIDParam r with
  | None => (notFoundResponse, db)
  | Some id =>
      match CategoryModel.Delete id db with
      | (inl err, db') =>
          if errors_Is err ErrRecordNotFound then (notFoundResponse, db')
          else (serverErrorResponse err, db')
      | (inr _, db') =>
          (writeJSON StatusOK
             (envelope_message "category successfully deleted"), db')
      end
  end.

Definition updateOrderHandler (r : request) (db : DB) : response * DB :=
  match readIDParam r with
  | None => (notFoundResponse, db)
  | Some id =>
      match OrderModel.Get id db with
      | (inl err, db1) =>
          if errors_Is err ErrRecordNotFound then (notFoundResponse, db1)
          else (serverErrorResponse err, db1)
      | (inr order, db1) =>
          match readJSON_order_update r with
          | None => (badRequestResponse, db1)
          | Some input =>
              let order :=
                Order.mk (Order.ID order)
                  (default (Order.Status order) (up_Status input))
                  (default (Order.Address order) (up_Address input))
                  (Order.UserId order)
                  (default (Order.TotalPrice order) (up_TotalPrice input))
                  (Order.OrderItems order) (Order.Version order) in
              let v := OrderModel.ValidateUpdatedOrder validator.New order in
              if negb (validator.Valid v)
              then (failedValidationResponse v, db1)
              else
                match OrderModel.Update order db1 with
                | (inl err, db2) =>
                    if errors_Is err ErrEditConflict
                    then (editConflictResponse, db2)
                    else (serverErrorResponse err, db2)
                | (inr order', db2) =>
                    (writeJSON StatusOK (envelope_order order'), db2)
                end
          end
      end
  end.

End handlers.

End app.

(** ** What a placement does to the tables, in the words of the contract *)

(** One reservation on a row: the quantity goes down by the requested
    amount and the version up by one. *)
Definition decrement (quantity : Z) (row : Product.t) : Product.t :=
  Product.with_Version (Product.Version row + 1)
    (Product.with_Quantity (Product.Quantity row - quantity) row).

(** The [products] table after the reservation of one item. *)
Definition apply_item (ps : gmap Z Product.t) (item : OrderItem.t)
    : gmap Z Product.t :=
  match ps !! OrderItem.ProductId item with
  | Some row =>
      <[OrderItem.ProductId item := decrement (OrderItem.Quantity item) row]> ps
  | None => ps
  end.

(** The quantity of product [p] that a list of items asks for. *)
Definition reserved (p : Z) (items : list OrderItem.t) : Z :=
  foldr (fun (item : OrderItem.t) acc =>
           (if bool_decide (OrderItem.ProductId item = p)
            then OrderItem.Quantity item else 0) + acc)
        0 items.

(** The stored price of a product. *)
Definition price_of (db : DB) (id : Z) : Z :=
  default 0 (Product.Price <$> products db !! id).

(** The total of an order as the specification words it: the sum over the
    items of unit price plus quantity. *)
Definition spec_total_price (db : DB) (items : list OrderItem.t) : Z :=
  foldr (fun (item : OrderItem.t) acc =>
           price_of db (OrderItem.ProductId item)
           + float64 (OrderItem.Quantity item) + acc)
        0 items.

(** The total had it been price times quantity. *)
Definition price_times_quantity (db : DB) (items : list OrderItem.t) : Z :=
  foldr (fun (item : OrderItem.t) acc =>
           price_of db (OrderItem.ProductId item) * OrderItem.Quantity item
           + acc)
        0 items.

(** The stored quantity of a product. *)
Definition stock (db : DB) (id : Z) : option Z :=
  Product.Quantity <$> products db !! id.

(** Two stores with the same tables: they differ at most in the count of
    calls. *)
Definition same_tables (db db' : DB) : Prop :=
  config db' = config db /\ users db' = users db /\
  products db' = products db /\ categories db' = categories db /\
  product_category db' = product_category db /\ orders db' = orders db /\
  orders_id_seq db' = orders_id_seq db /\ order_items db' = order_items db /\
  ratings db' = ratings db.

(** The same, [products] apart. *)
Definition same_but_products (db db' : DB) : Prop :=
  config db' = config db /\ users db' = users db /\
  categories db' = categories db /\
  product_category db' = product_category db /\ orders db' = orders db /\
  orders_id_seq db' = orders_id_seq db /\ order_items db' = order_items db /\
  ratings db' = ratings db.

(** The row of [order_items] for an item of order [order_id]. *)
Definition item_row (order_id : Z) (item : OrderItem.t) : order_items_row :=
  mk_order_items_row order_id (OrderItem.ProductId item)
    (OrderItem.Quantity item).

(** No item for product [p] asks for a negative quantity. *)
Definition asks_no_negative (p : Z) (items : list OrderItem.t) : Prop :=
  Forall (fun item => OrderItem.ProductId item = p ->
                      0 <= OrderItem.Quantity item) items.

(** ** Sequences of placements *)

Record placement : Type :=
  mk_placement { placed_by : Z; placed_order : Order.t }.

(** The placements run one after the other; each is recorded with whether
    it returned success. *)
Fixpoint place_all (ps : list placement) (db : DB)
    : list (placement * bool) * DB :=
  match ps with
  | [] => ([], db)
  | p :: rest =>
      match OrderModel.Insert (placed_by p) (placed_order p) db with
      | (inl _, db') =>
          let '(results, db'') := place_all rest db' in
          ((p, false) :: results, db'')
      | (inr _, db') =>
          let '(results, db'') := place_all rest db' in
          ((p, true) :: results, db'')
      end
  end.

(** The quantity of product [p] reserved by the placements that returned
    success. *)
Definition reserved_by_successes (p : Z) (results : list (placement * bool))
    : Z :=
  foldr (fun (r : placement * bool) acc =>
           (if r.2 then reserved p (Order.items (placed_order r.1)) else 0)
           + acc)
        0 results.

(** ** Placements that run at the same time *)

Module Concurrent.

(** Where a placement stands between two of its statements: before the
    read of an item, before the stock update of the row it has read,
    before the insert of the header, before the insert of an item row,
    or returned. *)
Inductive stage : Type :=
  | AtSelect (rest : list OrderItem.t) (totalPrice : Z)
  | AtUpdate (product : Product.t) (item : OrderItem.t)
             (rest : list OrderItem.t) (totalPrice : Z)
  | AtOrder (totalPrice : Z)
  | AtItems (order : Order.t) (rest : list OrderItem.t)
  | Returned (result : error + Order.t).

(** A call of [OrderModel.Insert] under way. [reserved_items] records the
    items whose stock update went through; the code keeps no such
    record. *)
Record call_state : Type := mk_call_state {
  userId : Z;
  order : Order.t;
  at_stage : stage;
  reserved_items : list OrderItem.t
}.

Definition start (p : placement) : call_state :=
  mk_call_state (placed_by p) (placed_order p)
    (AtSelect (Order.items (placed_order p)) 0) [].

Definition move (s : stage) (c : call_state) : call_state :=
  mk_call_state (userId c) (order c) s (reserved_items c).

Definition reserve (item : OrderItem.t) (s : stage) (c : call_state)
    : call_state :=
  mk_call_state (userId c) (order c) s (reserved_items c ++ [item]).

(** The next statement of the call, on the store as it is now. *)
Definition step (c : call_state) (db : DB) : call_state * DB :=
  match at_stage c with
  | AtSelect [] totalPrice => (move (AtOrder totalPrice) c, db)
  | AtSelect (item :: rest) totalPrice =>
      match OrderModel.Insert_select item db with
      | (inl e, db') => (move (Returned (inl e)) c, db')
      | (inr product, db') =>
          (move (AtUpdate product item rest totalPrice) c, db')
      end
  | AtUpdate product item rest totalPrice =>
      match OrderModel.Insert_update item product db with
      | (inl e, db') => (move (Returned (inl e)) c, db')
      | (inr product', db') =>
          (reserve item
             (AtSelect rest
                (totalPrice +
                 (Product.Price product' + float64 (OrderItem.Quantity item))))
             c, db')
      end
  | AtOrder totalPrice =>
      match SQL.insert_orders (userId c) totalPrice (Order.Address (order c))
              db with
      | (inl e, db') => (move (Returned (inl e)) c, db')
      | (inr (id, user_id), db') =>
          (move (AtItems
                   (Order.with_TotalPrice totalPrice
                      (Order.with_inserted id user_id (order c)))
                   (Order.items (order c))) c, db')
      end
  | AtItems order' [] => (move (Returned (inr order')) c, db)
  | AtItems order' (item :: rest) =>
      match SQL.insert_order_items (Order.ID order')
              (OrderItem.ProductId item) (OrderItem.Quantity item) db with
      | (inl e, db') => (move (Returned (inl e)) c, db')
      | (inr _, db') => (move (AtItems order' rest) c, db')
      end
  | Returned _ => (c, db)
  end.

(** [n] statements of one call, with no other call in between. *)
Fixpoint steps (n : nat) (c : call_state) (db : DB) : call_state * DB :=
  match n with
  | O => (c, db)
  | S n' => let '(c', db') := step c db in steps n' c' db'
  end.

(** The calls take their steps in the order of the schedule: each entry
    names the call that runs its next statement. *)
Fixpoint run (schedule : list nat) (cs : list call_state) (db : DB)
    : list call_state * DB :=
  match schedule with
  | [] => (cs, db)
  | i :: schedule' =>
      match cs !! i with
      | Some c =>
          let '(c', db') := step c db in run schedule' (<[i := c']> cs) db'
      | None => run schedule' cs db
      end
  end.

Definition succeeded (c : call_state) : bool :=
  match at_stage c with
  | Returned (inr _) => true
  | _ => false
  end.

(** The quantity of product [p] reserved by the calls that have returned
    success. *)
Definition reserved_by_successes (p : Z) (cs : list call_state) : Z :=
  foldr (fun (c : call_state) acc =>
           (if succeeded c then reserved p (Order.items (order c)) else 0)
           + acc)
        0 cs.

(** The quantity of product [p] taken off the stock by the stock updates
    that went through, whatever became of their calls. *)
Definition taken (p : Z) (cs : list call_state) : Z :=
  foldr (fun (c : call_state) acc => reserved p (reserved_items c) + acc) 0 cs.

(** The record of the reserved items agrees with the stage. *)
Definition consistent (c : call_state) : Prop :=
  match at_stage c with
  | AtSelect rest _ =>
      Order.items (order c) = (reserved_items c ++ rest)%list
  | AtUpdate product item rest _ =>
      Order.items (order c) = (reserved_items c ++ item :: rest)%list /\
      Product.ID product = OrderItem.ProductId item
  | AtOrder _ | AtItems _ _ | Returned (inr _) =>
      reserved_items c = Order.items (order c)
  | Returned (inl _) =>
      exists rest, Order.items (order c) = (reserved_items c ++ rest)%list
  end.

End Concurrent.

(** ** What a placement leaves on a row *)

(** The number of items that ask for product [p]. *)
Definition asked (p : Z) (items : list OrderItem.t) : Z :=
  foldr (fun (item : OrderItem.t) acc =>
           (if bool_decide (OrderItem.ProductId item = p) then 1 else 0) + acc)
        0 items.

(** The row of product [p] once the items are reserved: the quantity is
    down by what they ask for and the version up by their number; the
    other columns are as they were. *)
Definition after_items (p : Z) (items : list OrderItem.t) (row : Product.t)
    : Product.t :=
  Product.with_Version (Product.Version row + asked p items)
    (Product.with_Quantity (Product.Quantity row - reserved p items) row).

(** The items of an order as [order_items] holds them. *)
Definition items_of (db : DB) (order_id : Z) : list OrderItem.t :=
  omap (fun r => if bool_decide (oi_order_id r = order_id)
                 then Some (OrderItem.mk (oi_product_id r) (oi_quantity r))
                 else None)
       (order_items db).

(** The reviews of a product as [ratings] holds them. *)
Definition reviews_of (db : DB) (product_id : Z) : list RatingSchema.t :=
  omap (fun r => if bool_decide (r_product_id r = product_id)
                 then Some (RatingSchema.mk (r_user_id r) (r_rating r)
                                            (r_comment r))
                 else None)
       (ratings db).



(** ** Example data *)

Definition ex_product (id quantity price version : Z) : Product.t :=
  Product.mk id "item" 1 "a description" quantity [] [] price version [] [].

Definition ex_user : User.t := User.mk 1 "Ada" "ada@example.org" 1.

(** A store with one user, the given products and nothing else. *)
Definition ex_db (check : option string) (arity : bool)
    (ps : list (Z * Product.t)) : DB :=
  mk_DB (mk_Config check arity) {[1 := ex_user]} (list_to_map ps) ∅ [] ∅ 0
        [] [] 0%nat.

Definition ex_order (items : list OrderItem.t) : Order.t :=
  Order.mk 0 0 "1 Main St" 1 0 (Some items) 0.

(** The same store after user 1 ordered two units of product 2. *)
Definition ex_db_ordered (arity : bool) : DB :=
  (OrderModel.Insert 1 (ex_order [OrderItem.mk 2 2])
     (with_categories {[1 := Category.mk 1 "books" ""]}
        (ex_db (Some "quantity_check") arity [(2, ex_product 2 10 1000 1)]))).2.

(** Request helpers for the examples: the request is the id, the sort
    key or the decoded body itself. *)
Definition ex_readString (r : string) (key defaultValue : string) : string :=
  if bool_decide (key = "sort") then r else defaultValue.
Definition ex_readCSV (r : string) (key : string) (defaultValue : list string)
    : list string := defaultValue.
Definition ex_readInt (r : string) (key : string) (defaultValue : Z)
    (v : validator.Validator) : Z * validator.Validator := (defaultValue, v).
Definition ex_paging_checks (f : Filters) : list (bool * string * string) :=
  [(0 <? Page f, "page", "must be greater than zero");
   (0 <? PageSize f, "page_size", "must be greater than zero")].
Definition ex_listing (title : string) (categories : list string)
    (f : Filters) (db : DB) : error + list (Z * Product.t) :=
  inr ((fun kv => (Z.of_nat (size (products db)), kv.2))
         <$> map_to_list (products db)).

(** For the handlers the request of an example is what the helper reads
    from it: the id, the decoded body, the sort key; the user is user 1. *)
Definition ex_readIDParam (r : Z) : option Z := Some r.
Definition ex_readJSON {A : Type} (r : A) : option A := Some r.
Definition ex_contextGetUser_ID {A : Type} (r : A) : Z := 1.



(** * Properties *)

(** ** The store computations *)

Lemma bind_ret {A B} (a : A) (k : A -> M B) (db : DB) :
  bind (ret a) k db = k a db.
Proof. reflexivity. Qed.

Lemma bind_fail {A B} (e : error) (k : A -> M B) (db : DB) :
  bind (fail e) k db = (inl e, db).
Proof. reflexivity. Qed.

Lemma bind_call {B} (k : DB -> M B) (db : DB) :
  bind call k db = k (tick db) (tick db).
Proof. reflexivity. Qed.

Lemma bind_put {B} (x : DB) (k : unit -> M B) (db : DB) :
  bind (put x) k db = k tt x.
Proof. reflexivity. Qed.

Lemma bind_guard {B} (b : bool) (e : error) (k : unit -> M B) (db : DB) :
  bind (guard b e) k db = if b then k tt db else (inl e, db).
Proof. destruct b; reflexivity. Qed.

(** A statement that is refused ends there: its result is the error and
    its store the one it was called on, counted. *)
Ltac refused := solve [intros [= <- <-]; eauto 8].

(** The same when the error is to be exhibited. *)
Ltac refused_with := solve [eexists; split; [reflexivity | done]].

Lemma same_tables_refl (db : DB) : same_tables db db.
Proof. repeat split. Qed.

Lemma same_tables_tick (db : DB) : same_tables db (tick db).
Proof. repeat split. Qed.

Lemma same_tables_trans (db1 db2 db3 : DB) :
  same_tables db1 db2 -> same_tables db2 db3 -> same_tables db1 db3.
Proof.
  unfold same_tables. intros H1 H2. destruct_and!.
  repeat split; congruence.
Qed.

Lemma same_but_products_of_same (db db' : DB) :
  same_tables db db' -> same_but_products db db'.
Proof. unfold same_tables, same_but_products. intros H. destruct_and!. repeat split; assumption. Qed.

Lemma same_but_products_trans (db1 db2 db3 : DB) :
  same_but_products db1 db2 -> same_but_products db2 db3 ->
  same_but_products db1 db3.
Proof.
  unfold same_but_products. intros H1 H2. destruct_and!.
  repeat split; congruence.
Qed.

(** ** The statements of a placement *)

Lemma select_product_inr id db product db' :
  SQL.select_product id db = (inr product, db') ->
  db' = tick db /\ int4 id = true /\
  exists row, products db !! id = Some row /\ product = Product.with_ID id row.
Proof.
  unfold SQL.select_product. rewrite bind_call, bind_guard.
  change (products (tick db)) with (products db).
  destruct (int4 id); [|done].
  destruct (products db !! id) as [row|]; [|done].
  intros [= <- <-]. eauto.
Qed.

Lemma select_product_inl id db e db' :
  SQL.select_product id db = (inl e, db') ->
  db' = tick db /\ (e = pgx_ErrNoRows \/ exists what, e = EncodeError what).
Proof.
  unfold SQL.select_product. rewrite bind_call, bind_guard.
  destruct (int4 id); [|intros [= <- <-]; eauto].
  destruct (products (tick db) !! id) as [row|]; [done|].
  intros [= <- <-]. eauto.
Qed.

Lemma update_products_reserve_inr q id v db v' db' :
  SQL.update_products_reserve q id v db = (inr v', db') ->
  exists row,
    products db !! id = Some row /\ Product.Version row = v /\ v' = v + 1 /\
    int4 q = true /\ int4 id = true /\
    (forall name, quantity_check (config db) = Some name ->
                  0 <= Product.Quantity row - q) /\
    db' = with_products (<[id := decrement q row]> (products db)) (tick db).
Proof.
  unfold SQL.update_products_reserve. rewrite bind_call, !bind_guard.
  destruct (int4 q) eqn:Hq; [|done].
  destruct (int4 id) eqn:Hid; [|done].
  destruct (int4 v) eqn:Hv; [|done].
  change (products (tick db)) with (products db).
  destruct (products db !! id) as [row|] eqn:Hrow; [|done].
  destruct (Z.eqb_spec (Product.Version row) v) as [Hver|]; [|done].
  rewrite bind_guard.
  destruct (int4 _ && int4 _) eqn:Hrange; [|done].
  unfold SQL.quantity_checked. change (config (tick db)) with (config db).
  destruct (quantity_check (config db)) as [name|] eqn:Hcheck.
  - rewrite bind_guard.
    destruct (Z.leb_spec 0 (Product.Quantity row - q)); [|done].
    rewrite bind_put. intros [= <- <-].
    exists row. repeat split; try assumption; try lia.
  - rewrite bind_ret, bind_put. intros [= <- <-].
    exists row. repeat split; try assumption; try lia; done.
Qed.

Lemma update_products_reserve_inl q id v db e db' :
  SQL.update_products_reserve q id v db = (inl e, db') ->
  db' = tick db /\
  (e = pgx_ErrNoRows \/ (exists what, e = EncodeError what) \/
   exists sqlstate relation name, e = PgError sqlstate relation name).
Proof.
  unfold SQL.update_products_reserve. rewrite bind_call, !bind_guard.
  destruct (int4 q); [|refused].
  destruct (int4 id); [|refused].
  destruct (int4 v); [|refused].
  destruct (products (tick db) !! id) as [row|]; [|refused].
  destruct (Product.Version row =? v); [|refused].
  rewrite bind_guard.
  destruct (int4 _ && int4 _); [|refused].
  unfold SQL.quantity_checked.
  destruct (quantity_check (config (tick db))) as [name|].
  - rewrite bind_guard. destruct (0 <=? _); [|refused].
    rewrite bind_put. done.
  - rewrite bind_ret, bind_put. done.
Qed.

(** A stale version, or a row that is gone, is [pgx.ErrNoRows]. *)
Lemma update_products_reserve_no_row q id v db :
  int4 q = true -> int4 id = true -> int4 v = true ->
  (forall row, products db !! id = Some row -> Product.Version row <> v) ->
  SQL.update_products_reserve q id v db = (inl pgx_ErrNoRows, tick db).
Proof.
  intros Hq Hid Hv Hstale.
  unfold SQL.update_products_reserve. rewrite bind_call, !bind_guard.
  rewrite Hq, Hid, Hv. change (products (tick db)) with (products db).
  destruct (products db !! id) as [row|] eqn:Hrow; [|reflexivity].
  destruct (Z.eqb_spec (Product.Version row) v) as [Hver|]; [|reflexivity].
  exfalso. exact (Hstale row eq_refl Hver).
Qed.

Lemma insert_orders_inr user total address db id user' db' :
  SQL.insert_orders user total address db = (inr (id, user'), db') ->
  exists address',
    varchar 255 address = Some address' /\
    id = orders_id_seq db + 1 /\ user' = user /\ int4 id = true /\
    db' = with_orders
            (<[id := Order.mk id 0 address' user total None 1]> (orders db))
            id (tick db).
Proof.
  unfold SQL.insert_orders. rewrite bind_call, !bind_guard.
  destruct (int4 user); [|done].
  destruct (numeric_10_2 total); [|done].
  destruct (varchar 255 address) as [address'|]; [|done].
  rewrite !bind_guard.
  change (orders_id_seq (tick db)) with (orders_id_seq db).
  destruct (int4 (orders_id_seq db + 1)) eqn:Hid; [|done].
  destruct (bool_decide _); [|done].
  rewrite bind_put. intros [= <- <- <-]. eauto 10.
Qed.

Lemma insert_orders_inl user total address db e db' :
  SQL.insert_orders user total address db = (inl e, db') ->
  db' = tick db /\ e <> ErrEditConflict.
Proof.
  unfold SQL.insert_orders. rewrite bind_call, !bind_guard.
  destruct (int4 user); [|refused].
  destruct (numeric_10_2 total); [|refused].
  destruct (varchar 255 address) as [address'|]; [|refused].
  rewrite !bind_guard.
  destruct (int4 _); [|refused].
  destruct (bool_decide _); [|refused].
  rewrite bind_put. done.
Qed.

Lemma insert_order_items_ok order_id product_id quantity db :
  int4 order_id = true -> int4 product_id = true -> int4 quantity = true ->
  is_Some (orders db !! order_id) -> is_Some (products db !! product_id) ->
  SQL.insert_order_items order_id product_id quantity db =
  (inr tt,
   with_order_items
     (order_items db ++ [mk_order_items_row order_id product_id quantity])
     (tick db)).
Proof.
  intros Ho Hp Hq Horder Hproduct.
  unfold SQL.insert_order_items. rewrite bind_call, !bind_guard.
  rewrite Ho, Hp, Hq.
  change (orders (tick db)) with (orders db).
  change (products (tick db)) with (products db).
  rewrite !bool_decide_eq_true_2 by assumption. reflexivity.
Qed.

Lemma no_rows_as_not_conflict (e : error) :
  e = pgx_ErrNoRows \/ (exists what, e = EncodeError what) \/
  (exists sqlstate relation name, e = PgError sqlstate relation name) ->
  no_rows_as ErrRecordNotFound e <> ErrEditConflict.
Proof.
  intros [->|[[what ->]|(s & r & n & ->)]]; unfold no_rows_as; simpl; done.
Qed.

Lemma reserve_switch_not_conflict (e : error) :
  e = pgx_ErrNoRows \/ (exists what, e = EncodeError what) \/
  (exists sqlstate relation name, e = PgError sqlstate relation name) ->
  OrderModel.reserve_switch e <> ErrEditConflict.
Proof.
  intros [->|[[what ->]|(s & r & n & ->)]]; unfold OrderModel.reserve_switch.
  - done.
  - done.
  - destruct (OrderModel.is_quantity_check_violation _); [done|].
    unfold errors_Is. rewrite bool_decide_eq_false_2 by done. done.
Qed.

Lemma Insert_select_inr item db product db' :
  OrderModel.Insert_select item db = (inr product, db') ->
  db' = tick db /\ 1 <= OrderItem.ProductId item /\
  int4 (OrderItem.ProductId item) = true /\
  exists row,
    products db !! OrderItem.ProductId item = Some row /\
    product = Product.with_ID (OrderItem.ProductId item) row.
Proof.
  unfold OrderModel.Insert_select.
  destruct (Z.ltb_spec (OrderItem.ProductId item) 1) as [|Hid]; [done|].
  unfold map_err.
  destruct (SQL.select_product _ db) as [[e|p] db1] eqn:Hsel; [done|].
  intros [= <- <-]. apply select_product_inr in Hsel as (-> & Hint & Hrow).
  auto.
Qed.

Lemma Insert_select_inl item db e db' :
  OrderModel.Insert_select item db = (inl e, db') ->
  same_tables db db' /\ e <> ErrEditConflict.
Proof.
  unfold OrderModel.Insert_select.
  destruct (OrderItem.ProductId item <? 1).
  - intros [= <- <-]. split; [apply same_tables_refl | done].
  - unfold map_err.
    destruct (SQL.select_product _ db) as [[e1|p] db1] eqn:Hsel; [|done].
    intros [= <- <-]. apply select_product_inl in Hsel as (-> & He).
    split; [apply same_tables_tick|].
    apply no_rows_as_not_conflict. tauto.
Qed.

Lemma Insert_update_inr item product db product' db' :
  OrderModel.Insert_update item product db = (inr product', db') ->
  exists row,
    products db !! Product.ID product = Some row /\
    Product.Version row = Product.Version product /\
    product' = Product.with_Version (Product.Version product + 1) product /\
    int4 (OrderItem.Quantity item) = true /\
    (forall name, quantity_check (config db) = Some name ->
                  0 <= Product.Quantity row - OrderItem.Quantity item) /\
    db' = with_products
            (<[Product.ID product := decrement (OrderItem.Quantity item) row]>
               (products db))
            (tick db).
Proof.
  unfold OrderModel.Insert_update, bind, map_err.
  destruct (SQL.update_products_reserve _ _ _ db) as [[e|v] db1] eqn:Hupd;
    [done|].
  intros [= <- <-].
  apply update_products_reserve_inr in Hupd
    as (row & Hrow & Hver & -> & Hq & _ & Hcheck & ->).
  exists row. repeat split; try assumption.
Qed.

Lemma Insert_update_inl item product db e db' :
  OrderModel.Insert_update item product db = (inl e, db') ->
  db' = tick db /\ e <> ErrEditConflict.
Proof.
  unfold OrderModel.Insert_update, bind, map_err.
  destruct (SQL.update_products_reserve _ _ _ db) as [[e1|v] db1] eqn:Hupd;
    [|done].
  intros [= <- <-]. apply update_products_reserve_inl in Hupd as (-> & He).
  split; [reflexivity|]. apply reserve_switch_not_conflict. exact He.
Qed.

(** ** One item on the [products] table *)

Lemma apply_item_lookup (ps : gmap Z Product.t) (item : OrderItem.t) (p : Z) :
  apply_item ps item !! p =
  if bool_decide (OrderItem.ProductId item = p)
  then decrement (OrderItem.Quantity item) <$> ps !! p
  else ps !! p.
Proof.
  unfold apply_item. case_bool_decide as Hp.
  - subst p. destruct (ps !! OrderItem.ProductId item) as [row|] eqn:Hrow.
    + rewrite lookup_insert_eq. reflexivity.
    + rewrite Hrow. reflexivity.
  - destruct (ps !! OrderItem.ProductId item) as [row|] eqn:Hrow.
    + rewrite lookup_insert_ne by exact Hp. reflexivity.
    + reflexivity.
Qed.

Lemma apply_item_price (ps : gmap Z Product.t) (item : OrderItem.t) (p : Z) :
  Product.Price <$> apply_item ps item !! p = Product.Price <$> ps !! p.
Proof.
  rewrite apply_item_lookup. case_bool_decide; [|reflexivity].
  destruct (ps !! p); reflexivity.
Qed.

Lemma apply_item_is_Some (ps : gmap Z Product.t) (item : OrderItem.t) (p : Z) :
  is_Some (apply_item ps item !! p) <-> is_Some (ps !! p).
Proof.
  rewrite apply_item_lookup. case_bool_decide; [|reflexivity].
  rewrite fmap_is_Some. reflexivity.
Qed.

Lemma apply_item_quantity (ps : gmap Z Product.t) (item : OrderItem.t) (p : Z) :
  Product.Quantity <$> apply_item ps item !! p =
  (fun q => q - reserved p [item]) <$> (Product.Quantity <$> ps !! p).
Proof.
  rewrite apply_item_lookup. unfold reserved. simpl.
  case_bool_decide; destruct (ps !! p) as [row|]; simpl; try reflexivity.
  - f_equal. lia.
  - f_equal. lia.
Qed.

Lemma reserved_app (p : Z) (xs ys : list OrderItem.t) :
  reserved p (xs ++ ys)%list = reserved p xs + reserved p ys.
Proof.
  unfold reserved. induction xs as [|x xs IH]; simpl; [reflexivity|].
  rewrite IH. lia.
Qed.

Lemma foldl_apply_item_price (items : list OrderItem.t) :
  forall (ps : gmap Z Product.t) (p : Z),
    Product.Price <$> foldl apply_item ps items !! p = Product.Price <$> ps !! p.
Proof.
  induction items as [|item items IH]; intros ps p; simpl; [reflexivity|].
  rewrite IH. apply apply_item_price.
Qed.

Lemma foldl_apply_item_is_Some (items : list OrderItem.t) :
  forall (ps : gmap Z Product.t) (p : Z),
    is_Some (foldl apply_item ps items !! p) <-> is_Some (ps !! p).
Proof.
  induction items as [|item items IH]; intros ps p; simpl; [reflexivity|].
  rewrite IH. apply apply_item_is_Some.
Qed.

Lemma foldl_apply_item_quantity (items : list OrderItem.t) :
  forall (ps : gmap Z Product.t) (p : Z),
    Product.Quantity <$> foldl apply_item ps items !! p =
    (fun q => q - reserved p items) <$> (Product.Quantity <$> ps !! p).
Proof.
  induction items as [|item items IH]; intros ps p.
  - simpl. destruct (ps !! p); simpl; [f_equal; lia | reflexivity].
  - change (foldl apply_item ps (item :: items))
      with (foldl apply_item (apply_item ps item) items).
    change (item :: items) with ([item] ++ items)%list.
    rewrite IH, apply_item_quantity, reserved_app.
    destruct (ps !! p); simpl; [f_equal; lia | reflexivity].
Qed.

(** ** The reservation loop *)

Lemma Insert_reserve_cons item items totalPrice db :
  OrderModel.Insert_reserve (item :: items) totalPrice db =
  match OrderModel.Insert_select item db with
  | (inl e, db1) => (inl e, db1)
  | (inr product, db1) =>
      match OrderModel.Insert_update item product db1 with
      | (inl e, db2) => (inl e, db2)
      | (inr product', db2) =>
          OrderModel.Insert_reserve items
            (totalPrice +
             (Product.Price product' + float64 (OrderItem.Quantity item)))
            db2
      end
  end.
Proof.
  simpl. unfold bind at 1.
  destruct (OrderModel.Insert_select item db) as [[e|product] db1];
    [reflexivity|].
  unfold bind at 1. reflexivity.
Qed.

(** One turn of the loop: either nothing is written, or the item is
    reserved on the row that was read. *)
Lemma Insert_iteration item db :
  match OrderModel.Insert_select item db with
  | (inl e, db1) => same_tables db db1 /\ e <> ErrEditConflict
  | (inr product, db1) =>
      match OrderModel.Insert_update item product db1 with
      | (inl e, db2) => same_tables db db2 /\ e <> ErrEditConflict
      | (inr product', db2) =>
          exists row,
            products db !! OrderItem.ProductId item = Some row /\
            1 <= OrderItem.ProductId item /\
            int4 (OrderItem.ProductId item) = true /\
            int4 (OrderItem.Quantity item) = true /\
            (forall name, quantity_check (config db) = Some name ->
                          0 <= Product.Quantity row - OrderItem.Quantity item) /\
            Product.Price product' = Product.Price row /\
            products db2 = apply_item (products db) item /\
            same_but_products db db2
      end
  end.
Proof.
  destruct (OrderModel.Insert_select item db) as [[e|product] db1] eqn:Hsel.
  - apply Insert_select_inl in Hsel. exact Hsel.
  - apply Insert_select_inr in Hsel as (-> & Hid & Hint & row & Hrow & ->).
    destruct (OrderModel.Insert_update item _ (tick db))
      as [[e|product'] db2] eqn:Hupd.
    + apply Insert_update_inl in Hupd as (-> & He).
      split; [|exact He].
      apply same_tables_trans with (tick db); apply same_tables_tick.
    + apply Insert_update_inr in Hupd
        as (row' & Hrow' & Hver & -> & Hq & Hcheck & ->).
      simpl in Hrow'. change (products (tick db)) with (products db) in Hrow'.
      rewrite Hrow in Hrow'. injection Hrow' as <-.
      exists row. repeat split; try assumption.
      simpl. unfold apply_item. rewrite Hrow. reflexivity.
Qed.

Lemma spec_total_price_ext (db db' : DB) (items : list OrderItem.t) :
  (forall p, Product.Price <$> products db' !! p
             = Product.Price <$> products db !! p) ->
  spec_total_price db' items = spec_total_price db items.
Proof.
  intros Hprice. unfold spec_total_price, price_of.
  induction items as [|item items IH]; simpl; [reflexivity|].
  rewrite IH, Hprice. reflexivity.
Qed.

Lemma spec_total_price_cons (db : DB) item (items : list OrderItem.t) :
  spec_total_price db (item :: items) =
  price_of db (OrderItem.ProductId item) + float64 (OrderItem.Quantity item)
  + spec_total_price db items.
Proof. reflexivity. Qed.

(** What the loop leaves behind: the items it got through are reserved,
    one after the other, and nothing else is written. It ends with the
    total when it got through all of them. *)
Lemma Insert_reserve_spec (items : list OrderItem.t) :
  forall totalPrice db r db',
    OrderModel.Insert_reserve items totalPrice db = (r, db') ->
    same_but_products db db' /\
    exists applied rest,
      items = (applied ++ rest)%list /\
      products db' = foldl apply_item (products db) applied /\
      Forall (fun item =>
                int4 (OrderItem.ProductId item) = true /\
                int4 (OrderItem.Quantity item) = true /\
                is_Some (products db !! OrderItem.ProductId item))
             applied /\
      match r with
      | inr total =>
          rest = [] /\ total = totalPrice + spec_total_price db items
      | inl e => rest <> [] /\ e <> ErrEditConflict
      end.
Proof.
  induction items as [|item items IH]; intros totalPrice db r db'.
  - intros [= <- <-]. split; [apply same_but_products_of_same, same_tables_refl|].
    exists [], []. repeat split; [constructor | simpl; lia].
  - rewrite Insert_reserve_cons. pose proof (Insert_iteration item db) as Hit.
    destruct (OrderModel.Insert_select item db) as [[e|product] db1].
    { intros [= <- <-]. destruct Hit as [Hsame He].
      split; [apply same_but_products_of_same, Hsame|].
      exists [], (item :: items). destruct Hsame as (_ & _ & Hps & _).
      repeat split; [by rewrite Hps | constructor | done | exact He]. }
    destruct (OrderModel.Insert_update item product db1)
      as [[e|product'] db2].
    { intros [= <- <-]. destruct Hit as [Hsame He].
      split; [apply same_but_products_of_same, Hsame|].
      exists [], (item :: items). destruct Hsame as (_ & _ & Hps & _).
      repeat split; [by rewrite Hps | constructor | done | exact He]. }
    destruct Hit as (row & Hrow & Hid & Hint & Hq & Hcheck & Hprice & Hps & Hsame).
    intros Hrest. apply IH in Hrest
      as (Hsame' & applied & rest & -> & Hps' & Happlied & Hr).
    split; [eapply same_but_products_trans; eassumption|].
    exists (item :: applied), rest. split; [reflexivity|].
    split; [simpl; rewrite Hps', Hps; reflexivity|].
    split.
    + constructor; [by rewrite Hrow|].
      eapply Forall_impl; [exact Happlied|]. intros x (? & ? & Hx).
      repeat split; try assumption.
      rewrite Hps in Hx. apply apply_item_is_Some in Hx. exact Hx.
    + destruct r as [e|total]; [exact Hr|].
      destruct Hr as [-> ->]. split; [reflexivity|].
      rewrite (spec_total_price_ext db db2).
      * rewrite Hprice.
        change (item :: applied ++ [])%list
          with (item :: (applied ++ []))%list.
        rewrite spec_total_price_cons. unfold price_of. rewrite Hrow.
        simpl. lia.
      * intros p. rewrite Hps. apply apply_item_price.
Qed.

(** With the check constraint on the table, a stock that is not negative
    stays so through the loop, however it ends. *)
Lemma Insert_reserve_nonneg (items : list OrderItem.t) :
  forall totalPrice db r db' name p,
    quantity_check (config db) = Some name ->
    (forall row, products db !! p = Some row -> 0 <= Product.Quantity row) ->
    OrderModel.Insert_reserve items totalPrice db = (r, db') ->
    forall row', products db' !! p = Some row' -> 0 <= Product.Quantity row'.
Proof.
  induction items as [|item items IH]; intros totalPrice db r db' name p Hname Hp.
  - intros [= <- <-]. exact Hp.
  - rewrite Insert_reserve_cons. pose proof (Insert_iteration item db) as Hit.
    destruct (OrderModel.Insert_select item db) as [[e|product] db1].
    { intros [= <- <-]. destruct Hit as [(_ & _ & Hps & _) _].
      rewrite Hps. exact Hp. }
    destruct (OrderModel.Insert_update item product db1)
      as [[e|product'] db2].
    { intros [= <- <-]. destruct Hit as [(_ & _ & Hps & _) _].
      rewrite Hps. exact Hp. }
    destruct Hit as (row & Hrow & _ & _ & _ & Hcheck & _ & Hps & Hsame).
    apply (IH _ db2 r db' name p).
    + destruct Hsame as (-> & _). exact Hname.
    + intros row2. rewrite Hps, apply_item_lookup.
      case_bool_decide as Heq; [|apply Hp].
      subst p. rewrite Hrow. simpl. intros [= <-]. simpl.
      exact (Hcheck name Hname).
Qed.

(** ** The order header and its items *)

(** The item rows go in when the order and the products are there. *)
Lemma Insert_items_ok (order_id : Z) (items : list OrderItem.t) :
  forall db,
    int4 order_id = true -> is_Some (orders db !! order_id) ->
    Forall (fun item =>
              int4 (OrderItem.ProductId item) = true /\
              int4 (OrderItem.Quantity item) = true /\
              is_Some (products db !! OrderItem.ProductId item))
           items ->
    exists db',
      OrderModel.Insert_items order_id items db = (inr tt, db') /\
      config db' = config db /\ products db' = products db /\
      orders db' = orders db /\
      order_items db' = (order_items db ++ (item_row order_id <$> items))%list.
Proof.
  induction items as [|item items IH]; intros db Hid Horder Hitems.
  - exists db. simpl. rewrite app_nil_r. repeat split.
  - apply Forall_cons in Hitems as [(Hp & Hq & Hproduct) Hitems].
    simpl. unfold bind at 1.
    rewrite insert_order_items_ok by assumption.
    destruct (IH (with_order_items
                    (order_items db ++ [item_row order_id item]) (tick db)))
      as (db' & Hrun & Hconfig & Hproducts & Horders & Hrows);
      [assumption..|].
    exists db'. split; [exact Hrun|].
    rewrite Hconfig, Hproducts, Horders, Hrows. simpl.
    rewrite <- app_assoc. repeat split.
Qed.

(** Once the loop has got through all the items and the header is in,
    the item rows go in too. *)
Lemma Insert_items_after_reserve items db total db1 userId address id user db2 :
  OrderModel.Insert_reserve items 0 db = (inr total, db1) ->
  SQL.insert_orders userId total address db1 = (inr (id, user), db2) ->
  exists db3 address',
    OrderModel.Insert_items id items db2 = (inr tt, db3) /\ user = userId /\
    config db3 = config db1 /\ products db3 = products db1 /\
    orders db3 =
      <[id := Order.mk id 0 address' userId total None 1]> (orders db1) /\
    order_items db3 = (order_items db1 ++ (item_row id <$> items))%list.
Proof.
  intros Hres Hins.
  apply Insert_reserve_spec in Hres
    as (_ & applied & rest & Hitems & Hps & Happlied & -> & _).
  rewrite app_nil_r in Hitems. subst applied.
  apply insert_orders_inr in Hins as (address' & _ & _ & -> & Hint & ->).
  destruct (Insert_items_ok id items
              (with_orders
                 (<[id := Order.mk id 0 address' userId total None 1]>
                    (orders db1)) id (tick db1)))
    as (db3 & Hrun & Hconfig & Hproducts & Horders & Hrows).
  - exact Hint.
  - simpl. rewrite lookup_insert_eq. eauto.
  - simpl. eapply Forall_impl; [exact Happlied|].
    intros item (? & ? & Hx). repeat split; try assumption.
    rewrite Hps. apply foldl_apply_item_is_Some. exact Hx.
  - exists db3, address'. repeat split; assumption.
Qed.

(** The three stages of a placement. *)
Lemma Insert_stages userId order db :
  OrderModel.Insert userId order db =
  match OrderModel.Insert_reserve (Order.items order) 0 db with
  | (inl e, db1) => (inl e, db1)
  | (inr total, db1) =>
      match SQL.insert_orders userId total (Order.Address order) db1 with
      | (inl e, db2) => (inl e, db2)
      | (inr (id, user), db2) =>
          match OrderModel.Insert_items id (Order.items order) db2 with
          | (inl e, db3) => (inl e, db3)
          | (inr _, db3) =>
              (inr (Order.with_TotalPrice total
                      (Order.with_inserted id user order)), db3)
          end
      end
  end.
Proof.
  unfold OrderModel.Insert. unfold bind at 1.
  destruct (OrderModel.Insert_reserve _ 0 db) as [[e|total] db1];
    [reflexivity|].
  unfold bind at 1.
  destruct (SQL.insert_orders _ _ _ db1) as [[e|[id user]] db2];
    [reflexivity|].
  unfold bind. reflexivity.
Qed.

(** A placement that returns success: every item is reserved, the header
    carries the total, and the item rows are there. *)
Lemma Insert_inr userId order db order' db' :
  OrderModel.Insert userId order db = (inr order', db') ->
  exists id address',
    order' = Order.with_TotalPrice
               (spec_total_price db (Order.items order))
               (Order.with_inserted id userId order) /\
    orders db' =
      <[id := Order.mk id 0 address' userId
                (spec_total_price db (Order.items order)) None 1]>
        (orders db) /\
    products db' = foldl apply_item (products db) (Order.items order) /\
    order_items db' =
      (order_items db ++ (item_row id <$> Order.items order))%list /\
    config db' = config db.
Proof.
  rewrite Insert_stages.
  destruct (OrderModel.Insert_reserve _ 0 db) as [[e|total] db1] eqn:Hres;
    [done|].
  destruct (SQL.insert_orders _ _ _ db1) as [[e|[id user]] db2] eqn:Hins;
    [done|].
  destruct (Insert_items_after_reserve _ _ _ _ _ _ _ _ _ Hres Hins)
    as (db3 & address' & -> & -> & Hconfig & Hproducts & Horders & Hrows).
  intros [= <- <-].
  apply Insert_reserve_spec in Hres
    as ((Hc & _ & _ & _ & Ho & _ & Hoi & _) & applied & rest & Hitems & Hps
        & _ & -> & ->).
  rewrite app_nil_r in Hitems. subst applied.
  exists id, address'.
  rewrite Horders, Hproducts, Hrows, Hconfig, Ho, Hoi, Hc, Hps.
  repeat split.
Qed.

(** A placement that returns an error: no order and no item row is
    written, and the items it got through stay reserved. *)
Lemma Insert_inl userId order db e db' :
  OrderModel.Insert userId order db = (inl e, db') ->
  e <> ErrEditConflict /\ same_but_products db db' /\
  exists applied rest,
    Order.items order = (applied ++ rest)%list /\
    products db' = foldl apply_item (products db) applied.
Proof.
  rewrite Insert_stages.
  destruct (OrderModel.Insert_reserve _ 0 db) as [[e1|total] db1] eqn:Hres.
  - intros [= <- <-]. apply Insert_reserve_spec in Hres
      as (Hsame & applied & rest & Hitems & Hps & _ & _ & He).
    split; [exact He|]. split; [exact Hsame|]. eauto.
  - destruct (SQL.insert_orders _ _ _ db1) as [[e1|[id user]] db2] eqn:Hins.
    + intros [= <- <-]. apply insert_orders_inl in Hins as (-> & He).
      apply Insert_reserve_spec in Hres
        as (Hsame & applied & rest & Hitems & Hps & _ & -> & _).
      split; [exact He|]. split.
      * eapply same_but_products_trans; [exact Hsame|].
        apply same_but_products_of_same, same_tables_tick.
      * exists applied, []. split; [exact Hitems | exact Hps].
    + destruct (Insert_items_after_reserve _ _ _ _ _ _ _ _ _ Hres Hins)
        as (db3 & address' & -> & _). done.
Qed.

(** ** The total of an order *)

(** C6. After a placement that returns success, the total price stored on
    the order header, and the one handed back in the order, is the sum over
    the ordered items of unit price plus quantity, the unit price being the
    price the store holds for the product. *)
Theorem Insert_total_is_price_plus_quantity userId order db order' db' :
  OrderModel.Insert userId order db = (inr order', db') ->
  Order.TotalPrice order' = spec_total_price db (Order.items order) /\
  exists row,
    orders db' !! Order.ID order' = Some row /\
    Order.TotalPrice row = spec_total_price db (Order.items order).
Proof.
  intros Hins. apply Insert_inr in Hins
    as (id & address' & -> & Horders & _).
  split; [reflexivity|]. simpl. rewrite Horders, lookup_insert_eq.
  eexists. split; reflexivity.
Qed.

Lemma Insert_total_is_price_plus_quantity_witness :
  exists order' db',
    OrderModel.Insert 1 (ex_order [OrderItem.mk 5 3])
      (ex_db (Some "quantity_check") true [(5, ex_product 5 3 1000 1)])
    = (inr order', db') /\
    Order.TotalPrice order' =
      spec_total_price
        (ex_db (Some "quantity_check") true [(5, ex_product 5 3 1000 1)])
        [OrderItem.mk 5 3] /\
    exists row,
      orders db' !! Order.ID order' = Some row /\
      Order.TotalPrice row =
        spec_total_price
          (ex_db (Some "quantity_check") true [(5, ex_product 5 3 1000 1)])
          [OrderItem.mk 5 3].
Proof.
  eexists. eexists. split; [vm_compute; reflexivity|].
  apply (Insert_total_is_price_plus_quantity 1
           (ex_order [OrderItem.mk 5 3])
           (ex_db (Some "quantity_check") true [(5, ex_product 5 3 1000 1)])).
  vm_compute. reflexivity.
Defined.

(** Three units at 10.00 are billed 13.00, not 30.00. *)
Example total_is_not_price_times_quantity :
  let db := ex_db (Some "quantity_check") true [(5, ex_product 5 3 1000 1)] in
  spec_total_price db [OrderItem.mk 5 3] = 1300 /\
  price_times_quantity db [OrderItem.mk 5 3] = 3000.
Proof. split; reflexivity. Qed.

(** ** Stock under the check constraint *)

(** The [products] table after a placement is the one the reservation
    loop left. *)
Lemma Insert_after_reserve userId order db r db' :
  OrderModel.Insert userId order db = (r, db') ->
  exists r1 db1,
    OrderModel.Insert_reserve (Order.items order) 0 db = (r1, db1) /\
    products db' = products db1.
Proof.
  rewrite Insert_stages.
  destruct (OrderModel.Insert_reserve _ 0 db) as [[e1|total] db1] eqn:Hres.
  - intros [= <- <-]. eauto.
  - destruct (SQL.insert_orders _ _ _ db1) as [[e1|[id user]] db2] eqn:Hins.
    + intros [= <- <-]. apply insert_orders_inl in Hins as (-> & _). eauto.
    + destruct (Insert_items_after_reserve _ _ _ _ _ _ _ _ _ Hres Hins)
        as (db3 & address' & -> & _ & _ & Hproducts & _).
      intros [= <- <-]. eauto.
Qed.

Lemma Insert_nonneg userId order db r db' name p :
  quantity_check (config db) = Some name ->
  (forall row, products db !! p = Some row -> 0 <= Product.Quantity row) ->
  OrderModel.Insert userId order db = (r, db') ->
  forall row', products db' !! p = Some row' -> 0 <= Product.Quantity row'.
Proof.
  intros Hname Hp Hins.
  apply Insert_after_reserve in Hins as (r1 & db1 & Hres & ->).
  exact (Insert_reserve_nonneg _ _ _ _ _ _ _ Hname Hp Hres).
Qed.

(** What one placement does to the stock of a product that is there. *)
Lemma Insert_quantity userId order db r db' p row :
  OrderModel.Insert userId order db = (r, db') ->
  products db !! p = Some row ->
  config db' = config db /\
  exists row',
    products db' !! p = Some row' /\
    match r with
    | inr _ =>
        Product.Quantity row' =
        Product.Quantity row - reserved p (Order.items order)
    | inl _ =>
        exists applied rest,
          Order.items order = (applied ++ rest)%list /\
          Product.Quantity row' = Product.Quantity row - reserved p applied
    end.
Proof.
  intros Hins Hrow. destruct r as [e|order'].
  - apply Insert_inl in Hins
      as (_ & (Hconfig & _) & applied & rest & Hitems & Hps).
    split; [exact Hconfig|].
    pose proof (foldl_apply_item_quantity applied (products db) p) as Hq.
    rewrite <- Hps, Hrow in Hq. simpl in Hq.
    destruct (products db' !! p) as [row'|]; [|done].
    exists row'. split; [reflexivity|]. exists applied, rest.
    split; [exact Hitems|]. simpl in Hq. congruence.
  - apply Insert_inr in Hins as (id & address' & _ & _ & Hps & _ & Hconfig).
    split; [exact Hconfig|].
    pose proof (foldl_apply_item_quantity (Order.items order) (products db) p)
      as Hq.
    rewrite <- Hps, Hrow in Hq. simpl in Hq.
    destruct (products db' !! p) as [row'|]; [|done].
    exists row'. split; [reflexivity|]. simpl in Hq. congruence.
Qed.

Lemma reserved_nonneg (p : Z) (items : list OrderItem.t) :
  asks_no_negative p items -> 0 <= reserved p items.
Proof.
  unfold asks_no_negative, reserved.
  induction 1 as [|item items Hitem _ IH]; simpl; [lia|].
  case_bool_decide; [specialize (Hitem ltac:(assumption))|]; lia.
Qed.

Lemma place_all_stock (ps : list placement) :
  forall db results db' name p row,
    quantity_check (config db) = Some name ->
    products db !! p = Some row -> 0 <= Product.Quantity row ->
    place_all ps db = (results, db') ->
    exists row',
      products db' !! p = Some row' /\ 0 <= Product.Quantity row' /\
      (Forall (fun pl => asks_no_negative p (Order.items (placed_order pl))) ps ->
       reserved_by_successes p results + Product.Quantity row'
       <= Product.Quantity row).
Proof.
  induction ps as [|pl ps IH]; intros db results db' name p row Hname Hrow Hq.
  - intros [= <- <-]. exists row. repeat split; try assumption.
    intros _. unfold reserved_by_successes. simpl. lia.
  - simpl.
    destruct (OrderModel.Insert (placed_by pl) (placed_order pl) db)
      as [r db1] eqn:Hins.
    destruct (Insert_quantity _ _ _ _ _ p row Hins Hrow)
      as (Hconfig & row1 & Hrow1 & Hq1).
    assert (Hnn : 0 <= Product.Quantity row1).
    { eapply (Insert_nonneg _ _ _ _ _ name p Hname); [|exact Hins|exact Hrow1].
      intros row0. rewrite Hrow. intros [= <-]. exact Hq. }
    rewrite <- Hconfig in Hname.
    destruct (place_all ps db1) as [results' db''] eqn:Hrest.
    destruct (IH db1 results' db'' name p row1 Hname Hrow1 Hnn Hrest)
      as (row' & Hrow' & Hq' & Hsum).
    destruct r as [e|order']; intros [= <- <-];
      exists row'; (split; [exact Hrow'|]); (split; [exact Hq'|]);
      intros Hall; apply Forall_cons in Hall as [Hpl Hall];
      specialize (Hsum Hall); unfold reserved_by_successes in *; simpl.
    + destruct Hq1 as (applied & rest & Hitems & Hq1).
      unfold asks_no_negative in Hpl. rewrite Hitems in Hpl.
      apply Forall_app in Hpl as [Happlied _].
      pose proof (reserved_nonneg p applied Happlied). lia.
    + lia.
Qed.

(** ** Placements that run at the same time *)

Lemma insert_orders_products user total address db r db' :
  SQL.insert_orders user total address db = (r, db') ->
  products db' = products db /\ config db' = config db.
Proof.
  destruct r as [e|[id user']]; intros Hins.
  - apply insert_orders_inl in Hins as (-> & _). split; reflexivity.
  - apply insert_orders_inr in Hins as (address' & _ & _ & _ & _ & ->).
    split; reflexivity.
Qed.

Lemma insert_order_items_products order_id product_id quantity db r db' :
  SQL.insert_order_items order_id product_id quantity db = (r, db') ->
  products db' = products db /\ config db' = config db.
Proof.
  unfold SQL.insert_order_items. rewrite bind_call, !bind_guard.
  destruct (int4 order_id); [|refused].
  destruct (int4 product_id); [|refused].
  destruct (int4 quantity); [|refused].
  destruct (bool_decide _); [|refused].
  destruct (bool_decide _); [|refused].
  by intros [= <- <-].
Qed.

(** One statement of a call: the stock stays non-negative under the check
    constraint, and what leaves the stock is on the record of the call. *)
Lemma step_stock c db c' db' name p row :
  Concurrent.step c db = (c', db') -> Concurrent.consistent c ->
  quantity_check (config db) = Some name ->
  products db !! p = Some row -> 0 <= Product.Quantity row ->
  Concurrent.consistent c' /\ config db' = config db /\
  Concurrent.order c' = Concurrent.order c /\
  exists row',
    products db' !! p = Some row' /\ 0 <= Product.Quantity row' /\
    Product.Quantity row' + reserved p (Concurrent.reserved_items c')
    = Product.Quantity row + reserved p (Concurrent.reserved_items c).
Proof.
  intros Hstep Hc Hname Hrow Hq. revert Hstep Hc.
  unfold Concurrent.step, Concurrent.consistent.
  destruct (Concurrent.at_stage c)
    as [[|item rest] total|product item rest total|total
        |order' [|item rest]|result] eqn:Hstage.
  - intros [= <- <-] Hitems. simpl. rewrite app_nil_r in Hitems.
    repeat split; eauto.
  - destruct (OrderModel.Insert_select item db) as [[e|product] db1] eqn:Hsel;
      intros [= <- <-] Hitems; simpl.
    + apply Insert_select_inl in Hsel as ((Hcfg & _ & Hps & _) & _).
      rewrite Hps, Hcfg. repeat split; eauto.
    + apply Insert_select_inr in Hsel as (-> & _ & _ & row0 & _ & ->).
      repeat split; eauto.
  - destruct (OrderModel.Insert_update item product db)
      as [[e|product'] db1] eqn:Hupd; intros [= <- <-] [Hitems Hid]; simpl.
    + apply Insert_update_inl in Hupd as (-> & _).
      repeat split; eauto.
    + apply Insert_update_inr in Hupd
        as (row0 & Hrow0 & _ & _ & _ & Hcheck & ->).
      rewrite <- app_assoc. split; [exact Hitems|].
      split; [reflexivity|]. split; [reflexivity|].
      simpl. rewrite reserved_app, Hid.
      destruct (decide (OrderItem.ProductId item = p)) as [Heq|Hne].
      * rewrite Heq, lookup_insert_eq. rewrite Hid, Heq, Hrow in Hrow0.
        injection Hrow0 as <-. eexists. split; [reflexivity|].
        specialize (Hcheck name Hname). unfold reserved. simpl.
        rewrite bool_decide_eq_true_2 by exact Heq. split; lia.
      * rewrite lookup_insert_ne by exact Hne. exists row.
        split; [exact Hrow|]. unfold reserved at 2. simpl.
        rewrite bool_decide_eq_false_2 by exact Hne. split; lia.
  - destruct (SQL.insert_orders _ _ _ db) as [[e|[id user]] db1] eqn:Hins;
      intros [= <- <-] Hitems; simpl;
      apply insert_orders_products in Hins as [-> ->];
      repeat split; eauto. exists []. by rewrite app_nil_r.
  - intros [= <- <-] Hitems. simpl. repeat split; eauto.
  - destruct (SQL.insert_order_items _ _ _ db) as [[e|[]] db1] eqn:Hins;
      intros [= <- <-] Hitems; simpl;
      apply insert_order_items_products in Hins as [-> ->];
      repeat split; eauto. exists []. by rewrite app_nil_r.
  - intros [= <- <-] Hres. rewrite Hstage. repeat split; eauto.
Qed.

Lemma taken_insert (p : Z) (cs : list Concurrent.call_state) :
  forall i c c',
    cs !! i = Some c ->
    Concurrent.taken p (<[i := c']> cs) =
    Concurrent.taken p cs - reserved p (Concurrent.reserved_items c)
    + reserved p (Concurrent.reserved_items c').
Proof.
  unfold Concurrent.taken.
  induction cs as [|c0 cs IH]; intros [|i] c c' Hi; simpl in *; try done.
  - injection Hi as ->. lia.
  - rewrite (IH i c c' Hi). lia.
Qed.

(** Any interleaving of the statements of the calls keeps the stock of a
    product non-negative under the check constraint, and the stock and
    what the calls have taken add up to the initial stock. *)
Lemma run_stock (schedule : list nat) :
  forall cs db cs' db' name p row,
    Concurrent.run schedule cs db = (cs', db') ->
    Forall Concurrent.consistent cs ->
    quantity_check (config db) = Some name ->
    products db !! p = Some row -> 0 <= Product.Quantity row ->
    Forall Concurrent.consistent cs' /\
    Concurrent.order <$> cs' = Concurrent.order <$> cs /\
    exists row',
      products db' !! p = Some row' /\ 0 <= Product.Quantity row' /\
      Product.Quantity row' + Concurrent.taken p cs'
      = Product.Quantity row + Concurrent.taken p cs.
Proof.
  induction schedule as [|i schedule IH];
    intros cs db cs' db' name p row Hrun Hcs Hname Hrow Hq.
  - injection Hrun as <- <-. repeat split; eauto.
  - simpl in Hrun. destruct (cs !! i) as [c|] eqn:Hi; [|eauto].
    destruct (Concurrent.step c db) as [c1 db1] eqn:Hstep.
    assert (Hc : Concurrent.consistent c).
    { eapply Forall_lookup_1; eassumption. }
    destruct (step_stock c db c1 db1 name p row Hstep Hc Hname Hrow Hq)
      as (Hc1 & Hcfg & Horder & row1 & Hrow1 & Hq1 & Hsum1).
    rewrite <- Hcfg in Hname.
    destruct (IH (<[i := c1]> cs) db1 cs' db' name p row1 Hrun)
      as (Hcs' & Horders & row' & Hrow' & Hq' & Hsum'); try assumption.
    { apply Forall_insert; assumption. }
    split; [exact Hcs'|]. split.
    + rewrite Horders, list_fmap_insert, Horder.
      apply list_insert_id. rewrite list_lookup_fmap, Hi. reflexivity.
    + exists row'. split; [exact Hrow'|]. split; [exact Hq'|].
      rewrite (taken_insert p cs i c c1 Hi) in Hsum'. lia.
Qed.

Lemma start_consistent (pl : placement) :
  Concurrent.consistent (Concurrent.start pl).
Proof. reflexivity. Qed.

Lemma taken_start (p : Z) (ps : list placement) :
  Concurrent.taken p (Concurrent.start <$> ps) = 0.
Proof.
  induction ps as [|pl ps IH]; [reflexivity|].
  rewrite fmap_cons.
  change (Concurrent.taken p (Concurrent.start pl :: (Concurrent.start <$> ps)))
    with (reserved p [] + Concurrent.taken p (Concurrent.start <$> ps)).
  rewrite IH. reflexivity.
Qed.

(** A call has taken nothing it was not asked for, and all it was asked
    for when it has returned success. *)
Lemma reserved_by_successes_le_taken (p : Z) (cs : list Concurrent.call_state) :
  Forall Concurrent.consistent cs ->
  Forall (fun c =>
            asks_no_negative p (Order.items (Concurrent.order c))) cs ->
  Concurrent.reserved_by_successes p cs <= Concurrent.taken p cs.
Proof.
  induction cs as [|c cs IH]; intros Hcs Hasks; [reflexivity|].
  apply Forall_cons in Hcs as [Hc Hcs].
  apply Forall_cons in Hasks as [Hask Hasks].
  specialize (IH Hcs Hasks).
  change (Concurrent.reserved_by_successes p (c :: cs))
    with ((if Concurrent.succeeded c
           then reserved p (Order.items (Concurrent.order c)) else 0)
          + Concurrent.reserved_by_successes p cs).
  change (Concurrent.taken p (c :: cs))
    with (reserved p (Concurrent.reserved_items c) + Concurrent.taken p cs).
  assert (Hprefix : exists rest,
             Order.items (Concurrent.order c)
             = (Concurrent.reserved_items c ++ rest)%list).
  { revert Hc. unfold Concurrent.consistent.
    destruct (Concurrent.at_stage c) as [rest ?|? item rest ?|?|? ?|[e|o]];
      try (intros ->; exists []; by rewrite app_nil_r); eauto.
    intros [-> _]. eauto. }
  destruct Hprefix as [rest Hprefix].
  assert (0 <= reserved p (Concurrent.reserved_items c)).
  { apply reserved_nonneg. unfold asks_no_negative in *.
    rewrite Hprefix in Hask. apply Forall_app in Hask as [Hask _].
    exact Hask. }
  revert Hc. unfold Concurrent.succeeded, Concurrent.consistent.
  destruct (Concurrent.at_stage c) as [? ?|? ? ? ?|?|? ?|[e|o]]; intros Hc;
    try lia.
  rewrite <- Hc. lia.
Qed.

(** With the check constraint on the table, however the statements of the
    placements interleave, the stock of a product that starts at [Q >= 0]
    is never negative, and when no item asks for a negative quantity of it
    the placements that have returned success have reserved at most
    [Q]. *)
Lemma interleaved_stock_never_negative schedule ps db cs' db' name p row :
  quantity_check (config db) = Some name ->
  products db !! p = Some row -> 0 <= Product.Quantity row ->
  Concurrent.run schedule (Concurrent.start <$> ps) db = (cs', db') ->
  (exists q, stock db' p = Some q /\ 0 <= q) /\
  (Forall (fun pl => asks_no_negative p (Order.items (placed_order pl))) ps ->
   Concurrent.reserved_by_successes p cs' <= Product.Quantity row).
Proof.
  intros Hname Hrow Hq Hrun.
  destruct (run_stock schedule _ db cs' db' name p row Hrun)
    as (Hcs' & Horders & row' & Hrow' & Hq' & Hsum); try assumption.
  { apply Forall_fmap, Forall_forall. intros pl _. apply start_consistent. }
  rewrite taken_start in Hsum. split.
  - exists (Product.Quantity row'). unfold stock. rewrite Hrow'.
    split; [reflexivity | exact Hq'].
  - intros Hasks.
    assert (Concurrent.reserved_by_successes p cs' <= Concurrent.taken p cs').
    { apply reserved_by_successes_le_taken; [exact Hcs'|].
      apply Forall_fmap with (f := Concurrent.order)
                             (P := fun o => asks_no_negative p (Order.items o)).
      rewrite Horders, <- list_fmap_compose.
      apply Forall_fmap. exact Hasks. }
    lia.
Qed.

(** *** A call that is left alone is [OrderModel.Insert] *)

Lemma steps_S n c db :
  Concurrent.steps (S n) c db =
  Concurrent.steps n (Concurrent.step c db).1 (Concurrent.step c db).2.
Proof. simpl. destruct (Concurrent.step c db). reflexivity. Qed.

Lemma steps_reserve (rest : list OrderItem.t) :
  forall total c db,
    Concurrent.at_stage c = Concurrent.AtSelect rest total ->
    exists n c',
      Concurrent.steps n c db
      = (c', (OrderModel.Insert_reserve rest total db).2) /\
      Concurrent.userId c' = Concurrent.userId c /\
      Concurrent.order c' = Concurrent.order c /\
      Concurrent.at_stage c' =
        match (OrderModel.Insert_reserve rest total db).1 with
        | inl e => Concurrent.Returned (inl e)
        | inr totalPrice => Concurrent.AtOrder totalPrice
        end.
Proof.
  induction rest as [|item rest IH]; intros total c db Hstage.
  - exists 1%nat, (Concurrent.move (Concurrent.AtOrder total) c).
    rewrite steps_S. unfold Concurrent.step. rewrite Hstage.
    repeat split.
  - rewrite Insert_reserve_cons.
    destruct (OrderModel.Insert_select item db) as [[e|product] db1] eqn:Hsel.
    { exists 1%nat, (Concurrent.move (Concurrent.Returned (inl e)) c).
      rewrite steps_S. unfold Concurrent.step. rewrite Hstage, Hsel.
      repeat split. }
    set (c1 := Concurrent.move
                 (Concurrent.AtUpdate product item rest total) c).
    assert (Hs1 : Concurrent.step c db = (c1, db1)).
    { unfold Concurrent.step. rewrite Hstage, Hsel. reflexivity. }
    destruct (OrderModel.Insert_update item product db1)
      as [[e|product'] db2] eqn:Hupd.
    { exists 2%nat, (Concurrent.move (Concurrent.Returned (inl e)) c1).
      assert (Hs2 : Concurrent.step c1 db1
                    = (Concurrent.move (Concurrent.Returned (inl e)) c1, db2)).
      { unfold Concurrent.step. simpl. rewrite Hupd. reflexivity. }
      rewrite steps_S, Hs1. simpl fst. simpl snd. rewrite steps_S, Hs2.
      repeat split. }
    set (total' := total + (Product.Price product'
                            + float64 (OrderItem.Quantity item))).
    set (c2 := Concurrent.reserve item (Concurrent.AtSelect rest total') c1).
    assert (Hs2 : Concurrent.step c1 db1 = (c2, db2)).
    { unfold Concurrent.step. simpl. rewrite Hupd. reflexivity. }
    destruct (IH total' c2 db2 eq_refl)
      as (n & c' & Hsteps & Huser & Horder & Hat).
    exists (S (S n)), c'.
    rewrite steps_S, Hs1. simpl fst. simpl snd. rewrite steps_S, Hs2.
    simpl fst. simpl snd. repeat split; assumption.
Qed.

Lemma steps_items (rest : list OrderItem.t) :
  forall order' c db,
    Concurrent.at_stage c = Concurrent.AtItems order' rest ->
    exists n c',
      Concurrent.steps n c db
      = (c', (OrderModel.Insert_items (Order.ID order') rest db).2) /\
      Concurrent.at_stage c' =
        match (OrderModel.Insert_items (Order.ID order') rest db).1 with
        | inl e => Concurrent.Returned (inl e)
        | inr _ => Concurrent.Returned (inr order')
        end.
Proof.
  induction rest as [|item rest IH]; intros order' c db Hstage.
  - exists 1%nat, (Concurrent.move (Concurrent.Returned (inr order')) c).
    rewrite steps_S. unfold Concurrent.step. rewrite Hstage. repeat split.
  - simpl OrderModel.Insert_items. unfold bind.
    destruct (SQL.insert_order_items (Order.ID order')
                (OrderItem.ProductId item) (OrderItem.Quantity item) db)
      as [[e|[]] db1] eqn:Hins.
    { exists 1%nat, (Concurrent.move (Concurrent.Returned (inl e)) c).
      rewrite steps_S. unfold Concurrent.step. rewrite Hstage, Hins.
      repeat split. }
    destruct (IH order'
                (Concurrent.move (Concurrent.AtItems order' rest) c) db1 eq_refl)
      as (n & c' & Hsteps & Hat).
    exists (S n), c'. rewrite steps_S. unfold Concurrent.step.
    rewrite Hstage, Hins. simpl. split; assumption.
Qed.

Lemma steps_add n m c db :
  Concurrent.steps (n + m) c db =
  Concurrent.steps m (Concurrent.steps n c db).1 (Concurrent.steps n c db).2.
Proof.
  revert c db. induction n as [|n IH]; intros c db; [reflexivity|].
  change (S n + m)%nat with (S (n + m)). rewrite !steps_S. apply IH.
Qed.

(** Run with no other call in between, the statements of a placement
    end where [OrderModel.Insert] ends: with its result, on its store. *)
Lemma steps_alone (pl : placement) (db : DB) :
  exists n c',
    Concurrent.steps n (Concurrent.start pl) db
    = (c', (OrderModel.Insert (placed_by pl) (placed_order pl) db).2) /\
    Concurrent.at_stage c'
    = Concurrent.Returned
        (OrderModel.Insert (placed_by pl) (placed_order pl) db).1.
Proof.
  rewrite Insert_stages.
  destruct (steps_reserve (Order.items (placed_order pl)) 0
              (Concurrent.start pl) db eq_refl)
    as (n1 & c1 & Hsteps1 & Huser1 & Horder1 & Hat1).
  destruct (OrderModel.Insert_reserve _ 0 db) as [[e|total] db1].
  { exists n1, c1. split; assumption. }
  simpl in Hsteps1, Hat1.
  destruct (SQL.insert_orders _ _ _ db1) as [[e|[id user]] db2] eqn:Hins.
  { exists (n1 + 1)%nat, (Concurrent.move (Concurrent.Returned (inl e)) c1).
    rewrite steps_add, Hsteps1. simpl. unfold Concurrent.step.
    rewrite Hat1, Huser1, Horder1. simpl. rewrite Hins. split; reflexivity. }
  set (order' := Order.with_TotalPrice total
                   (Order.with_inserted id user (placed_order pl))).
  destruct (steps_items (Order.items (placed_order pl)) order'
              (Concurrent.move
                 (Concurrent.AtItems order' (Order.items (placed_order pl)))
                 c1) db2 eq_refl)
    as (n3 & c3 & Hsteps3 & Hat3).
  exists (n1 + S n3)%nat, c3. rewrite steps_add, Hsteps1. simpl fst. simpl snd.
  rewrite steps_S. unfold Concurrent.step at 1 2.
  rewrite Hat1, Huser1, Horder1. simpl Concurrent.userId.
  simpl Concurrent.order. rewrite Hins. simpl fst. simpl snd.
  fold order'. rewrite Hsteps3. change (Order.ID order') with id in *.
  destruct (OrderModel.Insert_items id _ db2) as [[e|u] db3];
    split; try reflexivity; exact Hat3.
Qed.

(** *** Two placements for the last unit *)

(** Two calls each ask for one unit of product 5, of which there is one.
    Run one after the other, the first returns success and the second
    [ErrOutOfStock]. When the second reads the row before the first has
    updated it, the first returns success and the second
    [ErrRecordNotFound]. Either way the stock ends at 0. *)
Example two_placements_for_the_last_unit :
  let db := ex_db (Some "quantity_check") true [(5, ex_product 5 1 1000 1)] in
  let calls :=
    Concurrent.start <$>
      [mk_placement 1 (ex_order [OrderItem.mk 5 1]);
       mk_placement 1 (ex_order [OrderItem.mk 5 1])] in
  let in_turn :=
    Concurrent.run [0; 0; 0; 0; 0; 0; 1; 1; 1; 1; 1; 1]%nat calls db in
  let overlapped :=
    Concurrent.run [0; 1; 0; 1; 0; 0; 0; 0; 1; 1]%nat calls db in
  Concurrent.succeeded <$> in_turn.1 = [true; false] /\
  (exists c, in_turn.1 !! 1%nat = Some c /\
             Concurrent.at_stage c = Concurrent.Returned (inl ErrOutOfStock)) /\
  stock in_turn.2 5 = Some 0 /\
  Concurrent.succeeded <$> overlapped.1 = [true; false] /\
  (exists c, overlapped.1 !! 1%nat = Some c /\
             Concurrent.at_stage c
             = Concurrent.Returned (inl ErrRecordNotFound)) /\
  stock overlapped.2 5 = Some 0.
Proof.
  vm_compute. repeat split; eexists; split; reflexivity.
Qed.

(** *** Placements in turn and placements at the same time *)

Lemma sequential_stock_never_negative ps db results db' name p row :
  quantity_check (config db) = Some name ->
  products db !! p = Some row -> 0 <= Product.Quantity row ->
  place_all ps db = (results, db') ->
  (exists q, stock db' p = Some q /\ 0 <= q) /\
  (Forall (fun pl => asks_no_negative p (Order.items (placed_order pl))) ps ->
   reserved_by_successes p results <= Product.Quantity row).
Proof.
  intros Hname Hrow Hq Hrun.
  destruct (place_all_stock ps db results db' name p row Hname Hrow Hq Hrun)
    as (row' & Hrow' & Hq' & Hsum).
  split.
  - exists (Product.Quantity row'). unfold stock. rewrite Hrow'.
    split; [reflexivity | exact Hq'].
  - intros Hall. specialize (Hsum Hall). lia.
Qed.

(** C1, as the code has it. On a [products] table that carries the check
    constraint, a stock that starts at [Q >= 0] is never negative after any
    sequence of placements, whether they return success or not, and
    whether they run one after the other or with their statements
    interleaved; and when no item asks for a negative quantity of the
    product, the quantities reserved by the placements that return
    success add up to at most [Q]. *)
Theorem stock_never_negative ps db name p row :
  quantity_check (config db) = Some name ->
  products db !! p = Some row -> 0 <= Product.Quantity row ->
  (forall results db',
     place_all ps db = (results, db') ->
     (exists q, stock db' p = Some q /\ 0 <= q) /\
     (Forall (fun pl => asks_no_negative p (Order.items (placed_order pl))) ps ->
      reserved_by_successes p results <= Product.Quantity row)) /\
  (forall schedule cs' db',
     Concurrent.run schedule (Concurrent.start <$> ps) db = (cs', db') ->
     (exists q, stock db' p = Some q /\ 0 <= q) /\
     (Forall (fun pl => asks_no_negative p (Order.items (placed_order pl))) ps ->
      Concurrent.reserved_by_successes p cs' <= Product.Quantity row)).
Proof.
  intros Hname Hrow Hq. split.
  - intros results db' Hrun.
    exact (sequential_stock_never_negative _ _ _ _ _ _ _ Hname Hrow Hq Hrun).
  - intros schedule cs' db' Hrun.
    exact (interleaved_stock_never_negative _ _ _ _ _ _ _ _
             Hname Hrow Hq Hrun).
Qed.

(** ** A placement that fails *)


Lemma after_items_nil (p : Z) (row : Product.t) : after_items p [] row = row.
Proof.
  destruct row. unfold after_items, asked, reserved. simpl.
  unfold Product.with_Version, Product.with_Quantity. simpl. f_equal; lia.
Qed.

Lemma after_items_cons (p : Z) (item : OrderItem.t) (items : list OrderItem.t)
    (row : Product.t) :
  after_items p (item :: items) row =
  after_items p items
    (if bool_decide (OrderItem.ProductId item = p)
     then decrement (OrderItem.Quantity item) row else row).
Proof.
  destruct row. unfold after_items, asked, reserved, decrement. simpl.
  case_bool_decide; unfold Product.with_Version, Product.with_Quantity; simpl;
    f_equal; lia.
Qed.

Lemma foldl_apply_item_lookup (items : list OrderItem.t) :
  forall (ps : gmap Z Product.t) (p : Z),
    foldl apply_item ps items !! p = after_items p items <$> ps !! p.
Proof.
  induction items as [|item items IH]; intros ps p.
  - simpl. destruct (ps !! p) as [row|]; simpl; [|reflexivity].
    by rewrite after_items_nil.
  - change (foldl apply_item ps (item :: items))
      with (foldl apply_item (apply_item ps item) items).
    rewrite IH, apply_item_lookup.
    destruct (ps !! p) as [row|]; simpl.
    + rewrite after_items_cons. case_bool_decide; reflexivity.
    + case_bool_decide; reflexivity.
Qed.







(** ** Item quantities *)

Lemma ValidateOrder_Valid (order : Order.t) :
  validator.Valid (OrderModel.ValidateOrder validator.New order) =
  negb (bool_decide (Order.Address order = ""))
  && (0 <=? Order.UserId order)
  && match Order.OrderItems order with
     | Some (_ :: _) => true
     | _ => false
     end.
Proof.
  unfold OrderModel.ValidateOrder, Order.items.
  assert (Hlen : forall (item : OrderItem.t) items,
             (1 <=? Z.of_nat (length (item :: items))) = true).
  { intros item items. apply Z.leb_le. simpl length. lia. }
  destruct (Order.OrderItems order) as [[|item items]|]; simpl default.
  - destruct (bool_decide (Order.Address order = ""));
      destruct (0 <=? Order.UserId order); reflexivity.
  - rewrite Hlen.
    destruct (bool_decide (Order.Address order = ""));
      destruct (0 <=? Order.UserId order); reflexivity.
  - destruct (bool_decide (Order.Address order = ""));
      destruct (0 <=? Order.UserId order); reflexivity.
Qed.

(** C7, as the code has it. An order request is answered with a
    validation failure exactly when the address is empty, the user id is
    negative or the list of items is missing or empty, and then the store
    is not touched. The quantities of the items are not looked at: a
    request that passes is placed whatever they are, and a placement that
    is answered with success has taken each item's quantity off the stock
    of its product, whatever the sign of the quantity. *)
Theorem orderProductHandler_checks_no_quantity
    (request : Type) (contextGetUser_ID : request -> Z)
    (readJSON_order : request -> option app.order_input)
    (r : request) (input : app.order_input) (db : DB) :
  readJSON_order r = Some input ->
  let order :=
    Order.mk 0 0 (app.in_Address input) (contextGetUser_ID r) 0
             (app.in_OrderItems input) 0 in
  let passes :=
    negb (bool_decide (app.in_Address input = ""))
    && (0 <=? contextGetUser_ID r)
    && match app.in_OrderItems input with
       | Some (_ :: _) => true
       | _ => false
       end in
  let answer := app.orderProductHandler request contextGetUser_ID
                  readJSON_order r db in
  (passes = false ->
   exists errors, answer = (app.failedValidationResponse errors, db)) /\
  (passes = true ->
   match OrderModel.Insert (contextGetUser_ID r) order db with
   | (inl err, db') => answer = (app.serverErrorResponse err, db')
   | (inr order', db') =>
       answer = (app.writeJSON app.StatusCreated (app.envelope_order order'),
                 db') /\
       forall p,
         stock db' p =
         (fun q => q - reserved p (Order.items order)) <$> stock db p
   end).
Proof.
  intros Hread order passes answer. subst answer.
  unfold app.orderProductHandler. rewrite Hread.
  fold order. rewrite (ValidateOrder_Valid order). simpl.
  fold passes. split; intros Hpasses; rewrite Hpasses; simpl.
  - eexists. reflexivity.
  - destruct (OrderModel.Insert (contextGetUser_ID r) order db)
      as [[err|order'] db'] eqn:Hins; [reflexivity|].
    split; [reflexivity|]. intros p.
    apply Insert_inr in Hins as (id & address' & _ & _ & Hps & _).
    unfold stock. rewrite Hps. apply foldl_apply_item_quantity.
Qed.

(** ** Updates and versions *)

Lemma update_products_inr p db v' db' :
  SQL.update_products p db = (inr v', db') ->
  exists row row',
    products db !! Product.ID p = Some row /\
    Product.Version row = Product.Version p /\
    v' = Product.Version row + 1 /\
    products db' !! Product.ID p = Some row' /\
    Product.Version row' = Product.Version row + 1.
Proof.
  unfold SQL.update_products. rewrite bind_call, !bind_guard.
  destruct (int4 (Product.Owner p)); [|done].
  destruct (int4 (Product.Quantity p)); [|done].
  destruct (int4 (Product.ID p)); [|done].
  destruct (int4 (Product.Version p)); [|done].
  change (products (tick db)) with (products db).
  destruct (products db !! Product.ID p) as [row|] eqn:Hrow; [|done].
  destruct (Z.eqb_spec (Product.Version row) (Product.Version p)) as [Hv|];
    [|done].
  rewrite !bind_guard.
  destruct (int4 _); [|done].
  destruct (numeric_10_2 _); [|done].
  destruct (varchar 255 _) as [title|]; [|done].
  destruct (mapM _ _) as [colors|]; [|done].
  unfold bind at 1.
  destruct (SQL.quantity_checked _ _ _) as [[e|[]] db1] eqn:Hcheck; [done|].
  assert (db1 = tick db) as ->.
  { revert Hcheck. unfold SQL.quantity_checked.
    destruct (quantity_check _); [|by intros [= <-]].
    unfold guard. destruct (0 <=? _); by intros [= <-]. }
  rewrite bind_guard. destruct (bool_decide _); [|done].
  rewrite bind_put. intros [= <- <-].
  eexists row, _. repeat split; try eassumption.
  - simpl. rewrite lookup_insert_eq. reflexivity.
  - reflexivity.
Qed.

Lemma update_products_stale p db :
  (forall row, products db !! Product.ID p = Some row ->
               Product.Version row <> Product.Version p) ->
  exists e,
    SQL.update_products p db = (inl e, tick db) /\
    (int4 (Product.Owner p) = true -> int4 (Product.Quantity p) = true ->
     int4 (Product.ID p) = true -> int4 (Product.Version p) = true ->
     e = pgx_ErrNoRows).
Proof.
  intros Hstale. unfold SQL.update_products. rewrite bind_call, !bind_guard.
  destruct (int4 (Product.Owner p)); [|refused_with].
  destruct (int4 (Product.Quantity p)); [|refused_with].
  destruct (int4 (Product.ID p)); [|refused_with].
  destruct (int4 (Product.Version p)); [|refused_with].
  change (products (tick db)) with (products db).
  destruct (products db !! Product.ID p) as [row|] eqn:Hrow;
    [|refused_with].
  destruct (Z.eqb_spec (Product.Version row) (Product.Version p)) as [Hv|];
    [|refused_with].
  exfalso. exact (Hstale row eq_refl Hv).
Qed.

Lemma update_orders_inr status id version db v' db' :
  SQL.update_orders status id version db = (inr v', db') ->
  exists row,
    orders db !! id = Some row /\ Order.Version row = version /\
    v' = Order.Version row /\
    orders db' = <[id := Order.with_Status status row]> (orders db).
Proof.
  unfold SQL.update_orders. rewrite bind_call, !bind_guard.
  destruct (int4 status); [|done].
  destruct (int4 id); [|done].
  destruct (int4 version); [|done].
  change (orders (tick db)) with (orders db).
  destruct (orders db !! id) as [row|] eqn:Hrow; [|done].
  destruct (Z.eqb_spec (Order.Version row) version) as [Hv|]; [|done].
  rewrite bind_put. intros [= <- <-]. exists row. repeat split. exact Hv.
Qed.

Lemma update_orders_stale status id version db :
  (forall row, orders db !! id = Some row -> Order.Version row <> version) ->
  exists e,
    SQL.update_orders status id version db = (inl e, tick db) /\
    (int4 status = true -> int4 id = true -> int4 version = true ->
     e = pgx_ErrNoRows).
Proof.
  intros Hstale. unfold SQL.update_orders. rewrite bind_call, !bind_guard.
  destruct (int4 status); [|refused_with].
  destruct (int4 id); [|refused_with].
  destruct (int4 version); [|refused_with].
  change (orders (tick db)) with (orders db).
  destruct (orders db !! id) as [row|] eqn:Hrow;
    [|refused_with].
  destruct (Z.eqb_spec (Order.Version row) version) as [Hv|];
    [|refused_with].
  exfalso. exact (Hstale row eq_refl Hv).
Qed.

(** C5, as the code has it. [ProductModel.Update] and [OrderModel.Update]
    are conditioned on the primary key and the last-seen version: they
    succeed only on a row that has both, and with a stale version they
    return an error and write nothing, [ErrEditConflict] when the
    arguments fit their columns. A successful [ProductModel.Update] leaves
    the stored version one above what it was. [CategoryModel.Update] is
    conditioned on the primary key alone, a category having no version:
    it replaces the row with that id, and returns [ErrEditConflict] when
    there is none. [UserModel.Update], as specified, succeeds only on the
    row with the id and the version, which it increments by one, and a
    stale version is [ErrEditConflict]. *)
Theorem updates_are_conditioned :
  (forall p db p' db',
     ProductModel.Update p db = (inr p', db') ->
     exists row row',
       products db !! Product.ID p = Some row /\
       Product.Version row = Product.Version p /\
       products db' !! Product.ID p = Some row' /\
       Product.Version row' = Product.Version row + 1 /\
       Product.Version p' = Product.Version row + 1) /\
  (forall p db,
     (forall row, products db !! Product.ID p = Some row ->
                  Product.Version row <> Product.Version p) ->
     exists e,
       ProductModel.Update p db = (inl e, tick db) /\
       (int4 (Product.Owner p) = true -> int4 (Product.Quantity p) = true ->
        int4 (Product.ID p) = true -> int4 (Product.Version p) = true ->
        e = ErrEditConflict)) /\
  (forall o db o' db',
     OrderModel.Update o db = (inr o', db') ->
     exists row,
       orders db !! Order.ID o = Some row /\
       Order.Version row = Order.Version o) /\
  (forall o db,
     (forall row, orders db !! Order.ID o = Some row ->
                  Order.Version row <> Order.Version o) ->
     exists e,
       OrderModel.Update o db = (inl e, tick db) /\
       (int4 (Order.Status o) = true -> int4 (Order.ID o) = true ->
        int4 (Order.Version o) = true -> e = ErrEditConflict)) /\
  (forall c db,
     int4 (Category.ID c) = true ->
     (is_Some (categories db !! Category.ID c) ->
      exists db', CategoryModel.Update c db = (inr c, db') /\
                  categories db' !! Category.ID c = Some c) /\
     (categories db !! Category.ID c = None ->
      CategoryModel.Update c db = (inl ErrEditConflict, tick db))) /\
  (forall u db u' db',
     UserModel.Update u db = (inr u', db') ->
     exists row row',
       users db !! User.ID u = Some row /\
       User.Version row = User.Version u /\
       users db' !! User.ID u = Some row' /\
       User.Version row' = User.Version row + 1) /\
  (forall u db,
     (forall row, users db !! User.ID u = Some row ->
                  User.Version row <> User.Version u) ->
     UserModel.Update u db = (inl ErrEditConflict, tick db)).
Proof.
  repeat apply conj.
  - intros p db p' db'. unfold ProductModel.Update, bind, map_err.
    destruct (SQL.update_products p db) as [[e|v] db1] eqn:Hupd; [done|].
    intros [= <- <-].
    apply update_products_inr in Hupd as (row & row' & H1 & H2 & -> & H3 & H4).
    exists row, row'. repeat split; assumption.
  - intros p db Hstale.
    destruct (update_products_stale p db Hstale) as (e & Hupd & He).
    exists (no_rows_as ErrEditConflict e).
    unfold ProductModel.Update, bind, map_err. rewrite Hupd.
    split; [reflexivity|]. intros H1 H2 H3 H4.
    rewrite (He H1 H2 H3 H4). reflexivity.
  - intros o db o' db'. unfold OrderModel.Update, bind, map_err.
    destruct (SQL.update_orders _ _ _ db) as [[e|v] db1] eqn:Hupd; [done|].
    intros [= <- <-].
    apply update_orders_inr in Hupd as (row & H1 & H2 & _).
    exists row. split; assumption.
  - intros o db Hstale.
    destruct (update_orders_stale (Order.Status o) _ _ db Hstale)
      as (e & Hupd & He).
    exists (no_rows_as ErrEditConflict e).
    unfold OrderModel.Update, bind, map_err. rewrite Hupd.
    split; [reflexivity|]. intros H1 H2 H3.
    rewrite (He H1 H2 H3). reflexivity.
  - intros [id title image] db Hid. simpl in Hid.
    unfold CategoryModel.Update, SQL.update_categories. simpl Category.ID.
    simpl Category.Title. simpl Category.Image.
    split.
    + intros [row Hrow]. eexists.
      unfold bind at 1, map_err. rewrite bind_call, bind_guard, Hid.
      change (categories (tick db)) with (categories db). rewrite Hrow.
      rewrite bind_put. split; [reflexivity|].
      simpl. apply lookup_insert_eq.
    + intros Hnone.
      unfold bind at 1, map_err. rewrite bind_call, bind_guard, Hid.
      change (categories (tick db)) with (categories db). rewrite Hnone.
      reflexivity.
  - intros u db u' db'. unfold UserModel.Update. rewrite bind_call.
    change (users (tick db)) with (users db).
    destruct (users db !! User.ID u) as [row|] eqn:Hrow; [|done].
    destruct (Z.eqb_spec (User.Version row) (User.Version u)) as [Hv|]; [|done].
    rewrite bind_put. intros [= <- <-]. eexists row, _.
    repeat split; try eassumption.
    + simpl. rewrite lookup_insert_eq. reflexivity.
    + reflexivity.
  - intros u db Hstale. unfold UserModel.Update. rewrite bind_call.
    change (users (tick db)) with (users db).
    destruct (users db !! User.ID u) as [row|] eqn:Hrow; [|reflexivity].
    destruct (Z.eqb_spec (User.Version row) (User.Version u)) as [Hv|];
      [|reflexivity].
    exfalso. exact (Hstale row eq_refl Hv).
Qed.

(** ** The two ways a stock update fails *)

(** The stock update of a placement never ends in [ErrEditConflict], and
    neither does the placement. *)
Lemma Insert_never_EditConflict userId order db e db' :
  OrderModel.Insert userId order db = (inl e, db') -> e <> ErrEditConflict.
Proof. intros Hins. apply Insert_inl in Hins as (He & _). exact He. Qed.

(** A decrement below zero on a row that has the id and the version is
    [ErrOutOfStock] when the table's check constraint is the one called
    [quantity_check]. *)
Lemma Insert_update_out_of_stock item product db row :
  quantity_check (config db) = Some "quantity_check" ->
  products db !! Product.ID product = Some row ->
  Product.Version row = Product.Version product ->
  int4 (OrderItem.Quantity item) = true -> int4 (Product.ID product) = true ->
  int4 (Product.Version product) = true ->
  int4 (Product.Quantity row - OrderItem.Quantity item) = true ->
  int4 (Product.Version row + 1) = true ->
  Product.Quantity row - OrderItem.Quantity item < 0 ->
  OrderModel.Insert_update item product db = (inl ErrOutOfStock, tick db).
Proof.
  intros Hname Hrow Hver Hq Hid Hv Hq' Hv' Hneg.
  unfold OrderModel.Insert_update, bind, map_err, SQL.update_products_reserve.
  fold (@bind DB Z). rewrite bind_call, !bind_guard, Hq, Hid, Hv.
  change (products (tick db)) with (products db). rewrite Hrow.
  rewrite (proj2 (Z.eqb_eq _ _) Hver), bind_guard, Hq', Hv'. simpl andb.
  unfold SQL.quantity_checked. change (config (tick db)) with (config db).
  rewrite Hname, bind_guard.
  rewrite (proj2 (Z.leb_gt _ _) Hneg). reflexivity.
Qed.

(** C3, at the point where the code leaves it. When no row has both the id
    and the version that the placement read (the version has changed in
    between, or the row is gone), the stock update writes nothing and the
    placement ends in [ErrRecordNotFound]: the code does not yield
    [ErrEditConflict] here. *)
Theorem Insert_update_stale_version_is_not_found item product db :
  int4 (OrderItem.Quantity item) = true -> int4 (Product.ID product) = true ->
  int4 (Product.Version product) = true ->
  (forall row, products db !! Product.ID product = Some row ->
               Product.Version row <> Product.Version product) ->
  OrderModel.Insert_update item product db = (inl ErrRecordNotFound, tick db).
Proof.
  intros Hq Hid Hv Hstale.
  unfold OrderModel.Insert_update, bind, map_err.
  rewrite (update_products_reserve_no_row _ _ _ db Hq Hid Hv Hstale).
  reflexivity.
Qed.

Lemma Insert_update_stale_version_is_not_found_witness :
  OrderModel.Insert_update (OrderItem.mk 5 1) (ex_product 5 3 1000 1)
    (ex_db (Some "quantity_check") true [(5, ex_product 5 3 1000 2)])
  = (inl ErrRecordNotFound,
     tick (ex_db (Some "quantity_check") true [(5, ex_product 5 3 1000 2)])).
Proof.
  apply Insert_update_stale_version_is_not_found; try reflexivity.
  intros row Hrow. vm_compute in Hrow. injection Hrow as <-.
  vm_compute. discriminate.
Defined.

(** The same stale version on the update path of a product is
    [ErrEditConflict]. *)
Example Update_stale_version_is_conflict :
  (ProductModel.Update (ex_product 5 3 1000 1)
     (ex_db (Some "quantity_check") true [(5, ex_product 5 3 1000 2)])).1
  = inl ErrEditConflict.
Proof. reflexivity. Qed.

(** ** The review gate *)

(** The answer of the gate does not depend on the user or the product it
    is asked about. *)
Lemma IsUserOrderedProduct_ignores_arguments userId productId userId'
    productId' db :
  1 <= productId -> 1 <= productId' ->
  OrderModel.IsUserOrderedProduct userId productId db =
  OrderModel.IsUserOrderedProduct userId' productId' db.
Proof.
  intros Hp Hp'. unfold OrderModel.IsUserOrderedProduct.
  rewrite (proj2 (Z.ltb_ge _ _) Hp), (proj2 (Z.ltb_ge _ _) Hp').
  reflexivity.
Qed.

(** With a driver that counts the arguments the gate never answers. *)
Lemma IsUserOrderedProduct_arity userId productId db :
  arity_checked (config db) = true ->
  exists e db',
    OrderModel.IsUserOrderedProduct userId productId db = (inl e, db').
Proof.
  intros Harity. unfold OrderModel.IsUserOrderedProduct.
  destruct (productId <? 1); [eexists; eexists; reflexivity|].
  unfold map_err, SQL.select_exists_order. rewrite bind_call, bind_guard.
  change (config (tick db)) with (config db). rewrite Harity. simpl.
  eexists; eexists; reflexivity.
Qed.

(** C4, where the code leaves it. User 1 has an order with an item for
    product 2, and a category with id 1 is there for the foreign key of
    [ratings.user_id]; the review of product 2 by user 1 is not accepted:
    it is answered with a server error when the driver counts the
    arguments, and with not-permitted when it does not. *)
Theorem createReviewHandler_refuses_a_purchaser (arity : bool) :
  SQL.ordered (ex_db_ordered arity) 1 2 = true /\
  (app.createReviewHandler app.review_input ex_contextGetUser_ID ex_readJSON
     (app.mk_review_input 2 5 "as described") (ex_db_ordered arity)).1
  = (if arity then app.serverErrorResponse (ArityError 0 2)
     else app.notPermittedReview).
Proof. destruct arity; split; vm_compute; reflexivity. Qed.


(** ** Pagination metadata *)

Lemma ceil_div_bounds (a b : Z) :
  0 < b -> (ceil_div a b - 1) * b < a <= ceil_div a b * b.
Proof.
  intros Hb. unfold ceil_div.
  pose proof (Z.div_mod (- a) b ltac:(lia)) as Hdm.
  pose proof (Z.mod_pos_bound (- a) b Hb) as Hm.
  nia.
Qed.

Lemma ceil_div_least (a b n : Z) : 0 < b -> a <= n * b -> ceil_div a b <= n.
Proof.
  intros Hb Hn. pose proof (ceil_div_bounds a b Hb) as [Hlo _].
  destruct (Z_le_gt_dec (ceil_div a b) n) as [|Hgt]; [assumption|].
  assert (n * b <= (ceil_div a b - 1) * b) by nia. lia.
Qed.

(** C8. With no record the metadata reports 0 records and 0 pages; with
    [total] records and a positive page size it reports [total] records
    and the least number of pages that hold them, ceil(total / page_size):
    2 pages for 23 records in pages of 20. *)
Theorem calculateMetadata_total_pages (total page pageSize : Z) :
  0 <= total -> 0 < pageSize ->
  let m := calculateMetadata total page pageSize in
  total_records m = total /\
  (total = 0 -> total_pages m = 0) /\
  (0 < total ->
     (total_pages m - 1) * pageSize < total <= total_pages m * pageSize /\
     forall n, total <= n * pageSize -> total_pages m <= n) /\
  total_pages (calculateMetadata 23 page 20) = 2.
Proof.
  intros Htotal Hsize m. subst m. unfold calculateMetadata.
  destruct (Z.eqb_spec total 0) as [->|Hne]; simpl.
  - repeat split; try reflexivity; lia.
  - repeat split; try reflexivity; try lia.
    + apply ceil_div_bounds; assumption.
    + apply ceil_div_bounds; assumption.
    + intros n Hn. apply ceil_div_least; assumption.
Qed.

Lemma calculateMetadata_total_pages_witness :
  0 <= 23 /\ 0 < 20 /\
  total_records (calculateMetadata 23 1 20) = 23 /\
  total_pages (calculateMetadata 23 1 20) = 2.
Proof.
  split; [lia|]. split; [lia|].
  pose proof (calculateMetadata_total_pages 23 1 20 ltac:(lia) ltac:(lia))
    as (Hrecords & _ & _ & Hpages).
  split; [exact Hrecords | exact Hpages].
Defined.

(** ** Deleting with an id below 1 *)

(** C10. For an id below 1, [ProductModel.Delete] and [OrderModel.Delete]
    return the raw [pgx.ErrNoRows] without a call to the store, so the
    delete handlers answer with a server error and not with not-found;
    [ProductModel.Get] returns [ErrRecordNotFound] for such an id. *)
Theorem Delete_below_1_is_raw_no_rows
    (request : Type) (readIDParam : request -> option Z)
    (r : request) (id : Z) (db : DB) :
  id < 1 -> readIDParam r = Some id ->
  ProductModel.Delete id db = (inl pgx_ErrNoRows, db) /\
  OrderModel.Delete id db = (inl pgx_ErrNoRows, db) /\
  app.deleteProductHandler request readIDParam r db
    = (app.serverErrorResponse pgx_ErrNoRows, db) /\
  app.deleteOrderHandler request readIDParam r db
    = (app.serverErrorResponse pgx_ErrNoRows, db) /\
  ProductModel.Get id db = (inl ErrRecordNotFound, db).
Proof.
  intros Hid Hread.
  assert (Hlt : (id <? 1) = true) by (apply Z.ltb_lt; exact Hid).
  unfold app.deleteProductHandler, app.deleteOrderHandler,
    ProductModel.Delete, OrderModel.Delete, ProductModel.Get.
  rewrite Hread, Hlt. repeat split; reflexivity.
Qed.

(** ** The sort allow-list *)

Lemma Check_false_invalid (key message : string) (v : validator.Validator) :
  validator.Valid (validator.Check false key message v) = false.
Proof. unfold validator.Check. destruct v; reflexivity. Qed.

Lemma Check_false_elem (key message : string) (v : validator.Validator) :
  (key, message) ∈ validator.Check false key message v.
Proof. unfold validator.Check. apply elem_of_app. right. apply list_elem_of_singleton. reflexivity. Qed.

Lemma PermittedValue_false (value : string) (permitted : list string) :
  value ∉ permitted -> validator.PermittedValue value permitted = false.
Proof. intros H. unfold validator.PermittedValue. apply bool_decide_eq_false. exact H. Qed.

(** C9. A listing request whose sort key is outside the allow-list is
    answered with a validation failure that names the sort key, and the
    store has received no call: it comes out as it went in, call counter
    included. *)
Theorem listProductsHandler_unlisted_sort
    (request : Type)
    (readString : request -> string -> string -> string)
    (readCSV : request -> string -> list string -> list string)
    (readInt :
       request -> string -> Z -> validator.Validator -> Z * validator.Validator)
    (paging_checks : Filters -> list (bool * string * string))
    (listing :
       string -> list string -> Filters -> DB -> error + list (Z * Product.t))
    (r : request) (db : DB) :
  readString r "sort" "product_id" ∉ app.products_SortSafelist ->
  exists errors,
    app.listProductsHandler request readString readCSV readInt paging_checks
      listing r db = (app.failedValidationResponse errors, db) /\
    ("sort", "invalid sort value") ∈ errors.
Proof.
  intros Hsort. unfold app.listProductsHandler.
  destruct (readInt r "page" 1 validator.New) as [Page v1].
  destruct (readInt r "page_size" 20 v1) as [PageSize v2].
  unfold ValidateFilters. simpl Sort. simpl SortSafelist.
  rewrite (PermittedValue_false _ _ Hsort), Check_false_invalid. simpl.
  eexists. split; [reflexivity|]. apply Check_false_elem.
Qed.

(** A request that passes validation does reach the store: the listing
    is at least one call. *)
Lemma GetAll_calls listing title categories filters db r db' :
  ProductModel.GetAll listing title categories filters db = (r, db') ->
  (calls db < calls db')%nat.
Proof.
  assert (Hcat : forall id db r db',
             SQL.select_categories_of id db = (r, db') ->
             (calls db <= calls db')%nat).
  { intros id d r0 d'. unfold SQL.select_categories_of.
    rewrite bind_call, bind_guard.
    destruct (int4 id); intros [= <- <-]; simpl; lia. }
  assert (Hrev : forall id db r db',
             ProductModel.GetReviews id db = (r, db') ->
             (calls db <= calls db')%nat).
  { intros id d r0 d'. unfold ProductModel.GetReviews, SQL.select_ratings.
    destruct (id <? 1); [intros [= <- <-]; lia|].
    rewrite bind_call, bind_guard.
    destruct (int4 id); intros [= <- <-]; simpl; lia. }
  assert (Hrows : forall rows total db r db',
             ProductModel.GetAll_rows rows total db = (r, db') ->
             (calls db <= calls db')%nat).
  { induction rows as [|[count product] rows IH]; intros total d r0 d'.
    - intros [= <- <-]. lia.
    - simpl. unfold bind at 1.
      destruct (SQL.select_categories_of _ d) as [[e|cs] d1] eqn:H1;
        [intros [= <- <-]; eauto|].
      apply Hcat in H1. unfold bind at 1.
      destruct (ProductModel.GetReviews _ d1) as [[e|rs] d2] eqn:H2;
        [intros [= <- <-]; apply Hrev in H2; lia|].
      apply Hrev in H2. unfold bind at 1.
      destruct (ProductModel.GetAll_rows rows count d2)
        as [[e|[t ps]] d3] eqn:H3; intros [= <- <-]; apply IH in H3; lia. }
  unfold ProductModel.GetAll. rewrite bind_call.
  destruct (listing title categories filters (tick db)) as [err|rows].
  - intros [= <- <-]. simpl. lia.
  - unfold bind.
    destruct (ProductModel.GetAll_rows rows 0 (tick db))
      as [[e|[t ps]] d3] eqn:H3; intros [= <- <-]; apply Hrows in H3;
      simpl in H3; lia.
Qed.
(** ** The claims checked on examples *)

(** Three units of product 5 against a stock of 3: the placement
    returns success, the stock is 0, the version is one up, and the item
    row carries the quantity. *)
Example place_the_whole_stock :
  let db := ex_db (Some "quantity_check") true [(5, ex_product 5 3 1000 1)] in
  let r := OrderModel.Insert 1 (ex_order [OrderItem.mk 5 3]) db in
  (exists order', r.1 = inr order' /\ Order.ID order' = 1) /\
  products r.2 !! 5 = Some (ex_product 5 0 1000 2) /\
  order_items r.2 = [mk_order_items_row 1 5 3].
Proof. vm_compute. repeat split. eexists. split; reflexivity. Qed.

(** One more unit than the stock: [ErrOutOfStock], and nothing is
    written. *)
Example place_more_than_the_stock :
  let db := ex_db (Some "quantity_check") true [(5, ex_product 5 3 1000 1)] in
  let r := OrderModel.Insert 1 (ex_order [OrderItem.mk 5 4]) db in
  r.1 = inl ErrOutOfStock /\ products r.2 = products db /\ orders r.2 = ∅.
Proof. vm_compute. repeat split. Qed.

(** The claim C1 fails. On the table as the migration creates it, without
    a check constraint, a placement for 5 units against a stock of 1
    returns success and leaves the stock at -4. With the check constraint,
    a placement that asks for -5 units and then fails on a missing product
    leaves the stock at 6, and the next one reserves 6 against the initial
    stock of 1. *)
Lemma placements_oversell :
  (let db := ex_db None true [(5, ex_product 5 1 1000 1)] in
   let run := place_all [mk_placement 1 (ex_order [OrderItem.mk 5 5])] db in
   stock db 5 = Some 1 /\ run.1.*2 = [true] /\
   reserved_by_successes 5 run.1 = 5 /\ stock run.2 5 = Some (-4)) /\
  (let db := ex_db (Some "quantity_check") true [(5, ex_product 5 1 1000 1)] in
   let run :=
     place_all
       [mk_placement 1 (ex_order [OrderItem.mk 5 (-5); OrderItem.mk 6 1]);
        mk_placement 1 (ex_order [OrderItem.mk 5 6])] db in
   stock db 5 = Some 1 /\ run.1.*2 = [false; true] /\
   reserved_by_successes 5 run.1 = 6 /\ stock run.2 5 = Some 0).
Proof. vm_compute. repeat split. Qed.

Lemma stock_never_negative_witness :
  exists results db',
    place_all
      [mk_placement 1 (ex_order [OrderItem.mk 5 2]);
       mk_placement 1 (ex_order [OrderItem.mk 5 2])]
      (ex_db (Some "quantity_check") true [(5, ex_product 5 3 1000 1)])
    = (results, db') /\
    (exists q, stock db' 5 = Some q /\ 0 <= q) /\
    (Forall (fun pl => asks_no_negative 5 (Order.items (placed_order pl)))
       [mk_placement 1 (ex_order [OrderItem.mk 5 2]);
        mk_placement 1 (ex_order [OrderItem.mk 5 2])] ->
     reserved_by_successes 5 results
     <= Product.Quantity (ex_product 5 3 1000 1)).
Proof.
  eexists. eexists. split; [vm_compute; reflexivity|].
  eapply (proj1 (stock_never_negative
                   [mk_placement 1 (ex_order [OrderItem.mk 5 2]);
                    mk_placement 1 (ex_order [OrderItem.mk 5 2])]
                   (ex_db (Some "quantity_check") true
                      [(5, ex_product 5 3 1000 1)])
                   "quantity_check" 5 (ex_product 5 3 1000 1)
                   eq_refl eq_refl ltac:(simpl; lia))).
  vm_compute. reflexivity.
Defined.

(** The claim C5 fails. A successful [OrderModel.Update] leaves the
    stored version of the order as it was; and of two updates of a
    category made from the same reading of it, the second succeeds and
    overwrites the first. *)
Lemma updates_that_keep_no_version :
  (let db := ex_db_ordered true in
   let r := OrderModel.Update (Order.mk 1 2 "1 Main St" 1 1200 None 1) db in
   Order.Version <$> orders db !! 1 = Some 1 /\
   Order.Status <$> orders r.2 !! 1 = Some 2 /\
   Order.Version <$> orders r.2 !! 1 = Some 1 /\
   exists order', r.1 = inr order' /\ Order.Version order' = 1) /\
  (let db := ex_db_ordered true in
   let first := CategoryModel.Update (Category.mk 1 "novels" "") db in
   let second := CategoryModel.Update (Category.mk 1 "maps" "") first.2 in
   categories db !! 1 = Some (Category.mk 1 "books" "") /\
   first.1 = inr (Category.mk 1 "novels" "") /\
   second.1 = inr (Category.mk 1 "maps" "") /\
   categories second.2 !! 1 = Some (Category.mk 1 "maps" "")).
Proof. vm_compute. repeat split. eexists. split; reflexivity. Qed.

Lemma updates_are_conditioned_witness :
  exists e,
    ProductModel.Update (ex_product 5 7 1000 1)
      (ex_db None true [(5, ex_product 5 3 1000 2)])
    = (inl e, tick (ex_db None true [(5, ex_product 5 3 1000 2)])) /\
    (int4 1 = true -> int4 7 = true -> int4 5 = true -> int4 1 = true ->
     e = ErrEditConflict).
Proof.
  apply (proj1 (proj2 updates_are_conditioned) (ex_product 5 7 1000 1)
           (ex_db None true [(5, ex_product 5 3 1000 2)])).
  intros row Hrow. vm_compute in Hrow. injection Hrow as <-.
  vm_compute. discriminate.
Defined.

(** The claim C7 fails. A request for -5 units of product 5 is answered
    with success, and the stock of the product goes from 10 to 15. *)
Lemma nonpositive_quantity_is_placed :
  let db := ex_db (Some "quantity_check") true [(5, ex_product 5 10 1000 1)] in
  let answer :=
    app.orderProductHandler app.order_input ex_contextGetUser_ID ex_readJSON
      (app.mk_order_input (Some [OrderItem.mk 5 (-5)]) "1 Main St") db in
  stock db 5 = Some 10 /\
  (exists order',
     answer.1 = app.writeJSON app.StatusCreated (app.envelope_order order')) /\
  stock answer.2 5 = Some 15.
Proof. vm_compute. repeat split. eexists. reflexivity. Qed.

Lemma orderProductHandler_checks_no_quantity_witness :
  exists errors,
    app.orderProductHandler app.order_input ex_contextGetUser_ID ex_readJSON
      (app.mk_order_input (Some []) "1 Main St")
      (ex_db None true [(5, ex_product 5 10 1000 1)])
    = (app.failedValidationResponse errors,
       ex_db None true [(5, ex_product 5 10 1000 1)]).
Proof.
  apply (proj1 (orderProductHandler_checks_no_quantity app.order_input
                  ex_contextGetUser_ID ex_readJSON
                  (app.mk_order_input (Some []) "1 Main St")
                  (app.mk_order_input (Some []) "1 Main St")
                  (ex_db None true [(5, ex_product 5 10 1000 1)])
                  eq_refl)).
  reflexivity.
Defined.

Lemma Delete_below_1_is_raw_no_rows_witness :
  app.deleteProductHandler Z ex_readIDParam 0
    (ex_db None true [(5, ex_product 5 10 1000 1)])
  = (app.serverErrorResponse pgx_ErrNoRows,
     ex_db None true [(5, ex_product 5 10 1000 1)]).
Proof.
  apply (Delete_below_1_is_raw_no_rows Z ex_readIDParam 0 0
           (ex_db None true [(5, ex_product 5 10 1000 1)])).
  - lia.
  - reflexivity.
Defined.

Lemma listProductsHandler_unlisted_sort_witness :
  exists errors,
    app.listProductsHandler string ex_readString ex_readCSV ex_readInt
      ex_paging_checks ex_listing "colour"
      (ex_db None true [(5, ex_product 5 10 1000 1)])
    = (app.failedValidationResponse errors,
       ex_db None true [(5, ex_product 5 10 1000 1)]) /\
    ("sort", "invalid sort value") ∈ errors.
Proof.
  apply (listProductsHandler_unlisted_sort string ex_readString ex_readCSV
           ex_readInt ex_paging_checks ex_listing "colour"
           (ex_db None true [(5, ex_product 5 10 1000 1)])).
  intros Hin. apply list_elem_of_In in Hin. vm_compute in Hin.
  intuition discriminate.
Defined.

(** * More of the code *)

(** ** The category clause of the product listing *)

Lemma categoriesClause_range_length (categories categories' : list string) :
  forall i clause,
    length categories = length categories' ->
    ProductModel.categoriesClause_range i categories clause
    = ProductModel.categoriesClause_range i categories' clause.
Proof.
  revert categories'.
  induction categories as [|c categories IH]; intros [|c' categories'] i clause;
    simpl; try done.
  intros [= Hlen]. apply IH. exact Hlen.
Qed.

(** X1. For two or more categories the clause of the listing statement
    does not depend on the categories asked for, only on how many they
    are; for one category it is the text of that category, as it is,
    between the parentheses; for none it is empty. *)
Theorem categoriesClause_ignores_the_categories
    (categories categories' : list string) (c : string) :
  length categories = length categories' -> (2 <= length categories)%nat ->
  ProductModel.categoriesClause categories
  = ProductModel.categoriesClause categories' /\
  ProductModel.categoriesClause [c] = "AND pc.category_id IN (" +:+ c +:+ ")" /\
  ProductModel.categoriesClause [] = "".
Proof.
  intros Hlen Htwo. split; [|split; reflexivity].
  unfold ProductModel.categoriesClause. rewrite <- Hlen.
  rewrite (categoriesClause_range_length categories categories' _ _ Hlen).
  destruct (Nat.eqb_spec (length categories) 1) as [Hone|_]; [lia|].
  reflexivity.
Qed.

Lemma categoriesClause_ignores_the_categories_witness :
  ProductModel.categoriesClause ["7"; "9"]
  = ProductModel.categoriesClause ["40"; "41"] /\
  ProductModel.categoriesClause ["7"; "9"] = "AND pc.category_id IN (2, 3)".
Proof.
  split; [|reflexivity].
  apply (fun H1 H2 =>
           proj1 (categoriesClause_ignores_the_categories
                    ["7"; "9"] ["40"; "41"] "" H1 H2)).
  - reflexivity.
  - simpl. lia.
Defined.

(** ** Categories *)

Lemma delete_category_run (id : Z) (db : DB) :
  int4 id = true ->
  SQL.delete_category id db =
  (inl pgx_ErrNoRows,
   with_ratings (filter (fun r => r_user_id r ≠ id) (ratings db))
     (with_categories (delete id (categories db)) (tick db))).
Proof.
  intros Hid. unfold SQL.delete_category.
  rewrite bind_call, bind_guard, Hid. reflexivity.
Qed.

Lemma CategoryModel_Delete_inl (id : Z) (db : DB) :
  exists e db', CategoryModel.Delete id db = (inl e, db').
Proof.
  unfold CategoryModel.Delete. destruct (id <? 1); [eexists _, _; reflexivity|].
  unfold bind, map_err, SQL.delete_category.
  fold (@bind DB Category.t). rewrite bind_call, bind_guard.
  destruct (int4 id); eexists _, _; reflexivity.
Qed.

(** X2. [CategoryModel.Delete] never returns success. For an id from 1 on
    that fits the column, and that no row of [product_category] names
    (the table's references are not among the sources), it removes the
    category, if there is one, and returns [ErrRecordNotFound] all the
    same, so the handler answers not-found after the category is gone;
    the products, the orders and their items are not touched. *)
Theorem CategoryModel_Delete_reports_not_found
    (request : Type) (readIDParam : request -> option Z)
    (r : request) (id : Z) (db : DB) :
  readIDParam r = Some id -> 1 <= id -> int4 id = true ->
  Forall (fun pc : Z * Z => pc.2 <> id) (product_category db) ->
  (forall id0 db0,
     exists e db1, CategoryModel.Delete id0 db0 = (inl e, db1)) /\
  exists db',
    CategoryModel.Delete id db = (inl ErrRecordNotFound, db') /\
    app.deleteCategoryHandler request readIDParam r db
    = (app.notFoundResponse, db') /\
    categories db' = delete id (categories db) /\
    products db' = products db /\ orders db' = orders db /\
    order_items db' = order_items db.
Proof.
  intros Hread Hid Hint _. split; [apply CategoryModel_Delete_inl|].
  unfold app.deleteCategoryHandler, CategoryModel.Delete. rewrite Hread.
  rewrite (proj2 (Z.ltb_ge _ _) Hid). unfold bind, map_err.
  rewrite (delete_category_run id db Hint).
  eexists. repeat split.
Qed.

Lemma CategoryModel_Delete_reports_not_found_witness :
  exists db',
    app.deleteCategoryHandler Z ex_readIDParam 1 (ex_db_ordered true)
    = (app.notFoundResponse, db') /\
    categories (ex_db_ordered true) !! 1 = Some (Category.mk 1 "books" "") /\
    categories db' !! 1 = None.
Proof.
  destruct (CategoryModel_Delete_reports_not_found Z ex_readIDParam 1 1
              (ex_db_ordered true) eq_refl ltac:(lia) eq_refl
              ltac:(vm_compute; constructor))
    as (_ & db' & _ & Hhandler & Hcategories & _).
  exists db'. split; [exact Hhandler|]. split; [reflexivity|].
  rewrite Hcategories. apply lookup_delete_eq.
Defined.

(** X3. A category read back after a successful [CategoryModel.Update] is
    the category that was written, and the other categories are as they
    were; an id below 1 is [ErrRecordNotFound] without a call to the
    store, and so is an id that fits the column and has no row. *)
Theorem CategoryModel_Get_after_Update (c c' : Category.t) (db db' : DB) :
  CategoryModel.Update c db = (inr c', db') -> 1 <= Category.ID c ->
  c' = c /\
  CategoryModel.Get (Category.ID c) db' = (inr c, tick db') /\
  (forall id, id <> Category.ID c ->
              categories db' !! id = categories db !! id) /\
  (forall id, id < 1 ->
              CategoryModel.Get id db = (inl ErrRecordNotFound, db)) /\
  (forall id, 1 <= id -> int4 id = true -> categories db !! id = None ->
              CategoryModel.Get id db = (inl ErrRecordNotFound, tick db)).
Proof.
  destruct c as [id title image]. simpl.
  unfold CategoryModel.Update, SQL.update_categories. simpl.
  unfold bind at 1, map_err. rewrite bind_call, bind_guard.
  destruct (int4 id) eqn:Hint; [|done].
  change (categories (tick db)) with (categories db).
  destruct (categories db !! id) as [row|] eqn:Hrow; [|done].
  rewrite bind_put. intros [= <- <-] Hid.
  split; [reflexivity|]. split; [|split; [|split]].
  - unfold CategoryModel.Get. rewrite (proj2 (Z.ltb_ge _ _) Hid).
    unfold bind, map_err, SQL.select_category.
    fold (@bind DB (string * string)). rewrite bind_call, bind_guard, Hint.
    simpl. rewrite lookup_insert_eq. reflexivity.
  - intros id0 Hne. simpl. apply lookup_insert_ne. congruence.
  - intros id0 Hlt. unfold CategoryModel.Get.
    rewrite (proj2 (Z.ltb_lt _ _) Hlt). reflexivity.
  - intros id0 Hge Hint0 Hnone. unfold CategoryModel.Get.
    rewrite (proj2 (Z.ltb_ge _ _) Hge).
    unfold bind, map_err, SQL.select_category.
    fold (@bind DB (string * string)). rewrite bind_call, bind_guard, Hint0.
    change (categories (tick db)) with (categories db). rewrite Hnone.
    reflexivity.
Qed.

Lemma CategoryModel_Get_after_Update_witness :
  exists db',
    CategoryModel.Update (Category.mk 1 "maps" "m.png") (ex_db_ordered true)
    = (inr (Category.mk 1 "maps" "m.png"), db') /\
    CategoryModel.Get 1 db' = (inr (Category.mk 1 "maps" "m.png"), tick db').
Proof.
  eexists. split; [vm_compute; reflexivity|].
  eapply (fun H =>
            proj1 (proj2 (CategoryModel_Get_after_Update
                            (Category.mk 1 "maps" "m.png") _
                            (ex_db_ordered true) _ H ltac:(simpl; lia)))).
  vm_compute. reflexivity.
Defined.

(** ** What a placement that succeeds leaves behind *)

Lemma Insert_items_seq (order_id : Z) (items : list OrderItem.t) :
  forall db r db',
    OrderModel.Insert_items order_id items db = (r, db') ->
    orders_id_seq db' = orders_id_seq db.
Proof.
  induction items as [|item items IH]; intros db r db'.
  - by intros [= <- <-].
  - simpl. unfold bind.
    destruct (SQL.insert_order_items order_id _ _ db) as [[e|[]] db1] eqn:H1.
    + intros [= <- <-]. revert H1. unfold SQL.insert_order_items.
      rewrite bind_call, !bind_guard.
      repeat (match goal with |- context [if ?b then _ else _] =>
                destruct b; [|by intros [= <- <-]] end).
      done.
    + intros Hrest. rewrite (IH _ _ _ Hrest). revert H1.
      unfold SQL.insert_order_items. rewrite bind_call, !bind_guard.
      repeat (match goal with |- context [if ?b then _ else _] =>
                destruct b; [|done] end).
      by intros [= <-].
Qed.

(** All that a placement that returns success has written. *)
Lemma Insert_written userId order db order' db' :
  OrderModel.Insert userId order db = (inr order', db') ->
  exists address',
    varchar 255 (Order.Address order) = Some address' /\
    int4 (orders_id_seq db + 1) = true /\
    order' = Order.with_TotalPrice
               (spec_total_price db (Order.items order))
               (Order.with_inserted (orders_id_seq db + 1) userId order) /\
    orders db' =
      <[orders_id_seq db + 1 :=
          Order.mk (orders_id_seq db + 1) 0 address' userId
            (spec_total_price db (Order.items order)) None 1]> (orders db) /\
    orders_id_seq db' = orders_id_seq db + 1 /\
    products db' = foldl apply_item (products db) (Order.items order) /\
    order_items db' =
      (order_items db
       ++ (item_row (orders_id_seq db + 1) <$> Order.items order))%list.
Proof.
  rewrite Insert_stages.
  destruct (OrderModel.Insert_reserve _ 0 db) as [[e|total] db1] eqn:Hres;
    [done|].
  destruct (SQL.insert_orders _ _ _ db1) as [[e|[id user]] db2] eqn:Hins;
    [done|].
  apply Insert_reserve_spec in Hres
    as ((_ & _ & _ & _ & Ho & Hseq & Hoi & _) & applied & rest & Hitems & Hps
        & Happlied & -> & ->).
  rewrite app_nil_r in Hitems. subst applied.
  apply insert_orders_inr in Hins
    as (address' & Haddress & Hid & -> & Hint & ->).
  destruct (OrderModel.Insert_items id (Order.items order) _)
    as [r3 db3] eqn:Hrun.
  pose proof (Insert_items_seq _ _ _ _ _ Hrun) as Hseq3.
  destruct (Insert_items_ok id (Order.items order)
              (with_orders
                 (<[id := Order.mk id 0 address' userId
                            (0 + spec_total_price db (Order.items order))
                            None 1]> (orders db1)) id (tick db1)))
    as (db3' & Hrun' & _ & Hproducts & Horders & Hrows).
  { exact Hint. }
  { simpl. rewrite lookup_insert_eq. eauto. }
  { simpl. eapply Forall_impl; [exact Happlied|].
    intros item (? & ? & Hx). repeat split; try assumption.
    rewrite Hps. apply foldl_apply_item_is_Some. exact Hx. }
  rewrite Hrun in Hrun'. injection Hrun' as -> <-.
  intros [= <- <-]. simpl in Hseq3, Hproducts, Horders, Hrows.
  rewrite Hseq in Hid. subst id.
  exists address'. rewrite Horders, Hproducts, Hrows, Hseq3, Ho, Hoi, Hps.
  repeat split; assumption.
Qed.

(** X4. An order read back with [OrderModel.Get] after a placement that
    returned success is the header as it was stored: the new id, status
    0, the address as the column holds it, the user, the total and
    version 1, with no items; the orders that were there are as they
    were. *)
Theorem OrderModel_Get_after_Insert userId order db order' db' :
  OrderModel.Insert userId order db = (inr order', db') ->
  0 <= orders_id_seq db ->
  exists address',
    varchar 255 (Order.Address order) = Some address' /\
    Order.ID order' = orders_id_seq db + 1 /\
    OrderModel.Get (Order.ID order') db'
    = (inr (Order.mk (Order.ID order') 0 address' userId
              (Order.TotalPrice order') None 1), tick db') /\
    (forall id, id <> Order.ID order' ->
                orders db' !! id = orders db !! id).
Proof.
  intros Hrun Hseq.
  apply Insert_written in Hrun
    as (address' & Haddress & Hint & -> & Horders & _ & _ & _).
  exists address'. simpl. repeat split; [exact Haddress| |].
  - unfold OrderModel.Get.
    assert ((orders_id_seq db + 1 <? 1) = false) as -> by lia.
    unfold map_err, SQL.select_order. rewrite bind_call, bind_guard, Hint.
    change (orders (tick db')) with (orders db').
    rewrite Horders, lookup_insert_eq. reflexivity.
  - intros id Hne. rewrite Horders. apply lookup_insert_ne. congruence.
Qed.

Lemma OrderModel_Get_after_Insert_witness :
  exists db',
    OrderModel.Insert 1 (ex_order [OrderItem.mk 2 2])
      (ex_db None true [(2, ex_product 2 10 1000 1)])
    = (inr (Order.mk 1 0 "1 Main St" 1 1200 (Some [OrderItem.mk 2 2]) 0), db') /\
    OrderModel.Get 1 db'
    = (inr (Order.mk 1 0 "1 Main St" 1 1200 None 1), tick db').
Proof.
  eexists. split; [vm_compute; reflexivity|].
  destruct (OrderModel_Get_after_Insert 1 (ex_order [OrderItem.mk 2 2])
              (ex_db None true [(2, ex_product 2 10 1000 1)]) _ _
              ltac:(vm_compute; reflexivity) ltac:(simpl; lia))
    as (address' & Haddress & _ & Hget & _).
  injection Haddress as <-. exact Hget.
Defined.

(** X5. A placement that returned success has given the order the next id
    of the sequence, has left one row of [order_items] under that id for
    each item of the request, in the order of the request, and has left
    each product's row with its quantity down by what the items ask of
    it and its version up by the number of items that name it; no other
    order's items have changed. *)
Theorem Insert_success_writes userId order db order' db' :
  OrderModel.Insert userId order db = (inr order', db') ->
  Order.ID order' = orders_id_seq db + 1 /\
  orders_id_seq db' = orders_id_seq db + 1 /\
  SQL.select_order_items (Order.ID order') db'
  = (inr (items_of db (Order.ID order') ++ Order.items order)%list,
     tick db') /\
  (forall id, id <> Order.ID order' -> items_of db' id = items_of db id) /\
  (forall p, products db' !! p
             = after_items p (Order.items order) <$> products db !! p).
Proof.
  intros Hrun.
  apply Insert_written in Hrun
    as (address' & _ & Hint & -> & _ & Hseq & Hproducts & Hrows).
  simpl. split; [reflexivity|]. split; [exact Hseq|].
  assert (forall id,
            items_of db' id
            = (items_of db id
               ++ (if bool_decide (orders_id_seq db + 1 = id)
                   then Order.items order else []))%list) as Hitems.
  { intros id. unfold items_of. rewrite Hrows, omap_app. f_equal.
    generalize (Order.items order). intros items.
    induction items as [|[p q] items IH]; [by case_bool_decide|].
    cbn. cbn in IH. rewrite IH.
    repeat case_bool_decide; done. }
  split; [|split].
  - unfold SQL.select_order_items. rewrite bind_call, bind_guard, Hint.
    change (order_items (tick db')) with (order_items db').
    fold (items_of db' (orders_id_seq db + 1)).
    rewrite Hitems, bool_decide_true by reflexivity. reflexivity.
  - intros id Hne. rewrite Hitems, bool_decide_false by congruence.
    apply app_nil_r.
  - intros p. rewrite Hproducts. apply foldl_apply_item_lookup.
Qed.

Lemma Insert_success_writes_witness :
  exists order' db',
    OrderModel.Insert 1 (ex_order [OrderItem.mk 2 2; OrderItem.mk 2 3])
      (ex_db None true [(2, ex_product 2 10 1000 1)])
    = (inr order', db') /\
    Order.ID order' = 1 /\
    SQL.select_order_items 1 db'
    = (inr [OrderItem.mk 2 2; OrderItem.mk 2 3], tick db') /\
    products db' !! 2 = Some (ex_product 2 5 1000 3).
Proof.
  eexists _, _. split; [vm_compute; reflexivity|].
  destruct (Insert_success_writes 1
              (ex_order [OrderItem.mk 2 2; OrderItem.mk 2 3])
              (ex_db None true [(2, ex_product 2 10 1000 1)]) _ _
              ltac:(vm_compute; reflexivity))
    as (Hid & _ & Hitems & _ & Hproducts).
  split; [exact Hid|]. split; [exact Hitems|].
  rewrite Hproducts. reflexivity.
Defined.

(** ** Deleting an order and deleting a product *)

Lemma items_of_filter_order (id id' : Z) (rows : list order_items_row) :
  omap (fun r => if bool_decide (oi_order_id r = id')
                 then Some (OrderItem.mk (oi_product_id r) (oi_quantity r))
                 else None)
       (filter (fun r => oi_order_id r ≠ id) rows)
  = if bool_decide (id' = id) then []
    else omap (fun r => if bool_decide (oi_order_id r = id')
                        then Some (OrderItem.mk (oi_product_id r)
                                                (oi_quantity r))
                        else None) rows.
Proof.
  induction rows as [|r rows IH]; [by case_bool_decide|].
  rewrite filter_cons. destruct (decide (oi_order_id r ≠ id)) as [Hne|Heq].
  - cbn. cbn in IH. rewrite IH. repeat case_bool_decide; congruence.
  - apply dec_stable in Heq. rewrite IH. cbn.
    repeat case_bool_decide; congruence.
Qed.

Lemma reviews_of_filter_product (id id' : Z) (rows : list ratings_row) :
  omap (fun r => if bool_decide (r_product_id r = id')
                 then Some (RatingSchema.mk (r_user_id r) (r_rating r)
                                            (r_comment r))
                 else None)
       (filter (fun r => r_product_id r ≠ id) rows)
  = if bool_decide (id' = id) then []
    else omap (fun r => if bool_decide (r_product_id r = id')
                        then Some (RatingSchema.mk (r_user_id r) (r_rating r)
                                                   (r_comment r))
                        else None) rows.
Proof.
  induction rows as [|r rows IH]; [by case_bool_decide|].
  rewrite filter_cons. destruct (decide (r_product_id r ≠ id)) as [Hne|Heq].
  - cbn. cbn in IH. rewrite IH. repeat case_bool_decide; congruence.
  - apply dec_stable in Heq. rewrite IH. cbn.
    repeat case_bool_decide; congruence.
Qed.

(** X6. [OrderModel.Delete] of an order that is stored removes its header
    and its item rows and nothing else, and [deleteOrderHandler] answers
    200: the items of the other orders stay, and the products keep the
    quantities the order had taken, the stock is not given back. The
    order is then gone for [OrderModel.Get], and a second
    [OrderModel.Delete] is [ErrRecordNotFound]. *)
Theorem OrderModel_Delete_removes_the_order
    (request : Type) (readIDParam : request -> option Z) (r : request)
    (id : Z) (row : Order.t) (db : DB) :
  readIDParam r = Some id ->
  1 <= id -> int4 id = true -> orders db !! id = Some row ->
  exists db',
    OrderModel.Delete id db = (inr tt, db') /\
    app.deleteOrderHandler request readIDParam r db
    = (app.writeJSON app.StatusOK
         (app.envelope_message "order successfully deleted"), db') /\
    orders db' = delete id (orders db) /\
    items_of db' id = [] /\
    (forall id', id' <> id -> items_of db' id' = items_of db id') /\
    products db' = products db /\
    OrderModel.Get id db' = (inl ErrRecordNotFound, tick db') /\
    OrderModel.Delete id db' = (inl ErrRecordNotFound, tick db').
Proof.
  intros Hread Hid Hint Hrow.
  assert ((id <? 1) = false) as Hlt by lia.
  assert (OrderModel.Delete id db
          = (inr tt,
             with_order_items
               (filter (fun r => oi_order_id r ≠ id) (order_items db))
               (with_orders (delete id (orders db)) (orders_id_seq db)
                  (tick db)))) as Hdelete.
  { unfold OrderModel.Delete. rewrite Hlt.
    unfold bind at 1, map_err, SQL.delete_order.
    rewrite bind_call, bind_guard, Hint.
    change (orders (tick db)) with (orders db). rewrite Hrow, bind_put.
    reflexivity. }
  eexists. split; [exact Hdelete|].
  split; [unfold app.deleteOrderHandler; by rewrite Hread, Hdelete|].
  simpl.
  split; [reflexivity|]. split; [|split; [|split; [reflexivity|split]]].
  - unfold items_of. simpl. rewrite items_of_filter_order.
    by rewrite bool_decide_true.
  - intros id' Hne. unfold items_of. simpl. rewrite items_of_filter_order.
    by rewrite bool_decide_false.
  - unfold OrderModel.Get. rewrite Hlt. unfold map_err, SQL.select_order.
    rewrite bind_call, bind_guard, Hint. simpl.
    rewrite lookup_delete_eq. reflexivity.
  - unfold OrderModel.Delete. rewrite Hlt.
    unfold bind at 1, map_err, SQL.delete_order.
    rewrite bind_call, bind_guard, Hint. simpl.
    rewrite lookup_delete_eq. reflexivity.
Qed.

Lemma OrderModel_Delete_removes_the_order_witness :
  exists db',
    OrderModel.Delete 1 (ex_db_ordered true) = (inr tt, db') /\
    items_of (ex_db_ordered true) 1 = [OrderItem.mk 2 2] /\
    items_of db' 1 = [] /\
    stock (ex_db_ordered true) 2 = Some 8 /\ stock db' 2 = Some 8.
Proof.
  destruct (OrderModel_Delete_removes_the_order Z ex_readIDParam 1 1
              (Order.mk 1 0 "1 Main St" 1 1200 None 1) (ex_db_ordered true)
              eq_refl ltac:(lia) eq_refl ltac:(vm_compute; reflexivity))
    as (db' & Hdelete & _ & _ & Hitems & _ & Hproducts & _).
  exists db'. split; [exact Hdelete|]. split; [reflexivity|].
  split; [exact Hitems|]. split; [reflexivity|].
  unfold stock. rewrite Hproducts. reflexivity.
Defined.

(** X7. [ProductModel.Delete] of a product that is stored, and that no
    row of [product_category] names (the table's references are not among
    the sources), removes the product, its reviews and the item rows that
    name it in every order, while the headers of those orders stay as
    they are, and [deleteProductHandler] answers 200. The product is
    then gone for [ProductModel.Get], and a second [ProductModel.Delete]
    is [ErrRecordNotFound]. *)
Theorem ProductModel_Delete_cascades
    (request : Type) (readIDParam : request -> option Z) (r : request)
    (id : Z) (row : Product.t) (db : DB) :
  readIDParam r = Some id ->
  1 <= id -> int4 id = true -> products db !! id = Some row ->
  Forall (fun pc : Z * Z => pc.1 <> id) (product_category db) ->
  exists db',
    ProductModel.Delete id db = (inr tt, db') /\
    app.deleteProductHandler request readIDParam r db
    = (app.writeJSON app.StatusOK
         (app.envelope_message "product successfully deleted"), db') /\
    products db' = delete id (products db) /\
    order_items db'
    = filter (fun r => oi_product_id r ≠ id) (order_items db) /\
    orders db' = orders db /\
    reviews_of db' id = [] /\
    (forall p, p <> id -> reviews_of db' p = reviews_of db p) /\
    ProductModel.Get id db' = (inl ErrRecordNotFound, tick db') /\
    ProductModel.Delete id db' = (inl ErrRecordNotFound, tick db').
Proof.
  intros Hread Hid Hint Hrow _.
  assert ((id <? 1) = false) as Hlt by lia.
  assert (ProductModel.Delete id db
          = (inr tt,
             with_ratings
               (filter (fun r => r_product_id r ≠ id) (ratings db))
               (with_order_items
                  (filter (fun r => oi_product_id r ≠ id) (order_items db))
                  (with_products (delete id (products db)) (tick db)))))
    as Hdelete.
  { unfold ProductModel.Delete. rewrite Hlt.
    unfold bind at 1, map_err, SQL.delete_product.
    rewrite bind_call, bind_guard, Hint.
    change (products (tick db)) with (products db). rewrite Hrow, bind_put.
    reflexivity. }
  eexists. split; [exact Hdelete|].
  split; [unfold app.deleteProductHandler; by rewrite Hread, Hdelete|].
  simpl.
  do 3 (split; [reflexivity|]). split; [|split; [|split]].
  - unfold reviews_of. simpl. rewrite reviews_of_filter_product.
    by rewrite bool_decide_true.
  - intros p Hne. unfold reviews_of. simpl.
    rewrite reviews_of_filter_product. by rewrite bool_decide_false.
  - unfold ProductModel.Get. rewrite Hlt.
    unfold bind at 1, map_err, SQL.select_product.
    rewrite bind_call, bind_guard, Hint. simpl.
    rewrite lookup_delete_eq. reflexivity.
  - unfold ProductModel.Delete. rewrite Hlt.
    unfold bind at 1, map_err, SQL.delete_product.
    rewrite bind_call, bind_guard, Hint. simpl.
    rewrite lookup_delete_eq. reflexivity.
Qed.

Lemma ProductModel_Delete_cascades_witness :
  exists db',
    ProductModel.Delete 2 (ex_db_ordered true) = (inr tt, db') /\
    items_of (ex_db_ordered true) 1 = [OrderItem.mk 2 2] /\
    items_of db' 1 = [] /\
    orders db' !! 1 = Some (Order.mk 1 0 "1 Main St" 1 1200 None 1).
Proof.
  destruct (ProductModel_Delete_cascades Z ex_readIDParam 2 2
              (ex_product 2 8 1000 2) (ex_db_ordered true)
              eq_refl ltac:(lia) eq_refl ltac:(vm_compute; reflexivity)
              ltac:(vm_compute; constructor))
    as (db' & Hdelete & _ & _ & Hitems & Horders & _).
  exists db'. split; [exact Hdelete|]. split; [reflexivity|].
  split; [unfold items_of; rewrite Hitems; reflexivity|].
  rewrite Horders. reflexivity.
Defined.

(** ** Reviews *)

Lemma InsertReview_inr rating productId db db' :
  ProductModel.InsertReview rating productId db = (inr tt, db') ->
  int4 productId = true /\
  int4 (RatingSchema.UserId rating) = true /\
  int4 (RatingSchema.Rating rating) = true /\
  is_Some (products db !! productId) /\
  is_Some (categories db !! RatingSchema.UserId rating) /\
  db' = with_ratings
          (ratings db ++
           [mk_ratings_row productId (RatingSchema.UserId rating)
              (RatingSchema.Rating rating) (RatingSchema.Comment rating)])
          (tick db).
Proof.
  unfold ProductModel.InsertReview, SQL.insert_ratings.
  unfold bind at 1. rewrite bind_call, !bind_guard.
  destruct (int4 productId); [|done].
  destruct (int4 (RatingSchema.UserId rating)); [|done].
  destruct (int4 (RatingSchema.Rating rating)); [|done].
  change (products (tick db)) with (products db).
  change (categories (tick db)) with (categories db).
  case_bool_decide as Hproduct; [|done].
  case_bool_decide as Hcategory; [|done].
  rewrite bind_put. intros [= <-]. done.
Qed.

Lemma InsertReview_run rating productId db :
  int4 productId = true -> int4 (RatingSchema.UserId rating) = true ->
  int4 (RatingSchema.Rating rating) = true ->
  is_Some (products db !! productId) ->
  is_Some (categories db !! RatingSchema.UserId rating) ->
  ProductModel.InsertReview rating productId db
  = (inr tt,
     with_ratings
       (ratings db ++
        [mk_ratings_row productId (RatingSchema.UserId rating)
           (RatingSchema.Rating rating) (RatingSchema.Comment rating)])
       (tick db)).
Proof.
  intros Hp Hu Hr Hproduct Hcategory.
  unfold ProductModel.InsertReview, SQL.insert_ratings.
  unfold bind at 1. rewrite bind_call, !bind_guard, Hp, Hu, Hr.
  change (products (tick db)) with (products db).
  change (categories (tick db)) with (categories db).
  rewrite !bool_decide_true by assumption. reflexivity.
Qed.

Lemma reviews_of_app (db : DB) (p : Z) (rows : list ratings_row) :
  reviews_of (with_ratings (ratings db ++ rows) (tick db)) p
  = (reviews_of db p
     ++ omap (fun r => if bool_decide (r_product_id r = p)
                       then Some (RatingSchema.mk (r_user_id r) (r_rating r)
                                                  (r_comment r))
                       else None) rows)%list.
Proof. unfold reviews_of. simpl. apply omap_app. Qed.

(** X8. After [ProductModel.InsertReview] has returned success,
    [ProductModel.GetReviews] of the product gives the reviews it had,
    followed by the new one, and the reviews of the other products are as
    they were. Nothing keeps a user to one review of a product: the same
    review inserted again is stored a second time. *)
Theorem GetReviews_after_InsertReview rating productId db db' :
  ProductModel.InsertReview rating productId db = (inr tt, db') ->
  1 <= productId ->
  ProductModel.GetReviews productId db'
  = (inr (reviews_of db productId ++ [rating])%list, tick db') /\
  (forall p, p <> productId -> reviews_of db' p = reviews_of db p) /\
  exists db'',
    ProductModel.InsertReview rating productId db' = (inr tt, db'') /\
    reviews_of db'' productId
    = (reviews_of db productId ++ [rating; rating])%list.
Proof.
  intros Hrun Hid.
  apply InsertReview_inr in Hrun
    as (Hint & Huser & Hstars & Hproduct & Hcategory & ->).
  assert ((productId <? 1) = false) as Hlt by lia.
  destruct rating as [user stars comment]. simpl in *.
  split; [|split].
  - unfold ProductModel.GetReviews. rewrite Hlt.
    unfold SQL.select_ratings. rewrite bind_call, bind_guard, Hint.
    pose proof (reviews_of_app db productId
                  [mk_ratings_row productId user stars comment]) as Happ.
    unfold reviews_of in Happ. simpl in Happ.
    rewrite bool_decide_true in Happ by reflexivity.
    simpl. unfold reviews_of. rewrite Happ. reflexivity.
  - intros p Hne. rewrite reviews_of_app. simpl.
    rewrite bool_decide_false by congruence. apply app_nil_r.
  - eexists. split.
    + apply InsertReview_run; simpl; assumption.
    + rewrite !reviews_of_app. simpl.
      rewrite bool_decide_true by reflexivity.
      rewrite <- app_assoc. reflexivity.
Qed.

Lemma GetReviews_after_InsertReview_witness :
  exists db',
    ProductModel.InsertReview (RatingSchema.mk 1 5 "as described") 2
      (ex_db_ordered true) = (inr tt, db') /\
    ProductModel.GetReviews 2 db'
    = (inr [RatingSchema.mk 1 5 "as described"], tick db').
Proof.
  eexists. split; [vm_compute; reflexivity|].
  apply (fun H1 H2 =>
           proj1 (GetReviews_after_InsertReview
                    (RatingSchema.mk 1 5 "as described") 2
                    (ex_db_ordered true) _ H1 H2)).
  - vm_compute. reflexivity.
  - lia.
Defined.

(** X9. [ProductModel.InsertReview], given numbers that fit their
    columns, returns success exactly when the product is stored and the
    table of categories has a row whose id is the user id of the review:
    [ratings.user_id] references [categories], not [users]. A review it
    refuses leaves [ratings] as it was. *)
Theorem InsertReview_needs_a_category rating productId db :
  int4 productId = true -> int4 (RatingSchema.UserId rating) = true ->
  int4 (RatingSchema.Rating rating) = true ->
  ((exists db', ProductModel.InsertReview rating productId db = (inr tt, db'))
   <-> is_Some (products db !! productId) /\
       is_Some (categories db !! RatingSchema.UserId rating)) /\
  (forall e db', ProductModel.InsertReview rating productId db = (inl e, db')
                 -> ratings db' = ratings db).
Proof.
  intros Hp Hu Hr. split; [split|].
  - intros (db' & Hrun). apply InsertReview_inr in Hrun. tauto.
  - intros (Hproduct & Hcategory). eexists.
    by apply InsertReview_run.
  - intros e db'. unfold ProductModel.InsertReview, SQL.insert_ratings.
    unfold bind at 1. rewrite bind_call, !bind_guard, Hp, Hu, Hr.
    repeat (case_bool_decide; [|by intros [= <- <-]]).
    rewrite bind_put. done.
Qed.

Lemma InsertReview_needs_a_category_witness :
  (exists db',
     ProductModel.InsertReview (RatingSchema.mk 1 5 "as described") 2
       (ex_db_ordered true) = (inr tt, db')) /\
  users (ex_db_ordered true) !! 1 = Some ex_user /\
  categories (ex_db None true [(2, ex_product 2 10 1000 1)]) !! 1 = None /\
  ~ exists db',
      ProductModel.InsertReview (RatingSchema.mk 1 5 "as described") 2
        (ex_db None true [(2, ex_product 2 10 1000 1)]) = (inr tt, db').
Proof.
  split; [|split; [reflexivity|split; [reflexivity|]]].
  - apply (proj1 (InsertReview_needs_a_category
                    (RatingSchema.mk 1 5 "as described") 2
                    (ex_db_ordered true) eq_refl eq_refl eq_refl)).
    split; vm_compute; eauto.
  - intros Hrun.
    apply (proj1 (InsertReview_needs_a_category
                    (RatingSchema.mk 1 5 "as described") 2
                    (ex_db None true [(2, ex_product 2 10 1000 1)])
                    eq_refl eq_refl eq_refl)) in Hrun as [_ [c Hc]].
    vm_compute in Hc. discriminate Hc.
Defined.

(** ** The handlers of reviews and orders *)

(** X10. When the driver counts the arguments of a statement, or when no
    order of user 3 holds product 9, [createReviewHandler] accepts no
    review at all: whatever the request, the answer is not a [writeJSON]
    and [ratings] is as it was. *)
Theorem createReviewHandler_accepts_no_review
    (request : Type) (contextGetUser_ID : request -> Z)
    (readJSON_review : request -> option app.review_input)
    (r : request) (db : DB) :
  arity_checked (config db) = true \/ SQL.ordered db 3 9 = false ->
  exists resp db',
    app.createReviewHandler request contextGetUser_ID readJSON_review r db
    = (resp, db') /\
    ratings db' = ratings db /\
    forall status data, resp <> app.writeJSON status data.
Proof.
  intros Hgate. unfold app.createReviewHandler.
  destruct (readJSON_review r) as [input|]; [|by eexists _, _].
  destruct (negb _); [by eexists _, _|].
  unfold OrderModel.IsUserOrderedProduct.
  destruct (app.in_ProductId input <? 1); [by eexists _, _|].
  unfold map_err, SQL.select_exists_order. rewrite bind_call, bind_guard.
  change (config (tick db)) with (config db).
  destruct (arity_checked (config db)) eqn:Harity; simpl.
  - by eexists _, _.
  - destruct Hgate as [|Hnone]; [done|].
    change (SQL.ordered (tick db) 3 9) with (SQL.ordered db 3 9).
    rewrite Hnone. by eexists _, _.
Qed.

Lemma createReviewHandler_accepts_no_review_witness :
  SQL.ordered (ex_db_ordered true) 1 2 = true /\
  exists resp db',
    app.createReviewHandler app.review_input ex_contextGetUser_ID ex_readJSON
      (app.mk_review_input 2 5 "as described") (ex_db_ordered true)
    = (resp, db') /\
    ratings db' = ratings (ex_db_ordered true) /\
    forall status data, resp <> app.writeJSON status data.
Proof.
  split; [reflexivity|].
  apply createReviewHandler_accepts_no_review. left. reflexivity.
Defined.

(** X11. [updateOrderHandler] stores the status and nothing else. Called
    for an order that is stored, whatever it answers, the other orders
    are untouched and the order differs from what it was in its status at
    most; when it answers 200 the stored status is the one asked for, or
    the old one if none was, while the address and the total price of the
    answer are those of the request, which are not stored, and the
    version of the answer is the stored one, which has not moved. *)
Theorem updateOrderHandler_stores_the_status_only
    (request : Type) (readIDParam : request -> option Z)
    (readJSON_order_update : request -> option app.order_update_input)
    (r : request) (id : Z) (input : app.order_update_input) (row : Order.t)
    (db : DB) (resp : app.response) (db' : DB) :
  readIDParam r = Some id -> readJSON_order_update r = Some input ->
  orders db !! id = Some row ->
  app.updateOrderHandler request readIDParam readJSON_order_update r db
  = (resp, db') ->
  (forall id', id' <> id -> orders db' !! id' = orders db !! id') /\
  (exists status, orders db' !! id = Some (Order.with_Status status row)) /\
  (forall order',
     resp = app.writeJSON app.StatusOK (app.envelope_order order') ->
     orders db' !! id
     = Some (Order.with_Status
               (default (Order.Status row) (app.up_Status input)) row) /\
     Order.Address order'
     = default (Order.Address row) (app.up_Address input) /\
     Order.TotalPrice order'
     = default (Order.TotalPrice row) (app.up_TotalPrice input) /\
     Order.Version order' = Order.Version row).
Proof.
  intros Hread Hjson Hrow.
  assert (Hsame : forall db1, orders db1 = orders db ->
            (forall id', id' <> id -> orders db1 !! id' = orders db !! id') /\
            (exists status,
               orders db1 !! id = Some (Order.with_Status status row))).
  { intros db1 ->. split; [done|]. exists (Order.Status row).
    rewrite Hrow. by destruct row. }
  unfold app.updateOrderHandler. rewrite Hread.
  unfold OrderModel.Get. destruct (id <? 1).
  { intros [= <- <-]. destruct (Hsame db eq_refl). done. }
  unfold map_err at 1, SQL.select_order. rewrite bind_call, bind_guard.
  destruct (int4 id) eqn:Hint.
  2:{ intros [= <- <-]. destruct (Hsame (tick db) eq_refl). done. }
  change (orders (tick db)) with (orders db). rewrite Hrow. unfold ret at 1.
  cbv iota beta. rewrite Hjson.
  destruct (negb _).
  { intros [= <- <-]. destruct (Hsame (tick db) eq_refl). done. }
  unfold OrderModel.Update, bind at 1, map_err, SQL.update_orders.
  rewrite bind_call, !bind_guard. cbn [Order.Status Order.ID Order.Version
    Order.with_inserted].
  destruct (int4 (default _ _)).
  2:{ intros [= <- <-]. destruct (Hsame (tick (tick db)) eq_refl). done. }
  rewrite Hint. destruct (int4 (Order.Version row)).
  2:{ intros [= <- <-]. destruct (Hsame (tick (tick db)) eq_refl). done. }
  change (orders (tick (tick db))) with (orders db). rewrite Hrow.
  rewrite Z.eqb_refl, bind_put. intros [= <- <-]. cbn.
  split; [|split].
  - intros id' Hne. by apply lookup_insert_ne.
  - eexists. apply lookup_insert_eq.
  - intros order' [= <-]. rewrite lookup_insert_eq. done.
Qed.

Lemma updateOrderHandler_stores_the_status_only_witness :
  (app.updateOrderHandler Z ex_readIDParam
     (fun _ => Some (app.mk_order_update_input (Some 2) (Some "9 Elm St")
                       (Some 5)))
     1 (ex_db_ordered true)).1
  = app.writeJSON app.StatusOK
      (app.envelope_order (Order.mk 1 2 "9 Elm St" 1 5 None 1)) /\
  orders
    (app.updateOrderHandler Z ex_readIDParam
       (fun _ => Some (app.mk_order_update_input (Some 2) (Some "9 Elm St")
                         (Some 5)))
       1 (ex_db_ordered true)).2 !! 1
  = Some (Order.mk 1 2 "1 Main St" 1 1200 None 1).
Proof.
  split; [vm_compute; reflexivity|].
  destruct (updateOrderHandler_stores_the_status_only Z ex_readIDParam
              (fun _ => Some (app.mk_order_update_input (Some 2)
                                (Some "9 Elm St") (Some 5)))
              1 1 (app.mk_order_update_input (Some 2) (Some "9 Elm St")
                     (Some 5))
              (Order.mk 1 0 "1 Main St" 1 1200 None 1)
              (ex_db_ordered true) _ _ eq_refl eq_refl
              ltac:(vm_compute; reflexivity)
              (surjective_pairing _))
    as (_ & _ & Hok).
  destruct (Hok (Order.mk 1 2 "9 Elm St" 1 5 None 1)
              ltac:(vm_compute; reflexivity)) as (Hstored & _).
  exact Hstored.
Defined.

(** ** A placement the handler cannot make *)

(** X12. [orderProductHandler] answers every failed placement with a
    server error. For a request that passes validation and whose first
    item names a product that is not stored, the answer is a server error
    carrying [ErrRecordNotFound], not not-found; when the product is
    stored with less than the item asks for and the table has the check
    constraint [quantity_check], it is a server error carrying
    [ErrOutOfStock]. In both cases no table has changed. *)
Theorem orderProductHandler_failures_are_server_errors
    (request : Type) (contextGetUser_ID : request -> Z)
    (readJSON_order : request -> option app.order_input)
    (r : request) (input : app.order_input) (item : OrderItem.t)
    (rest : list OrderItem.t) (db : DB) :
  readJSON_order r = Some input ->
  app.in_Address input <> "" -> 0 <= contextGetUser_ID r ->
  app.in_OrderItems input = Some (item :: rest) ->
  1 <= OrderItem.ProductId item -> int4 (OrderItem.ProductId item) = true ->
  (products db !! OrderItem.ProductId item = None ->
   app.orderProductHandler request contextGetUser_ID readJSON_order r db
   = (app.serverErrorResponse ErrRecordNotFound, tick db)) /\
  (forall row,
     products db !! OrderItem.ProductId item = Some row ->
     quantity_check (config db) = Some "quantity_check" ->
     int4 (OrderItem.Quantity item) = true ->
     int4 (Product.Version row) = true ->
     int4 (Product.Version row + 1) = true ->
     int4 (Product.Quantity row - OrderItem.Quantity item) = true ->
     Product.Quantity row < OrderItem.Quantity item ->
     app.orderProductHandler request contextGetUser_ID readJSON_order r db
     = (app.serverErrorResponse ErrOutOfStock, tick (tick db))).
Proof.
  intros Hread Haddress Huser Hitems Hid Hint.
  assert ((OrderItem.ProductId item <? 1) = false) as Hlt by lia.
  assert (Hvalid :
            negb (validator.Valid
                    (OrderModel.ValidateOrder validator.New
                       (Order.mk 0 0 (app.in_Address input)
                          (contextGetUser_ID r) 0 (app.in_OrderItems input)
                          0))) = false).
  { rewrite ValidateOrder_Valid. simpl. rewrite Hitems.
    rewrite bool_decide_false by exact Haddress.
    rewrite (proj2 (Z.leb_le _ _) Huser). reflexivity. }
  split.
  - intros Hnone. unfold app.orderProductHandler.
    rewrite Hread, Hvalid, Insert_stages. unfold Order.items. simpl default.
    rewrite Hitems. simpl default. rewrite Insert_reserve_cons.
    unfold OrderModel.Insert_select. rewrite Hlt.
    unfold map_err, SQL.select_product. rewrite bind_call, bind_guard, Hint.
    change (products (tick db)) with (products db). rewrite Hnone.
    reflexivity.
  - intros row Hrow Hname Hq Hv Hv' Hq' Hless.
    unfold app.orderProductHandler.
    rewrite Hread, Hvalid, Insert_stages. unfold Order.items. simpl default.
    rewrite Hitems. simpl default. rewrite Insert_reserve_cons.
    unfold OrderModel.Insert_select. rewrite Hlt.
    unfold map_err, SQL.select_product. rewrite bind_call, bind_guard, Hint.
    change (products (tick db)) with (products db). rewrite Hrow.
    unfold ret at 1. cbv iota beta.
    rewrite (Insert_update_out_of_stock item
               (Product.with_ID (OrderItem.ProductId item) row) (tick db) row);
      first reflexivity; try assumption; try reflexivity.
    simpl. lia.
Qed.

Lemma orderProductHandler_failures_are_server_errors_witness :
  app.orderProductHandler app.order_input ex_contextGetUser_ID ex_readJSON
    (app.mk_order_input (Some [OrderItem.mk 7 1]) "1 Main St")
    (ex_db (Some "quantity_check") true [(2, ex_product 2 10 1000 1)])
  = (app.serverErrorResponse ErrRecordNotFound,
     tick (ex_db (Some "quantity_check") true [(2, ex_product 2 10 1000 1)]))
  /\
  app.orderProductHandler app.order_input ex_contextGetUser_ID ex_readJSON
    (app.mk_order_input (Some [OrderItem.mk 2 11]) "1 Main St")
    (ex_db (Some "quantity_check") true [(2, ex_product 2 10 1000 1)])
  = (app.serverErrorResponse ErrOutOfStock,
     tick (tick (ex_db (Some "quantity_check") true
                   [(2, ex_product 2 10 1000 1)]))).
Proof.
  split.
  - apply (orderProductHandler_failures_are_server_errors app.order_input
             ex_contextGetUser_ID ex_readJSON
             (app.mk_order_input (Some [OrderItem.mk 7 1]) "1 Main St")
             (app.mk_order_input (Some [OrderItem.mk 7 1]) "1 Main St")
             (OrderItem.mk 7 1) []); try reflexivity; try done.
  - apply (proj2 (orderProductHandler_failures_are_server_errors
                    app.order_input ex_contextGetUser_ID ex_readJSON
                    (app.mk_order_input (Some [OrderItem.mk 2 11]) "1 Main St")
                    (app.mk_order_input (Some [OrderItem.mk 2 11]) "1 Main St")
                    (OrderItem.mk 2 11) []
                    (ex_db (Some "quantity_check") true
                       [(2, ex_product 2 10 1000 1)])
                    eq_refl ltac:(done) ltac:(done) eq_refl ltac:(done)
                    eq_refl)
             (ex_product 2 10 1000 1)); try reflexivity.
Defined.

(** ** A product read back after an update *)

(** X13. A product read back with [ProductModel.Get] after a successful
    [ProductModel.Update] has the owner, the description, the quantity
    and the images that were sent, the title and the colours as their
    columns hold them, and the version that was sent plus one, which is
    also the version [Update] hands back; its categories and its reviews
    are those of the joined tables, which the update has not touched.
    Nothing is said of the price that is read back: its column keeps two
    decimals of what was sent. *)
Theorem ProductModel_Get_after_Update (p p' : Product.t) (db db' : DB) :
  ProductModel.Update p db = (inr p', db') -> 1 <= Product.ID p ->
  p' = Product.with_Version (Product.Version p + 1) p /\
  exists title colors g,
    varchar 255 (Product.Title p) = Some title /\
    mapM (varchar 20) (Product.Colors p) = Some colors /\
    ProductModel.Get (Product.ID p) db' = (inr g, tick (tick (tick db'))) /\
    Product.ID g = Product.ID p /\
    Product.Title g = title /\
    Product.Owner g = Product.Owner p /\
    Product.Description g = Product.Description p /\
    Product.Quantity g = Product.Quantity p /\
    Product.Colors g = colors /\
    Product.Images g = Product.Images p /\
    Product.Version g = Product.Version p + 1 /\
    Product.Categories g
    = omap (fun pc : Z * Z =>
              if bool_decide (pc.1 = Product.ID p)
              then categories db !! pc.2 else None)
           (product_category db) /\
    Product.Ratings g = reviews_of db (Product.ID p).
Proof.
  unfold ProductModel.Update. unfold bind at 1, map_err.
  destruct (SQL.update_products p db) as [[e|v] db1] eqn:Hupdate; [done|].
  intros [= <- <-] Hid. revert Hupdate.
  unfold SQL.update_products. rewrite bind_call, !bind_guard.
  destruct (int4 (Product.Owner p)); [|done].
  destruct (int4 (Product.Quantity p)); [|done].
  destruct (int4 (Product.ID p)) eqn:Hint; [|done].
  destruct (int4 (Product.Version p)); [|done].
  change (products (tick db)) with (products db).
  destruct (products db !! Product.ID p) as [row|] eqn:Hrow; [|done].
  destruct (Z.eqb_spec (Product.Version row) (Product.Version p)) as [Hv|];
    [|done].
  rewrite !bind_guard.
  destruct (int4 (Product.Version row + 1)); [|done].
  destruct (numeric_10_2 _); [|done].
  destruct (varchar 255 _) as [title|]; [|done].
  destruct (mapM _ _) as [colors|]; [|done].
  unfold bind at 1.
  destruct (SQL.quantity_checked _ _ _) as [[e|[]] db2] eqn:Hcheck; [done|].
  assert (db2 = tick db) as ->.
  { revert Hcheck. unfold SQL.quantity_checked.
    destruct (quantity_check _); [|by intros [= <-]].
    unfold guard. destruct (0 <=? _); by intros [= <-]. }
  rewrite bind_guard. destruct (bool_decide _); [|done].
  rewrite bind_put. intros [= <- <-]. rewrite Hv.
  split; [reflexivity|]. exists title, colors. eexists.
  split; [reflexivity|]. split; [reflexivity|].
  split.
  { unfold ProductModel.Get. rewrite (proj2 (Z.ltb_ge _ _) Hid).
    unfold bind at 1, map_err, SQL.select_product.
    rewrite bind_call, bind_guard, Hint.
    cbv beta iota delta [products with_products tick].
    rewrite lookup_insert_eq. unfold ret at 1. cbv iota beta.
    cbn [Product.ID Product.with_ID].
    unfold bind at 1, SQL.select_categories_of.
    rewrite bind_call, bind_guard, Hint.
    cbv beta iota delta [products with_products tick].
    rewrite bool_decide_true by (rewrite lookup_insert_eq; eauto).
    unfold ret at 1. cbv iota beta.
    unfold bind at 1, ProductModel.GetReviews.
    rewrite (proj2 (Z.ltb_ge _ _) Hid).
    unfold SQL.select_ratings. rewrite bind_call, bind_guard, Hint.
    reflexivity. }
  repeat split.
Qed.

Lemma ProductModel_Get_after_Update_witness :
  exists g,
    ProductModel.Get 2
      (ProductModel.Update
         (Product.mk 2 "atlas   " 1 "a description" 4 ["red"] [] 1500 2 [] [])
         (ex_db_ordered true)).2
    = (inr g,
       tick (tick (tick
         (ProductModel.Update
            (Product.mk 2 "atlas   " 1 "a description" 4 ["red"] [] 1500 2
               [] [])
            (ex_db_ordered true)).2))) /\
    Product.Title g = "atlas   " /\ Product.Quantity g = 4 /\
    Product.Version g = 3.
Proof.
  assert (ProductModel.Update
            (Product.mk 2 "atlas   " 1 "a description" 4 ["red"] [] 1500 2
               [] [])
            (ex_db_ordered true)
          = (inr (Product.mk 2 "atlas   " 1 "a description" 4 ["red"] []
                    1500 3 [] []),
             (ProductModel.Update
                (Product.mk 2 "atlas   " 1 "a description" 4 ["red"] [] 1500
                   2 [] [])
                (ex_db_ordered true)).2)) as Hupdate
    by (vm_compute; reflexivity).
  destruct (ProductModel_Get_after_Update _ _ _ _ Hupdate ltac:(simpl; lia))
    as (_ & title & colors & g & Htitle & _ & Hget & _ & Hg & _ & _
        & Hquantity & _ & _ & Hversion & _).
  exists g. split; [exact Hget|].
  injection Htitle as <-. split; [exact Hg|].
  split; [exact Hquantity|exact Hversion].
Defined.

(** ** The orders of a user *)

Lemma GetAllOrdersForUser_items_run (listed : list Order.t) :
  forall db,
    Forall (fun o => int4 (Order.ID o) = true) listed ->
    exists db',
      OrderModel.GetAllOrdersForUser_items listed db
      = (inr ((fun o => OrderModel.append_items o (items_of db (Order.ID o)))
                <$> listed), db') /\
      same_tables db db' /\
      calls db' = (calls db + length listed)%nat.
Proof.
  induction listed as [|o listed IH]; intros db Hint.
  - exists db. simpl. split; [reflexivity|]. split; [apply same_tables_refl|].
    lia.
  - apply Forall_cons in Hint as [Ho Hint].
    destruct (IH (tick db) Hint) as (db' & Hrun & Hsame & Hcalls).
    exists db'. split; [|split].
    + simpl. unfold bind at 1, SQL.select_order_items.
      rewrite bind_call, bind_guard, Ho. unfold ret at 1. cbv iota beta.
      unfold bind at 1. rewrite Hrun. reflexivity.
    + eapply same_tables_trans; [apply same_tables_tick|exact Hsame].
    + rewrite Hcalls. simpl. lia.
Qed.

(** X14. [OrderModel.GetAllOrdersForUser] with a user id below 1 is
    [ErrRecordNotFound] and makes no call. Otherwise, for the rows the
    first statement selects, it returns one order per row, in their
    order, with the id, the status, the address and the total of the row
    and with the items [order_items] holds for it (none at all when it
    holds none); the user id and the version of every order it returns
    are 0. It makes one call for the rows and one more for each of them,
    and writes nothing. *)
Theorem GetAllOrdersForUser_lists
    (orders_page : Z -> Filters -> DB -> error + list (Z * Order.t))
    (userId : Z) (filters : Filters) (db : DB) (rows : list (Z * Order.t)) :
  1 <= userId ->
  orders_page userId filters (tick db) = inr rows ->
  Forall (fun row : Z * Order.t => int4 (Order.ID row.2) = true) rows ->
  (forall u, u < 1 ->
     OrderModel.GetAllOrdersForUser orders_page u filters db
     = (inl ErrRecordNotFound, db)) /\
  exists metadata db',
    OrderModel.GetAllOrdersForUser orders_page userId filters db
    = (inr ((fun row : Z * Order.t =>
               Order.mk (Order.ID row.2) (Order.Status row.2)
                 (Order.Address row.2) 0 (Order.TotalPrice row.2)
                 (match items_of db (Order.ID row.2) with
                  | [] => None
                  | items => Some items
                  end) 0) <$> rows, metadata), db') /\
    same_tables db db' /\
    calls db' = (calls db + 1 + length rows)%nat.
Proof.
  intros Huser Hrows Hint. split.
  { intros u Hu. unfold OrderModel.GetAllOrdersForUser.
    by rewrite (proj2 (Z.ltb_lt _ _) Hu). }
  unfold OrderModel.GetAllOrdersForUser.
  rewrite (proj2 (Z.ltb_ge _ _) Huser), bind_call, Hrows.
  destruct (GetAllOrdersForUser_items_run
              ((fun row : Z * Order.t => OrderModel.scan_listed row.2)
                 <$> rows) (tick db))
    as (db' & Hrun & Hsame & Hcalls).
  { apply Forall_fmap. eapply Forall_impl; [exact Hint|]. done. }
  unfold bind at 1. rewrite Hrun. eexists _, db'.
  split; [|split].
  - unfold ret. do 3 f_equal. rewrite <- list_fmap_compose.
    apply list_fmap_ext. intros i [count o] _. simpl.
    change (items_of (tick db) (Order.ID o)) with (items_of db (Order.ID o)).
    unfold OrderModel.append_items, OrderModel.scan_listed.
    by destruct (items_of db (Order.ID o)).
  - eapply same_tables_trans; [apply same_tables_tick|exact Hsame].
  - rewrite Hcalls, length_fmap. simpl. lia.
Qed.

Lemma GetAllOrdersForUser_lists_witness :
  exists metadata db',
    OrderModel.GetAllOrdersForUser
      (fun _ _ db => match orders db !! 1 with
                     | Some o => inr [(1, o)]
                     | None => inr []
                     end)
      1 (mk_Filters 1 20 "product_id" ["product_id"]) (ex_db_ordered true)
    = (inr ([Order.mk 1 0 "1 Main St" 0 1200 (Some [OrderItem.mk 2 2]) 0],
            metadata), db') /\
    orders (ex_db_ordered true) !! 1
    = Some (Order.mk 1 0 "1 Main St" 1 1200 None 1).
Proof.
  pose proof (GetAllOrdersForUser_lists
                (fun _ _ db => match orders db !! 1 with
                               | Some o => inr [(1, o)]
                               | None => inr []
                               end)
                1 (mk_Filters 1 20 "product_id" ["product_id"])
                (ex_db_ordered true)
                [(1, Order.mk 1 0 "1 Main St" 1 1200 None 1)]) as Hlists.
  destruct Hlists as (_ & metadata & db' & Hrun & _);
    [lia|vm_compute; reflexivity|repeat constructor|].
  exists metadata, db'. split; [exact Hrun|reflexivity].
Defined.

(** ** Two updates of an order from one reading *)

(** X15. [OrderModel.Update] does not move the version of the order: after
    an update that returned success the stored row has the new status and
    the version it had, and the order comes back as it was given. So a
    second update that carries the version read before the first one also
    returns success, and its status replaces the first one's. *)
Theorem OrderModel_Update_keeps_the_version
    (order order2 order' : Order.t) (db db' : DB) :
  OrderModel.Update order db = (inr order', db') ->
  Order.ID order2 = Order.ID order ->
  Order.Version order2 = Order.Version order ->
  int4 (Order.Status order2) = true ->
  order' = order /\
  exists row,
    orders db !! Order.ID order = Some row /\
    Order.Version row = Order.Version order /\
    orders db' !! Order.ID order
    = Some (Order.with_Status (Order.Status order) row) /\
    exists db'',
      OrderModel.Update order2 db' = (inr order2, db'') /\
      orders db'' !! Order.ID order
      = Some (Order.with_Status (Order.Status order2) row).
Proof.
  unfold OrderModel.Update at 1. unfold bind at 1, map_err.
  destruct (SQL.update_orders _ _ _ db) as [[e|v] db1] eqn:Hfirst; [done|].
  intros [= <- <-] Hid Hversion Hstatus.
  pose proof Hfirst as Hguards.
  apply update_orders_inr in Hfirst as (row & Hrow & Hv & -> & Horders).
  assert (int4 (Order.ID order) = true /\ int4 (Order.Version order) = true)
    as [Hint Hintv].
  { revert Hguards. unfold SQL.update_orders.
    rewrite bind_call, !bind_guard.
    destruct (int4 (Order.Status order)); [|done].
    destruct (int4 (Order.ID order)); [|done].
    destruct (int4 (Order.Version order)); done. }
  split; [rewrite Hv; by destruct order|].
  exists row. split; [exact Hrow|]. split; [exact Hv|].
  split; [rewrite Horders; apply lookup_insert_eq|].
  unfold OrderModel.Update, bind at 1, map_err, SQL.update_orders.
  rewrite bind_call, !bind_guard, Hstatus, Hid, Hversion, Hint, Hintv.
  change (orders (tick db1)) with (orders db1).
  rewrite Horders, lookup_insert_eq. cbn [Order.Version Order.with_Status].
  rewrite (proj2 (Z.eqb_eq _ _) Hv), bind_put.
  eexists. split.
  - unfold ret. cbv iota beta. rewrite Hv, <- Hversion.
    destruct order2; reflexivity.
  - cbv beta iota delta [orders with_orders].
    rewrite lookup_insert_eq. by destruct row.
Qed.

Lemma OrderModel_Update_keeps_the_version_witness :
  exists db'',
    OrderModel.Update (Order.mk 1 3 "1 Main St" 1 1200 None 1)
      (OrderModel.Update (Order.mk 1 2 "1 Main St" 1 1200 None 1)
         (ex_db_ordered true)).2
    = (inr (Order.mk 1 3 "1 Main St" 1 1200 None 1), db'') /\
    orders db'' !! 1 = Some (Order.mk 1 3 "1 Main St" 1 1200 None 1).
Proof.
  assert (OrderModel.Update (Order.mk 1 2 "1 Main St" 1 1200 None 1)
            (ex_db_ordered true)
          = (inr (Order.mk 1 2 "1 Main St" 1 1200 None 1),
             (OrderModel.Update (Order.mk 1 2 "1 Main St" 1 1200 None 1)
                (ex_db_ordered true)).2)) as Hfirst
    by (vm_compute; reflexivity).
  destruct (OrderModel_Update_keeps_the_version
              (Order.mk 1 2 "1 Main St" 1 1200 None 1)
              (Order.mk 1 3 "1 Main St" 1 1200 None 1) _ _ _
              Hfirst eq_refl eq_refl eq_refl)
    as (_ & row & Hrow & _ & _ & db'' & Hsecond & Hstored).
  exists db''. split; [exact Hsecond|].
  vm_compute in Hrow. injection Hrow as <-. exact Hstored.
Defined.
